(** * SSU-pport: ingestion-and-distribution pipeline

    A shallow embedding of the Python sources

      - [main.py]                   (ContentCrawler, process_ai_summary,
                                     send_email)
      - [ai/SuggestionEngine.py]    (SuggestionEngine)
      - [ai/SummaryContent.py]      (GeminiSummarizer)
      - [ai/langgraph_pipeline.py]  (LanggraphPipeline)
      - [tools/ocr_tool.py]         (perform_ocr_on_url, _get_ocr_instance)
      - [tools/calendar_tool.py]    (build_gcal_urls)
      - [tools/email_tool.py]       (EmailSender)
      - [db/dbPostgreSQL.py]        (EmailDB, the subscriber queries)

    The first part of the file holds the definitions, module by module;
    the second part holds the lemmas and the theorems about them, and the
    third part further properties of the same code.

    Conventions.  Python [str] values are Rocq [string]s holding the UTF-8
    bytes of the text.  Python objects of unknown shape (JSON produced by the
    summarization model, the dictionaries handed from stage to stage) are
    values of [pyval]; dictionaries are mutable objects living in a [store]
    and are referred to by address, so that aliasing and in-place update are
    visible.  A Python call that may raise returns [res A], the sum of an
    exception and a value. *)

From Stdlib Require Import ZArith List String Ascii QArith Lia Permutation.
From Stdlib Require Import DecimalString DecimalN.
From stdpp Require Import gmap strings list fin_maps.

Open Scope string_scope.
Open Scope Z_scope.

(* ===================================================================== *)
(** * Part I: definitions                                                 *)
(* ===================================================================== *)

(** ** Python built-ins used by the sources *)

Module Py.

(** *** Characters and strings *)

Definition nl : string := String "010" EmptyString.

Definition code (c : ascii) : nat := nat_of_ascii c.

(** [str.isspace] on the ASCII range: TAB, LF, VT, FF, CR, FS, GS, RS, US and
    SPACE.  Whitespace outside ASCII (U+0085, U+00A0, U+3000, ...) is not
    modelled: its UTF-8 bytes are treated as ordinary text. *)
Definition is_space (c : ascii) : bool :=
  ((9 <=? code c)%nat && (code c <=? 13)%nat) ||
  ((28 <=? code c)%nat && (code c <=? 32)%nat).

(** [\d] and the digits accepted by [int] on the ASCII range. *)
Definition is_digit (c : ascii) : bool :=
  (48 <=? code c)%nat && (code c <=? 57)%nat.

Definition is_upper (c : ascii) : bool :=
  (65 <=? code c)%nat && (code c <=? 90)%nat.

Definition is_lower (c : ascii) : bool :=
  (97 <=? code c)%nat && (code c <=? 122)%nat.

Definition digit_val (c : ascii) : Z := Z.of_nat (code c) - 48.

(** The whitespace [int] skips around an ASCII literal (C [isspace]). *)
Definition is_cspace (c : ascii) : bool :=
  ((9 <=? code c)%nat && (code c <=? 13)%nat) || (code c =? 32)%nat.

Fixpoint lstrip_by (p : ascii -> bool) (s : string) : string :=
  match s with
  | EmptyString => EmptyString
  | String c r => if p c then lstrip_by p r else s
  end.

Fixpoint rstrip_by (p : ascii -> bool) (s : string) : string :=
  match s with
  | EmptyString => EmptyString
  | String c r =>
      match rstrip_by p r with
      | EmptyString => if p c then EmptyString else String c EmptyString
      | r' => String c r'
      end
  end.

Definition strip_by (p : ascii -> bool) (s : string) : string :=
  lstrip_by p (rstrip_by p s).

(** [s.strip()] *)
Definition strip (s : string) : string := strip_by is_space s.

(** [s.replace(a, b)] for one-character [a] and [b]. *)
Fixpoint replace_char (a b : ascii) (s : string) : string :=
  match s with
  | EmptyString => EmptyString
  | String c r => String (if Ascii.eqb c a then b else c) (replace_char a b r)
  end.

(** [s.split(sep)] for a one-character separator: never the empty list. *)
Fixpoint split_char (sep : ascii) (s : string) : list string :=
  match s with
  | EmptyString => [EmptyString]
  | String c r =>
      if Ascii.eqb c sep then EmptyString :: split_char sep r
      else match split_char sep r with
           | h :: t => String c h :: t
           | [] => [String c EmptyString]
           end
  end.

(** [sep.join(l)] *)
Definition join (sep : string) (l : list string) : string := String.concat sep l.

(** [s.startswith(p)] *)
Definition startswith (p s : string) : bool := String.prefix p s.

(** [sub in s] for two strings *)
Fixpoint contains (sub s : string) : bool :=
  String.prefix sub s ||
  match s with
  | EmptyString => false
  | String _ r => contains sub r
  end.

(** [s.lower()] on the ASCII range; other bytes (Hangul has no case) are
    left as they are. *)
Definition lower_char (c : ascii) : ascii :=
  if is_upper c then ascii_of_nat (code c + 32) else c.

Fixpoint lower (s : string) : string :=
  match s with
  | EmptyString => EmptyString
  | String c r => String (lower_char c) (lower r)
  end.

Fixpoint repeat_char (c : ascii) (n : nat) : string :=
  match n with
  | O => EmptyString
  | S k => String c (repeat_char c k)
  end.

(** Every character of the text passes the test. *)
Fixpoint all_chars (p : ascii -> bool) (t : string) : bool :=
  match t with
  | EmptyString => true
  | String c r => p c && all_chars p r
  end.

(** Digits and the minus sign: what [f"{n:04d}"] is made of. *)
Definition is_numeric (c : ascii) : bool := is_digit c || Ascii.eqb c "-".

(** *** Integers and their text *)

(** Decimal digits of a natural number, [str(n)] for [n >= 0]. *)
Definition str_of_N (n : N) : string := NilZero.string_of_uint (N.to_uint n).

(** [str(z)] *)
Definition str_of_Z (z : Z) : string :=
  if z <? 0 then String "-" (str_of_N (Z.abs_N z)) else str_of_N (Z.abs_N z).

Definition zfill (w : nat) (digits : string) : string :=
  repeat_char "0" (w - String.length digits) ++ digits.

(** [f"{z:0Wd}"]: sign-aware zero padding to width [W]. *)
Definition format_0d (w : nat) (z : Z) : string :=
  if z <? 0 then String "-" (zfill (w - 1) (str_of_N (Z.abs_N z)))
  else zfill w (str_of_N (Z.abs_N z)).

(** The digit part of an [int] literal given as text: decimal digits, with
    single underscores allowed between digits. *)
Fixpoint int_digits (acc : Z) (after_digit : bool) (s : string) : option Z :=
  match s with
  | EmptyString => if after_digit then Some acc else None
  | String c r =>
      if is_digit c then int_digits (acc * 10 + digit_val c) true r
      else if Ascii.eqb c "_" then
        if after_digit then int_digits acc false r else None
      else None
  end.

(** [int(s)] for a string [s]: surrounding whitespace, an optional sign, then
    the digits.  [None] stands for [ValueError].  (Digits and whitespace
    outside ASCII, which [int] also accepts, are not modelled.) *)
Definition int_of_str (s : string) : option Z :=
  match strip_by is_cspace s with
  | String "-" r => option_map Z.opp (int_digits 0 false r)
  | String "+" r => int_digits 0 false r
  | t => int_digits 0 false t
  end.

(** *** [urllib.parse.quote] *)

Definition hex_digit (n : nat) : ascii :=
  if (n <? 10)%nat then ascii_of_nat (48 + n) else ascii_of_nat (55 + n).

Definition pct (c : ascii) : string :=
  String "%" (String (hex_digit (code c / 16))
             (String (hex_digit (code c mod 16)) EmptyString)).

Fixpoint mem_char (c : ascii) (s : string) : bool :=
  match s with
  | EmptyString => false
  | String d r => Ascii.eqb c d || mem_char c r
  end.

(** Characters [quote] never escapes: letters, digits and [_.-~]. *)
Definition always_safe (c : ascii) : bool :=
  is_upper c || is_lower c || is_digit c || mem_char c "_.-~".

(** [quote(v, safe=safe)]: every byte of the UTF-8 text that is neither
    always safe nor listed in [safe] becomes [%XX] (upper-case hex). *)
Fixpoint quote (safe : string) (v : string) : string :=
  match v with
  | EmptyString => EmptyString
  | String c r =>
      (if always_safe c || mem_char c safe
       then String c EmptyString else pct c) ++ quote safe r
  end.

(** *** Exceptions *)

Inductive exn_class :=
| KeyError | AttributeError | TypeError | ValueError | JSONDecodeError
| ImportError | OtherError.

(** An exception: its class and [str(e)]. *)
Record exn := Exn { exn_cls : exn_class; exn_str : string }.

Definition res (A : Type) : Type := exn + A.

Definition ret {A} (a : A) : res A := inr a.
Definition raise {A} (c : exn_class) (msg : string) : res A := inl (Exn c msg).

Definition bind {A B} (m : res A) (k : A -> res B) : res B :=
  match m with
  | inl e => inl e
  | inr a => k a
  end.

Definition raises {A} (m : res A) : Prop := exists e, m = inl e.
Definition returns {A} (m : res A) : Prop := exists a, m = inr a.

(** *** Values and the object store *)

Definition loc := positive.

(** Python values as the sources meet them: JSON-shaped data.  A dictionary is
    a mutable object, referred to by its address in the store; lists are
    never updated in place by the code modelled here and are kept as values.
    (JSON numbers with a fraction are left out.) *)
#[warnings="-register-all"]
Inductive pyval :=
| PNone
| PBool (b : bool)
| PInt (z : Z)
| PStr (s : string)
| PList (l : list pyval)
| PRef (r : loc).

(** The contents of a dictionary, in insertion order, keys unique. *)
Definition pydict := list (string * pyval).

(** The store: the dictionaries that exist, by address.  An address outside
    the store stands for an object that is not a dictionary. *)
Abbreviation store := (gmap loc pydict).

(** [d[k]] on the contents of a dictionary *)
Fixpoint dict_lookup (k : string) (d : pydict) : option pyval :=
  match d with
  | [] => None
  | (k', v) :: r => if String.eqb k k' then Some v else dict_lookup k r
  end.

(** [d[k] = v] on the contents of a dictionary: an existing key keeps its
    place, a new key goes last. *)
Fixpoint dict_set (k : string) (v : pyval) (d : pydict) : pydict :=
  match d with
  | [] => [(k, v)]
  | (k', v') :: r =>
      if String.eqb k k' then (k', v) :: r else (k', v') :: dict_set k v r
  end.

Definition as_dict (s : store) (v : pyval) : option pydict :=
  match v with
  | PRef r => s !! r
  | _ => None
  end.

(** [type(v).__name__] *)
Definition type_name (s : store) (v : pyval) : string :=
  match v with
  | PNone => "NoneType"
  | PBool _ => "bool"
  | PInt _ => "int"
  | PStr _ => "str"
  | PList _ => "list"
  | PRef r => match s !! r with Some _ => "dict" | None => "object" end
  end.

(** [bool(v)] *)
Definition truthy (s : store) (v : pyval) : bool :=
  match v with
  | PNone => false
  | PBool b => b
  | PInt z => negb (z =? 0)
  | PStr t => negb (String.eqb t EmptyString)
  | PList l => match l with [] => false | _ => true end
  | PRef r => match s !! r with Some [] => false | _ => true end
  end.

(** [a or b] *)
Definition py_or (s : store) (a b : pyval) : pyval :=
  if truthy s a then a else b.

Definition no_attribute {A} (s : store) (v : pyval) (attr : string) : res A :=
  raise AttributeError
    ("'" ++ type_name s v ++ "' object has no attribute '" ++ attr ++ "'").

(** [o.get(k, dflt)] *)
Definition py_get (s : store) (o : pyval) (k : string) (dflt : pyval) : res pyval :=
  match as_dict s o with
  | Some d => ret (default dflt (dict_lookup k d))
  | None => no_attribute s o "get"
  end.

(** [v.strip()] *)
Definition py_strip (s : store) (v : pyval) : res string :=
  match v with
  | PStr t => ret (strip t)
  | _ => no_attribute s v "strip"
  end.

(** [v.lower()] *)
Definition py_lower (s : store) (v : pyval) : res string :=
  match v with
  | PStr t => ret (lower t)
  | _ => no_attribute s v "lower"
  end.

Definition is_cont (c : ascii) : bool :=
  (128 <=? code c)%nat && (code c <? 192)%nat.

Fixpoint utf8_go (s : string) : string * list string :=
  match s with
  | EmptyString => (EmptyString, [])
  | String c r =>
      let '(p, l) := utf8_go r in
      if is_cont c then (String c p, l) else (EmptyString, String c p :: l)
  end.

(** The characters of a text: its UTF-8 bytes grouped by code point. *)
Definition utf8_chars (s : string) : list string :=
  let '(p, l) := utf8_go s in
  match p with EmptyString => l | _ => p :: l end.

(** The elements [for x in v] runs through. *)
Definition py_iter (s : store) (v : pyval) : res (list pyval) :=
  match v with
  | PList l => ret l
  | PStr t => ret (map PStr (utf8_chars t))
  | PRef r =>
      match s !! r with
      | Some d => ret (map (fun kv => PStr (fst kv)) d)
      | None => raise TypeError "'object' object is not iterable"
      end
  | _ => raise TypeError ("'" ++ type_name s v ++ "' object is not iterable")
  end.

(** [len(v)] *)
Definition py_len (s : store) (v : pyval) : res Z :=
  match v with
  | PList l => ret (Z.of_nat (length l))
  | PStr t => ret (Z.of_nat (length (utf8_chars t)))
  | PRef r =>
      match s !! r with
      | Some d => ret (Z.of_nat (length d))
      | None => raise TypeError "object of type 'object' has no len()"
      end
  | _ => raise TypeError ("object of type '" ++ type_name s v ++ "' has no len()")
  end.

(** [sub in v] for a string [sub] *)
Definition py_contains (s : store) (sub : string) (v : pyval) : res bool :=
  match v with
  | PStr t => ret (contains sub t)
  | PList l =>
      ret (existsb (fun x => match x with PStr t => String.eqb sub t | _ => false end) l)
  | PRef r =>
      match s !! r with
      | Some d => ret (match dict_lookup sub d with Some _ => true | None => false end)
      | None => raise TypeError "argument of type 'object' is not iterable"
      end
  | _ => raise TypeError ("argument of type '" ++ type_name s v ++ "' is not iterable")
  end.

(** [d.copy()]: a new dictionary with the same contents, at a fresh address. *)
Definition py_copy (s : store) (v : pyval) : res (loc * store) :=
  match as_dict s v with
  | Some d => let r := fresh (dom s) in ret (r, <[r := d]> s)
  | None => no_attribute s v "copy"
  end.

(** [o[k]] for a string key *)
Definition py_getitem (s : store) (o : pyval) (k : string) : res pyval :=
  match o with
  | PRef r =>
      match s !! r with
      | Some d =>
          match dict_lookup k d with
          | Some v => ret v
          | None => raise KeyError ("'" ++ k ++ "'")
          end
      | None => raise TypeError "'object' object is not subscriptable"
      end
  | PStr _ => raise TypeError "string indices must be integers, not 'str'"
  | PList _ => raise TypeError "list indices must be integers or slices, not str"
  | _ => raise TypeError ("'" ++ type_name s o ++ "' object is not subscriptable")
  end.

(** [o[k] = v] for a string key: the dictionary is updated in place. *)
Definition py_setitem (s : store) (o : pyval) (k : string) (v : pyval) : res store :=
  match o with
  | PRef r =>
      match s !! r with
      | Some d => ret (<[r := dict_set k v d]> s)
      | None => raise TypeError "'object' object does not support item assignment"
      end
  | PList _ => raise TypeError "list indices must be integers or slices, not str"
  | _ =>
      raise TypeError
        ("'" ++ type_name s o ++ "' object does not support item assignment")
  end.

(** Whether [o[:30]] can be taken (the value itself is only logged). *)
Definition py_slice_check (s : store) (o : pyval) : res unit :=
  match o with
  | PStr _ | PList _ => ret tt
  | PRef r =>
      match s !! r with
      | Some _ => raise KeyError "slice(None, 30, None)"
      | None => raise TypeError "'object' object is not subscriptable"
      end
  | _ => raise TypeError ("'" ++ type_name s o ++ "' object is not subscriptable")
  end.

Fixpoint all_str (l : list pyval) : option (list string) :=
  match l with
  | [] => Some []
  | PStr t :: r => option_map (cons t) (all_str r)
  | _ :: _ => None
  end.

(** [sep.join(v)] *)
Definition py_join (s : store) (sep : string) (v : pyval) : res string :=
  bind (py_iter s v) (fun l =>
    match all_str l with
    | Some ts => ret (join sep ts)
    | None => raise TypeError "sequence item: expected str instance"
    end).

(** *** Keys of a [set] or of a [dict] *)

Inductive hkey :=
| KNone
| KInt (z : Z)
| KStr (t : string)
| KObj (r : loc).

#[global] Instance hkey_eq_dec : EqDecision hkey.
Proof. solve_decision. Defined.

#[global] Instance hkey_countable : Countable hkey.
Proof.
  refine (inj_countable'
    (fun k => match k with
              | KNone => inl (inl tt)
              | KInt z => inl (inr z)
              | KStr t => inr (inl t)
              | KObj r => inr (inr r)
              end)
    (fun x => match x with
              | inl (inl _) => KNone
              | inl (inr z) => KInt z
              | inr (inl t) => KStr t
              | inr (inr r) => KObj r
              end) _).
  intros []; reflexivity.
Defined.

(** What a value is known by inside a [set]: [True == 1] and [False == 0]
    there; lists and dictionaries cannot be hashed. *)
Definition hash_key (s : store) (v : pyval) : res hkey :=
  match v with
  | PNone => ret KNone
  | PBool b => ret (KInt (if b then 1 else 0))
  | PInt z => ret (KInt z)
  | PStr t => ret (KStr t)
  | PList _ => raise TypeError "unhashable type: 'list'"
  | PRef r =>
      match s !! r with
      | Some _ => raise TypeError "unhashable type: 'dict'"
      | None => ret (KObj r)
      end
  end.

(** [str(v)] for a value that can be hashed. *)
Definition py_str (v : pyval) : string :=
  match v with
  | PNone => "None"
  | PBool true => "True"
  | PBool false => "False"
  | PInt z => str_of_Z z
  | PStr t => t
  | _ => "<object>"
  end.

(** Whether [o[:stop]] can be taken (the slice itself is only logged).  A
    dictionary takes the slice for a key and does not find it. *)
Definition py_slice_upto (s : store) (o : pyval) (stop : Z) : res unit :=
  match o with
  | PStr _ | PList _ => ret tt
  | PRef r =>
      match s !! r with
      | Some _ => raise KeyError ("slice(None, " ++ str_of_Z stop ++ ", None)")
      | None => raise TypeError "'object' object is not subscriptable"
      end
  | _ => raise TypeError ("'" ++ type_name s o ++ "' object is not subscriptable")
  end.

(** [v == t] for a text [t] *)
Definition py_eq_str (v : pyval) (t : string) : bool :=
  match v with
  | PStr u => String.eqb u t
  | _ => false
  end.


(** A new dictionary with the contents [d]: its address and the store that
    holds it. *)
Definition new_dict (s : store) (d : pydict) : loc * store :=
  let r := fresh (dom s) in (r, <[r := d]> s).


(** *** [urllib.parse.unquote_to_bytes] *)

Definition hex_val (c : ascii) : option nat :=
  if is_digit c then Some (code c - 48)%nat
  else if (65 <=? code c)%nat && (code c <=? 70)%nat then Some (code c - 55)%nat
  else if (97 <=? code c)%nat && (code c <=? 102)%nat then Some (code c - 87)%nat
  else None.

(** The inverse of [quote], as the receiving side applies it: every [%XX]
    with two hex digits becomes the byte [XX]; anything else stays. *)
Fixpoint unquote_to_bytes (t : string) : string :=
  match t with
  | EmptyString => EmptyString
  | String c r =>
      match r with
      | String a (String b r') =>
          if Ascii.eqb c "%" then
            match hex_val a, hex_val b with
            | Some h, Some l =>
                String (ascii_of_nat (16 * h + l)) (unquote_to_bytes r')
            | _, _ => String c (unquote_to_bytes r)
            end
          else String c (unquote_to_bytes r)
      | _ => String c (unquote_to_bytes r)
      end
  end.

End Py.

Notation "x <-- m ;; k" := (Py.bind m (fun x => k))
  (at level 100, m at next level, right associativity, only parsing).

(** ** [tools/calendar_tool.py] *)

Module Calendar.
Import Py.

(** [f"{year:04d}{month:02d}{day:02d}"] *)
Definition ymd (year month day : Z) : string :=
  format_0d 4 year ++ format_0d 2 month ++ format_0d 2 day.

(** [year, month, day = map(int, date_parts)] when the date has three parts.
    [None] is the [continue] of the source: not three parts, or [int] raised
    [ValueError] under the bare [except]. *)
Definition date_parts (date_str : string) : option (Z * Z * Z) :=
  match split_char "-" (replace_char "." "-" date_str) with
  | [y; m; d] =>
      match int_of_str y, int_of_str m, int_of_str d with
      | Some year, Some month, Some day => Some (year, month, day)
      | _, _, _ => None
      end
  | _ => None
  end.

(** The [dates] value of an event: ["2025.09.04"] gives
    ["20250904/20250905"]. *)
Definition gcal_dates (date_str : string) : option string :=
  match date_parts date_str with
  | Some (year, month, day) =>
      let start_date := ymd year month day in
      let end_date := ymd year month (day + 1) in
      Some (start_date ++ "/" ++ end_date)
  | None => None
  end.

(** The local helper [enc] of the source. *)
Definition enc (keep_slash : bool) (v : string) : string :=
  quote (if keep_slash then "/T:-_." else "-_.~") v.

Definition event_title (title description : string) : string :=
  if String.eqb description EmptyString then title
  else title ++ " - " ++ description.

Definition details (location summary : string) : string :=
  let lines : list string := [] in
  let lines :=
    if String.eqb location EmptyString then lines
    else app lines [ "[장소] " ++ location ] in
  let lines :=
    if String.eqb summary EmptyString then lines
    else app (match lines with [] => lines | _ => app lines [EmptyString] end)
             [summary] in
  join nl lines.

Definition query (title summary description location dates : string)
  : list (string * string) :=
  [ ("action", "TEMPLATE");
    ("text", enc false (event_title title description));
    ("dates", enc true dates);
    ("details", enc false (details location summary));
    ("ctz", enc false "Asia/Seoul") ].

Definition gcal_url (title summary description location dates : string) : string :=
  let qs :=
    join "&"
      (map (fun kv => fst kv ++ "=" ++ snd kv)
         (List.filter (fun kv => negb (String.eqb (snd kv) EmptyString))
            (query title summary description location dates))) in
  "https://calendar.google.com/calendar/render?" ++ qs.

(** A text field of a dictionary as the loop reads it: [d.get(k, "").strip()],
    defined when the value is text. *)
Definition str_field (k : string) (d : pydict) : option string :=
  match default (PStr EmptyString) (dict_lookup k d) with
  | PStr t => Some (strip t)
  | _ => None
  end.

(** One query parameter with its separator, left out when the value is
    empty. *)
Definition param (k v : string) : string :=
  if String.eqb v EmptyString then EmptyString else "&" ++ k ++ "=" ++ v.

(** The dictionary [d] is a schedule entry together with the link made from
    its own fields. *)
Definition link_of (title summary : string) (d : pydict) : Prop :=
  exists description date_str location dates,
    str_field "description" d = Some description /\
    str_field "date" d = Some date_str /\
    str_field "location" d = Some location /\
    gcal_dates date_str = Some dates /\
    dict_lookup "url" d
    = Some (PStr (gcal_url title summary description location dates)).

(** The three fields read from one schedule entry. *)
Definition entry_fields (s : store) (schedule_item : pyval)
  : res (string * string * string) :=
  d <-- py_get s schedule_item "description" (PStr EmptyString) ;;
  description <-- py_strip s d ;;
  t <-- py_get s schedule_item "date" (PStr EmptyString) ;;
  date_str <-- py_strip s t ;;
  l <-- py_get s schedule_item "location" (PStr EmptyString) ;;
  location <-- py_strip s l ;;
  ret (description, date_str, location).

(** The body of the [for] loop, over the entries still to visit; [result] is
    the list built so far, the store is threaded through. *)
Fixpoint schedule_loop (title summary : string) (items : list pyval)
    (result : list loc) (s : store) : res (list loc) * store :=
  match items with
  | [] => (ret result, s)
  | schedule_item :: rest =>
      match entry_fields s schedule_item with
      | inl e => (inl e, s)
      | inr (description, date_str, location) =>
          if String.eqb date_str EmptyString
          then schedule_loop title summary rest result s
          else
            match gcal_dates date_str with
            | None => schedule_loop title summary rest result s
            | Some dates =>
                let url := gcal_url title summary description location dates in
                match py_copy s schedule_item with
                | inl e => (inl e, s)
                | inr (result_item, s1) =>
                    let s2 := alter (dict_set "url" (PStr url)) result_item s1 in
                    schedule_loop title summary rest (app result [result_item]) s2
                end
            end
      end
  end.

(** [build_gcal_urls(item)]: the addresses of the returned dictionaries and
    the store after the call. *)
Definition build_gcal_urls (s : store) (item : pyval) : res (list loc) * store :=
  match py_get s item "schedule" (PList []) with
  | inl e => (inl e, s)
  | inr schedule =>
      if negb (truthy s schedule) then (ret [], s)
      else
        match
          (t <-- py_get s item "title" PNone ;;
           title <-- py_strip s (py_or s t (PStr "제목 없음")) ;;
           u <-- py_get s item "summary" PNone ;;
           summary <-- py_strip s (py_or s u (PStr EmptyString)) ;;
           items <-- py_iter s schedule ;;
           ret (title, summary, items))
        with
        | inl e => (inl e, s)
        | inr (title, summary, items) => schedule_loop title summary items [] s
        end
  end.

(** The [url] of each dictionary returned, read from the store after the
    call; nothing when the call raises. *)
Definition returned_urls (s : store) (item : pyval) : list (option pyval) :=
  match build_gcal_urls s item with
  | (inr result, s') => map (fun r => d ← s' !! r; dict_lookup "url" d) result
  | (inl _, _) => []
  end.


(** The characters a link may hold: those [quote] never escapes, the
    percent sign of an escape, and the punctuation of the link itself. *)
Definition url_char (c : ascii) : bool :=
  always_safe c || mem_char c "%/:?&=".

(** The entries the loop of [build_gcal_urls] runs through: the elements of
    the [schedule] of the item. *)
Definition schedule_items (s : store) (item : pyval) : list pyval :=
  match as_dict s item with
  | Some di =>
      match py_iter s (default (PList []) (dict_lookup "schedule" di)) with
      | inr items => items
      | inl _ => []
      end
  | None => []
  end.

(** In the store [s'] the dictionary at [r] is the entry [schedule_item]
    with a [url] set. *)
Definition entry_with_url (s' : store) (schedule_item : pyval) (r : loc) : Prop :=
  exists d url,
    as_dict s' schedule_item = Some d /\
    s' !! r = Some (dict_set "url" (PStr url) d).

End Calendar.

(** ** [datetime]: the part of the standard library the deadline rule uses *)

Module Datetime.
Import Py.

(** A naive [datetime]: a calendar date and the microseconds elapsed since
    midnight. *)
Record datetime := DT { year : Z; month : Z; day : Z; micros : Z }.

Definition is_leap (y : Z) : bool :=
  (y mod 4 =? 0) && (negb (y mod 100 =? 0) || (y mod 400 =? 0)).

Definition days_in_month (y m : Z) : Z :=
  if m =? 2 then (if is_leap y then 29 else 28)
  else if (m =? 4) || (m =? 6) || (m =? 9) || (m =? 11) then 30
  else 31.

Definition days_before_year (y : Z) : Z :=
  let p := y - 1 in p * 365 + p / 4 - p / 100 + p / 400.

Fixpoint days_before_month_nat (y : Z) (m : nat) : Z :=
  match m with
  | O => 0
  | S k => days_before_month_nat y k + days_in_month y (Z.of_nat (S k))
  end.

(** Days of the year before the first of month [m]. *)
Definition days_before_month (y m : Z) : Z :=
  days_before_month_nat y (Z.to_nat (m - 1)).

Definition valid_date (y m d : Z) : bool :=
  (1 <=? y) && (y <=? 9999) && (1 <=? m) && (m <=? 12) &&
  (1 <=? d) && (d <=? days_in_month y m).

(** [datetime(y, m, d)]: midnight of that day; [ValueError] when the date
    does not exist. *)
Definition make (y m d : Z) : res datetime :=
  if negb ((1 <=? y) && (y <=? 9999)) then
    raise ValueError ("year " ++ str_of_Z y ++ " is out of range")
  else if negb ((1 <=? m) && (m <=? 12)) then
    raise ValueError "month must be in 1..12"
  else if negb ((1 <=? d) && (d <=? days_in_month y m)) then
    raise ValueError "day is out of range for month"
  else ret (DT y m d 0).

(** [date.toordinal()]: 1 for 0001-01-01. *)
Definition toordinal (t : datetime) : Z :=
  days_before_year (year t) + days_before_month (year t) (month t) + day t.

Definition micros_per_day : Z := 86400000000.

(** [(a - b).days]: the difference rounded down to whole days. *)
Definition sub_days (a b : datetime) : Z :=
  ((toordinal a - toordinal b) * micros_per_day + (micros a - micros b))
  / micros_per_day.

(** The day after a calendar date. *)
Definition next_day (y m d : Z) : Z * Z * Z :=
  if d <? days_in_month y m then (y, m, d + 1)
  else if m <? 12 then (y, m + 1, 1)
  else (y + 1, 1, 1).

End Datetime.

(** ** [ai/SuggestionEngine.py] *)

Module SuggestionEngine.
Import Py Datetime.

(** *** The three date patterns of [_generate_deadline_suggestions] *)

Inductive pattern :=
| Dotted   (* (\d{4})\.(\d{1,2})\.(\d{1,2}) *)
| Dashed   (* (\d{4})-(\d{1,2})-(\d{1,2})   *)
| Slashed. (* (\d{1,2})/(\d{1,2})/(\d{4})   *)

Definition date_patterns : list pattern := [Dotted; Dashed; Slashed].

(** [\d{n}] at the head of the text: the digits and what follows them. *)
Fixpoint digits_exact (n : nat) (t : string) : option (string * string) :=
  match n with
  | O => Some (EmptyString, t)
  | S k =>
      match t with
      | String c r =>
          if is_digit c then
            match digits_exact k r with
            | Some (ds, rest) => Some (String c ds, rest)
            | None => None
            end
          else None
      | EmptyString => None
      end
  end.

(** [\d{1,2}] at the head of the text, greedy.  When what follows in the
    pattern is a literal separator, giving back the second digit never helps
    (the separator would have to be that digit), so the greedy choice is the
    only one to try. *)
Definition digits_1_2 (t : string) : option (string * string) :=
  match digits_exact 2 t with
  | Some r => Some r
  | None => digits_exact 1 t
  end.

Definition literal (c : ascii) (t : string) : option string :=
  match t with
  | String d r => if Ascii.eqb c d then Some r else None
  | EmptyString => None
  end.

(** A match of the pattern starting at the head of the text: its groups. *)
Definition match_here (p : pattern) (t : string) : option (string * string * string) :=
  match p with
  | Dotted | Dashed =>
      let sep := match p with Dotted => "."%char | _ => "-"%char end in
      '(g1, r) ← digits_exact 4 t;
      r ← literal sep r;
      '(g2, r) ← digits_1_2 r;
      r ← literal sep r;
      '(g3, _) ← digits_1_2 r;
      Some (g1, g2, g3)
  | Slashed =>
      '(g1, r) ← digits_1_2 t;
      r ← literal "/" r;
      '(g2, r) ← digits_1_2 r;
      r ← literal "/" r;
      '(g3, _) ← digits_exact 4 r;
      Some (g1, g2, g3)
  end.

(** [re.search(pattern, t)]: the leftmost match. *)
Fixpoint re_search (p : pattern) (t : string) : option (string * string * string) :=
  match match_here p t with
  | Some g => Some g
  | None =>
      match t with
      | String _ r => re_search p r
      | EmptyString => None
      end
  end.



(** [int(g)] for a group of the match. *)
Definition group_int (g : string) : res Z :=
  match int_of_str g with
  | Some z => ret z
  | None =>
      raise ValueError ("invalid literal for int() with base 10: '" ++ g ++ "'")
  end.

(** The body of the [try] inside the pattern loop:
    [datetime(int(year), int(month), int(day))]. *)
Definition deadline_of_groups (p : pattern) (g : string * string * string)
  : res datetime :=
  let '(g1, g2, g3) := g in
  let '(year, month, day) :=
    match p with
    | Slashed => (g3, g1, g2)   (* month, day, year = match.groups() *)
    | _ => (g1, g2, g3)         (* year, month, day = match.groups() *)
    end in
  y <-- group_int year ;;
  m <-- group_int month ;;
  d <-- group_int day ;;
  Datetime.make y m d.

(** The loop over [date_patterns]: [break] at the first pattern whose match
    is a date that exists, [continue] on [ValueError], the one exception the
    body can raise. *)
Fixpoint find_deadline (ps : list pattern) (t : string) : option datetime :=
  match ps with
  | [] => None
  | p :: rest =>
      match re_search p t with
      | Some g =>
          match deadline_of_groups p g with
          | inr d => Some d
          | inl _ => find_deadline rest t
          end
      | None => find_deadline rest t
      end
  end.

(** The message of each bucket of [days_left]. *)
Definition deadline_message (days_left : Z) : string :=
  if days_left <? 0 then
    "⚠️ 마감일이 지났습니다. 연장 가능 여부를 확인해보세요"
  else if days_left =? 0 then
    "🚨 오늘이 마감일입니다!"
  else if days_left <=? 3 then
    "⏰ " ++ str_of_Z days_left ++ "일 후 마감입니다. 서둘러 준비하세요!"
  else if days_left <=? 7 then
    "📅 일주일 내 마감(" ++ str_of_Z days_left ++ "일 후)입니다. 미리 준비하세요"
  else if days_left <=? 14 then
    "📋 2주 내 마감입니다. 필요한 서류를 준비해보세요"
  else
    "📆 마감까지 " ++ str_of_Z days_left ++ "일 남았습니다. 계획적으로 준비하세요".

Definition msg_no_deadline : string := "⏰ 마감일을 별도로 확인해주세요".
Definition msg_check_format : string := "📅 마감일 형식을 확인하여 일정을 관리하세요".
Definition msg_mark_calendar : string := "📅 마감일을 달력에 표시해두세요".

Section Engine.

(** The object store the arguments live in; the engine only reads it. *)
Variable s : store.

(** [_generate_deadline_suggestions(date_str)], at the time [now] read from
    the clock.  [re.search] raises [TypeError] on a value that is not text;
    nothing has been appended when that happens, so the handler returns its
    message alone. *)
Definition _generate_deadline_suggestions (now : datetime) (date_str : pyval)
  : list string :=
  if negb (truthy s date_str) then [msg_no_deadline]
  else
    let body : res (list string) :=
      match date_str with
      | PStr t =>
          match find_deadline date_patterns t with
          | Some deadline => ret [deadline_message (sub_days deadline now)]
          | None => ret [msg_check_format]
          end
      | _ =>
          raise TypeError
            ("expected string or bytes-like object, got '"
               ++ type_name s date_str ++ "'")
      end in
    match body with
    | inr suggestions => suggestions
    | inl _ => [msg_mark_calendar]
    end.

(** *** The [try] blocks that build a list of suggestions

    A computation of type [acc A] runs against the list built so far; when it
    raises, the list keeps what had been appended before, which is what the
    [except] handlers of the engine then extend. *)

Definition acc (A : Type) : Type := list string -> res A * list string.

Definition acc_ret {A} (a : A) : acc A := fun l => (ret a, l).

Definition acc_bind {A B} (m : acc A) (k : A -> acc B) : acc B :=
  fun l =>
    match m l with
    | (inl e, l') => (inl e, l')
    | (inr a, l') => k a l'
    end.

Definition lift {A} (m : res A) : acc A := fun l => (m, l).

(** [suggestions.append(x)] and [suggestions.extend(xs)] *)
Definition append (x : string) : acc unit := fun l => (ret tt, app l [x]).
Definition extend (xs : list string) : acc unit := fun l => (ret tt, app l xs).

Definition when (b : bool) (m : acc unit) : acc unit :=
  if b then m else acc_ret tt.

Fixpoint for_each {A} (f : A -> acc unit) (l : list A) : acc unit :=
  match l with
  | [] => acc_ret tt
  | x :: r => acc_bind (f x) (fun _ => for_each f r)
  end.

(** [a or b] on two tests, the second evaluated only when the first is
    false. *)
Definition or_else (a b : res bool) : res bool :=
  bind a (fun x => if x then ret true else b).

Notation "x <~ m ;; k" := (acc_bind m (fun x => k))
  (at level 100, m at next level, right associativity, only parsing).

Section Parsing.

Variable now : datetime.
Variable parsed_data : pyval.

Definition title_rule : acc unit :=
  title <~ lift (py_get s parsed_data "title" (PStr EmptyString)) ;;
  scholarship <~ lift (py_contains s "장학" title) ;;
  if scholarship then append "💰 장학금 공지입니다. 자격요건을 꼼꼼히 확인해보세요"
  else
    job <~ lift (or_else (py_contains s "취업" title)
                         (py_contains s "채용" title)) ;;
    if job then append "💼 취업/채용 관련 공지입니다. 지원 자격과 마감일을 확인해보세요"
    else
      abroad <~ lift (or_else (py_contains s "교환학생" title)
                              (py_contains s "해외" title)) ;;
      when abroad (append "✈️ 국제교류 관련 공지입니다. 어학점수 요건을 미리 확인해보세요").

Definition schedule_rule : acc unit :=
  schedules <~ lift (py_get s parsed_data "schedule" (PList [])) ;;
  if truthy s schedules then
    items <~ lift (py_iter s schedules) ;;
    for_each
      (fun schedule =>
         description <~ lift (py_get s schedule "description" (PStr EmptyString)) ;;
         closing <~ lift (py_contains s "마감" description) ;;
         if closing then
           date_str <~ lift (py_get s schedule "date" (PStr EmptyString)) ;;
           extend (_generate_deadline_suggestions now date_str)
         else acc_ret tt)
      items
  else append "⏰ 일정 정보가 없습니다. 관련 부서에 문의하여 마감일을 확인해보세요".

(** The shape shared by the last three rules: read a field and, when it is
    truthy, test it for each keyword in turn. *)
Definition keyword_rule (field : string) (rules : list (string * string)) : acc unit :=
  v <~ lift (py_get s parsed_data field (PStr EmptyString)) ;;
  when (truthy s v)
    (for_each
       (fun kw =>
          hit <~ lift (py_contains s (fst kw) v) ;;
          when hit (append (snd kw)))
       rules).

Definition application_method_rule : acc unit :=
  keyword_rule "application_method"
    [ ("온라인", "🌐 온라인 신청 - 브라우저 호환성과 인터넷 연결을 확인해주세요");
      ("방문", "🚪 직접 방문 제출 - 운영시간과 필요 서류를 미리 준비해주세요");
      ("이메일", "📧 이메일 제출 - 파일 용량 제한과 첨부파일 형식을 확인해주세요") ].

Definition target_rule : acc unit :=
  keyword_rule "target"
    [ ("학년", "🎓 학년 제한이 있습니다. 본인의 해당 여부를 확인해주세요");
      ("학과", "📚 특정 학과 대상입니다. 본인 학과의 해당 여부를 확인해주세요") ].

Definition important_notes_rule : acc unit :=
  keyword_rule "important_notes"
    [ ("정원", "👥 모집 정원이 있습니다. 조기 신청을 권장합니다");
      ("서류", "📋 필요 서류가 있습니다. 미리 준비해두시면 좋습니다");
      ("면접", "🗣️ 면접이 있을 수 있습니다. 관련 자료를 미리 준비해보세요") ].

Definition msg_check_details : string := "❓ 상세 내용을 직접 확인해주세요".

(** [generate_parsing_suggestions(parsed_data)] *)
Definition generate_parsing_suggestions : list string :=
  let body :=
    _ <~ title_rule ;;
    _ <~ schedule_rule ;;
    _ <~ application_method_rule ;;
    _ <~ target_rule ;;
    important_notes_rule in
  match body [] with
  | (inr _, suggestions) => suggestions
  | (inl _, suggestions) => app suggestions [msg_check_details]
  end.

End Parsing.

(** *** Error classification *)

Inductive error_class :=
| Credential | Connectivity | MalformedResponse | Validation | Other.

Definition error_messages (c : error_class) : list string :=
  match c with
  | Credential =>
      [ "🔑 API 키를 확인해주세요";
        "🔧 환경변수 GOOGLE_API_KEY 설정을 확인해주세요";
        "📱 API 사용량 한도를 확인해주세요" ]
  | Connectivity =>
      [ "🌐 인터넷 연결을 확인해주세요";
        "🔄 잠시 후 다시 시도해주세요";
        "🛡️ 방화벽 설정을 확인해주세요" ]
  | MalformedResponse =>
      [ "📝 입력 데이터 형식을 확인해주세요";
        "🔄 다시 시도해주세요";
        "📞 기술지원팀에 문의해주세요" ]
  | Validation =>
      [ "✅ 필수 필드가 모두 입력되었는지 확인해주세요";
        "📏 입력 데이터의 길이와 형식을 확인해주세요";
        "🔍 입력값을 다시 검토해주세요" ]
  | Other =>
      [ "🔄 잠시 후 다시 시도해주세요";
        "📞 관리자에게 문의해주세요";
        "📝 오류 상황을 기록해두시면 도움이 됩니다" ]
  end.

Definition lower_has (sub : string) (v : pyval) : res bool :=
  bind (py_lower s v) (fun t => ret (contains sub t)).

(** The [if]/[elif] chain of [generate_error_suggestions]. *)
Definition classify_error (error_type error_message : pyval) : res error_class :=
  c <-- or_else (lower_has "api" error_type) (lower_has "key" error_message) ;;
  if c then ret Credential else
  c <-- or_else (lower_has "network" error_type) (lower_has "connection" error_message) ;;
  if c then ret Connectivity else
  c <-- or_else (lower_has "json" error_type) (lower_has "parsing" error_message) ;;
  if c then ret MalformedResponse else
  c <-- lower_has "validation" error_type ;;
  if c then ret Validation else ret Other.

Definition msg_support : string := "📞 기술지원팀에 문의해주세요".

(** [generate_error_suggestions(error_type, error_message)] *)
Definition generate_error_suggestions (error_type error_message : pyval)
  : list string :=
  match classify_error error_type error_message with
  | inr c => error_messages c
  | inl _ => [msg_support]
  end.

(** *** Advice by category *)

Definition msg_department : string := "📞 담당 부서에 직접 문의해주세요".

(** [generate_general_suggestions(category)] *)
Definition generate_general_suggestions (category : pyval) : list string :=
  let body : res (list string) :=
    category <-- py_lower s category ;;
    if contains "장학" category then
      ret [ "💡 다른 장학금도 함께 검토해보세요";
            "📋 지원 서류를 미리 준비해두세요";
            "⏰ 마감일 전에 여유있게 신청하세요" ]
    else if contains "취업" category || contains "채용" category then
      ret [ "📄 이력서와 자기소개서를 미리 준비하세요";
            "🔍 회사 정보를 미리 조사해보세요";
            "💼 관련 자격증이나 경험을 정리해보세요" ]
    else if contains "교육" category || contains "강의" category then
      ret [ "📚 사전 학습 자료가 있는지 확인해보세요";
            "🕐 수업 시간표를 미리 확인하세요";
            "📝 필요한 준비물이 있는지 확인해보세요" ]
    else if contains "행사" category then
      ret [ "🎫 참가 신청 방법을 미리 확인하세요";
            "📍 행사 장소와 교통편을 확인해보세요";
            "👕 드레스코드가 있는지 확인해보세요" ]
    else
      ret [ "📖 공지사항을 주기적으로 확인하세요";
            "❓ 궁금한 점은 담당자에게 문의하세요";
            "📱 관련 앱이나 웹사이트를 북마크해두세요" ] in
  match body with
  | inr suggestions => suggestions
  | inl _ => [msg_department]
  end.

(** *** Advice on the quality of the data *)

Definition msg_incomplete : string := "⚠️ 일부 정보가 누락되어 있습니다".
Definition msg_read_original : string := "🔍 원문을 직접 확인해주세요".

(** The [if]/[elif] chain on one missing field. *)
Definition missing_field_rule (field : pyval) : acc unit :=
  if py_eq_str field "summary" then
    append "📝 요약 정보를 더 상세히 확인해주세요"
  else if py_eq_str field "schedule" then
    append "⏰ 일정 정보를 별도로 확인해주세요"
  else if py_eq_str field "target" then
    append "🎯 신청 대상을 별도로 확인해주세요"
  else acc_ret tt.

(** The [if]/[elif] chain on one warning. *)
Definition warning_rule (warning : pyval) : acc unit :=
  about_schedule <~ lift (py_contains s "일정" warning) ;;
  if about_schedule then append "📅 공식 홈페이지에서 일정을 다시 확인해보세요"
  else
    about_target <~ lift (py_contains s "대상" warning) ;;
    when about_target (append "👤 신청 자격을 관련 부서에 직접 문의해보세요").

(** [generate_quality_suggestions(data_quality)] *)
Definition generate_quality_suggestions (data_quality : pyval) : list string :=
  let body :=
    is_complete <~ lift (py_get s data_quality "is_complete" (PBool true)) ;;
    _ <~ when (negb (truthy s is_complete))
           (_ <~ append msg_incomplete ;;
            missing_fields <~ lift (py_get s data_quality "missing_fields" (PList [])) ;;
            fields <~ lift (py_iter s missing_fields) ;;
            for_each missing_field_rule fields) ;;
    warnings <~ lift (py_get s data_quality "warnings" (PList [])) ;;
    when (truthy s warnings)
      (items <~ lift (py_iter s warnings) ;;
       for_each warning_rule items) in
  match body [] with
  | (inr _, suggestions) => suggestions
  | (inl _, suggestions) => app suggestions [msg_read_original]
  end.

(** *** Consolidation *)

(** Duplicates removed, each element staying where it was first seen. *)
Fixpoint first_seen (l : list string) : list string :=
  match l with
  | [] => []
  | x :: r => x :: List.filter (fun y => negb (String.eqb x y)) (first_seen r)
  end.

(** The first loop: [extend] with every entry that is a list. *)
Fixpoint flatten (suggestion_lists : list pyval) : list pyval :=
  match suggestion_lists with
  | [] => []
  | PList l :: rest => app l (flatten rest)
  | _ :: rest => flatten rest
  end.

(** The second loop, over what is left of [all_suggestions]. *)
Fixpoint unique_loop (all_suggestions unique_suggestions : list pyval)
    (seen : gset hkey) : res (list pyval) :=
  match all_suggestions with
  | [] => ret unique_suggestions
  | suggestion :: rest =>
      k <-- hash_key s suggestion ;;
      if decide (k ∈ seen) then unique_loop rest unique_suggestions seen
      else unique_loop rest (app unique_suggestions [suggestion]) ({[k]} ∪ seen)
  end.

(** [l[:n]] *)
Definition slice_to {A} (n : Z) (l : list A) : list A :=
  if n <? 0 then take (Z.to_nat (Z.of_nat (length l) + n)) l
  else take (Z.to_nat n) l.

Definition msg_ask_department : string := "📞 관련 부서에 직접 문의해주세요".

(** [consolidate_suggestions(suggestion_lists, max_suggestions)] *)
Definition consolidate_suggestions (suggestion_lists : list pyval)
    (max_suggestions : Z) : list pyval :=
  let body : res (list pyval) :=
    unique_suggestions <-- unique_loop (flatten suggestion_lists) [] ∅ ;;
    ret (slice_to max_suggestions unique_suggestions) in
  match body with
  | inr final_suggestions => final_suggestions
  | inl _ => [PStr msg_ask_department]
  end.

(** The default of [max_suggestions]. *)
Definition default_max_suggestions : Z := 10.

End Engine.

End SuggestionEngine.

(** ** [tools/ocr_tool.py] *)

Module OcrTool.
Import Py.

(** What [ocr.predict] hands back, as far as the code looks into it. *)
Inductive ocr_result :=
| ResultObject (rec_texts : pyval)          (* has the attribute rec_texts *)
| ResultDict (rec_texts : option pyval)     (* a dict, with the key or not *)
| ResultOther.

Inductive ocr_results :=
| ResultsFalsy                                   (* None, an empty list *)
| ResultsList (first : ocr_result) (rest : list ocr_result)
| ResultsOther.                                  (* truthy, not a list *)

Section Ocr.

Variable s : store.

(** The services behind the function.  [image] is the pixel array. *)
Variable image : Type.
(** Steps 1 to 3: [requests.get], [raise_for_status], [Image.open],
    [convert], [np.array]. *)
Variable download : pyval -> res image.
(** [_get_ocr_instance()]: raises when PaddleOCR is missing or fails to
    start. *)
Variable ocr_instance : res unit.
(** [ocr.predict(img_array)] *)
Variable predict : image -> res ocr_results.

(** The lines taken from the first result; [None] is the early
    [return ""] on a result of unexpected structure. *)
Definition text_lines_of (results : ocr_results) : res (option pyval) :=
  match results with
  | ResultsList (ResultObject t) _ | ResultsList (ResultDict (Some t)) _ =>
      _ <-- py_len s t ;;      (* the log line takes len(text_lines) *)
      ret (Some t)
  | ResultsList _ _ => ret None
  | _ => ret (Some (PList []))
  end.

Definition ocr_body (img_url : pyval) : res string :=
  img_array <-- download img_url ;;
  _ <-- ocr_instance ;;
  results <-- predict img_array ;;
  match results with
  | ResultsFalsy => ret EmptyString
  | _ =>
      lines <-- text_lines_of results ;;
      match lines with
      | None => ret EmptyString
      | Some text_lines =>
          if truthy s text_lines then py_join s nl text_lines
          else ret EmptyString
      end
  end.

(** [perform_ocr_on_url(img_url)] *)
Definition perform_ocr_on_url (img_url : pyval) : string :=
  match ocr_body img_url with
  | inr ocr_text => ocr_text
  | inl _ => EmptyString
  end.

End Ocr.

(** *** The shared engine *)

Section Instance.

(** The OCR engine object. *)
Variable engine : Type.
(** [PADDLEOCR_AVAILABLE]: the import at the top of the module went
    through. *)
Variable PADDLEOCR_AVAILABLE : bool.
(** [PaddleOCR(use_textline_orientation=True, lang='korean')]: what the
    constructor gives the [n]-th time it is called. *)
Variable PaddleOCR : nat -> res engine.

(** The state of the module: the global [_ocr_instance], and the number of
    times the constructor has been called so far. *)
Record module_state := ModuleState {
  _ocr_instance : option engine;
  constructed : nat
}.

(** [_get_ocr_instance()] *)
Definition _get_ocr_instance (g : module_state) : res engine * module_state :=
  match _ocr_instance g with
  | Some ocr => (ret ocr, g)
  | None =>
      if negb PADDLEOCR_AVAILABLE then
        (raise ImportError "PaddleOCR가 설치되지 않았습니다.", g)
      else
        match PaddleOCR (constructed g) with
        | inr ocr => (ret ocr, ModuleState (Some ocr) (S (constructed g)))
        | inl e => (inl e, ModuleState None (S (constructed g)))
        end
  end.

(** What [n] calls in a row return, and the state they leave. *)
Fixpoint repeated_calls (n : nat) (g : module_state)
  : list (res engine) * module_state :=
  match n with
  | O => ([], g)
  | S k =>
      let '(r, g1) := _get_ocr_instance g in
      let '(rs, g2) := repeated_calls k g1 in
      (r :: rs, g2)
  end.

End Instance.

End OcrTool.

(** ** [ai/SummaryContent.py] *)

Module SummaryContent.
Import Py.

(** The text between the first opening brace and the last closing brace:
    the match of [\{.*\}] with [re.DOTALL]. *)
Fixpoint upto_last (c : ascii) (t : string) : option string :=
  match t with
  | EmptyString => None
  | String d r =>
      match upto_last c r with
      | Some p => Some (String d p)
      | None => if Ascii.eqb d c then Some (String d EmptyString) else None
      end
  end.

Fixpoint from_first (c : ascii) (t : string) : option string :=
  match t with
  | EmptyString => None
  | String d r => if Ascii.eqb d c then Some t else from_first c r
  end.

Definition brace_span (raw : string) : option string :=
  t ← from_first "{" raw; upto_last "}" t.

Definition failure_prefix : string := "요약에 실패했습니다".

Section Summarizer.

(** [self.model] was set by the constructor. *)
Variable model_ready : bool.
(** The summarization service: [response.text] for the prompt formatted from
    the title, the extracted texts and the raw content. *)
Variable generate_content : pyval -> list (pyval * pyval) -> pyval -> res string.
(** [json.loads] *)
Variable json_loads : string -> res pyval.

(** [GeminiSummarizer().summarize(title, ocr_text, content)] *)
Definition summarize (title : pyval) (ocr_text : list (pyval * pyval))
    (content : pyval) : string :=
  if negb model_ready then
    "요약에 실패했습니다. 모델이 초기화되지 않았습니다."
  else
    let body : res string :=
      raw_response_text <-- generate_content title ocr_text content ;;
      match brace_span raw_response_text with
      | Some json_string =>
          _ <-- json_loads json_string ;;
          ret (strip json_string)
      | None =>
          raise ValueError "LLM 응답에서 유효한 JSON을 찾을 수 없습니다."
      end in
    match body with
    | inr json_string => json_string
    | inl e =>
        let error_msg := "요약 중 예상치 못한 오류: " ++ exn_str e in
        "요약에 실패했습니다: " ++ error_msg
    end.

End Summarizer.

(** *** The checks around the summarizer *)


(** What [_extract_and_validate_json] returns: with the status [success] the
    JSON text and its parsed value, with the status [error] a message and
    suggestions. *)
Inductive extraction :=
| Extracted (json_string : string) (parsed_data : pyval)
| NotExtracted (error : string) (suggestions : list string).

Section Checks.

Variable s : store.
Variable json_loads : string -> res pyval.



(** [_extract_and_validate_json(response_text)] *)
Definition _extract_and_validate_json (response_text : pyval) : extraction :=
  match response_text with
  | PStr t =>
      match brace_span t with
      | None =>
          NotExtracted "LLM 응답에서 JSON 형식을 찾을 수 없습니다"
            ["프롬프트를 수정하거나 다시 시도해주세요"]
      | Some json_string =>
          match json_loads json_string with
          | inr parsed_data => Extracted (strip json_string) parsed_data
          | inl e =>
              match exn_cls e with
              | JSONDecodeError =>
                  NotExtracted ("JSON 형식 오류: " ++ exn_str e)
                    ["응답 형식을 다시 확인해주세요"]
              | _ =>
                  NotExtracted ("JSON 추출 중 오류: " ++ exn_str e)
                    ["응답 형식을 확인하거나 다시 시도해주세요"]
              end
          end
      end
  | _ =>
      NotExtracted
        ("JSON 추출 중 오류: " ++ "expected string or bytes-like object, got '"
           ++ type_name s response_text ++ "'")
        ["응답 형식을 확인하거나 다시 시도해주세요"]
  end.

End Checks.

End SummaryContent.

(** ** [ai/langgraph_pipeline.py] *)

Module LanggraphPipeline.
Import Py Datetime.

(** The calls to the two collaborators, in the order they are made. *)
Inductive event :=
| OcrCall (url : pyval)
| SummarizeCall (title : pyval) (ocr_text : list (pyval * pyval)) (content : pyval).

(** The value under ['json_summary'] that the Summary node returns. *)
Inductive json_summary :=
| Success (data : string) (parsed_data : pyval) (suggestions : list pyval)
| Error (error : string) (data : option string) (suggestions : list string).

Definition status (j : json_summary) : string :=
  match j with
  | Success _ _ _ => "success"
  | Error _ _ _ => "error"
  end.

(** What [run] returns: [{'status': 'success', 'json_summary': result}] or
    [{'status': 'error', 'json_summary': {}}]. *)
Inductive run_result :=
| RunSuccess (result : json_summary)
| RunError.

Definition run_status (r : run_result) : string :=
  match r with
  | RunSuccess _ => "success"
  | RunError => "error"
  end.

(** The error message and the suggestions a result of [run] carries: those
    of its ['json_summary'] when that has the status [error]; the empty
    ['json_summary'] of [{'status': 'error', 'json_summary': {}}] has
    neither. *)
Definition error_report (r : run_result) : option (string * list string) :=
  match r with
  | RunSuccess (Error error _ suggestions) => Some (error, suggestions)
  | _ => None
  end.

(** An image reference: a dictionary with a [url] and a [filename]. *)
Definition image_ok (s : store) (i : pyval) : Prop :=
  exists d url filename,
    as_dict s i = Some d /\
    dict_lookup "url" d = Some url /\
    dict_lookup "filename" d = Some filename.

Definition field_of (k : string) (s : store) (i : pyval) : pyval :=
  default PNone (d ← as_dict s i; dict_lookup k d).

(** [s] holds the dictionaries of [s0], with the same [url] and
    [filename]. *)
Definition keeps_images (s0 s : store) : Prop :=
  forall r d, s0 !! r = Some d ->
    exists d', s !! r = Some d' /\
      dict_lookup "url" d' = dict_lookup "url" d /\
      dict_lookup "filename" d' = dict_lookup "filename" d.

(** [s] holds the same objects as [s0], and a dictionary differs from what
    it was at most in its [ocr_text]. *)
Definition only_ocr_text (s0 s : store) : Prop :=
  forall r,
    match s0 !! r, s !! r with
    | Some d, Some d' =>
        forall k, k <> "ocr_text" -> dict_lookup k d' = dict_lookup k d
    | None, None => True
    | _, _ => False
    end.

Definition is_ocr_call (e : event) : bool :=
  match e with OcrCall _ => true | SummarizeCall _ _ _ => false end.

Definition is_summarize_call (e : event) : bool :=
  match e with SummarizeCall _ _ _ => true | OcrCall _ => false end.

(** The state of the graph ([NotifyState]). *)
Record notify_state := State {
  st_title : pyval;
  st_content : pyval;
  st_image : pyval;
  st_category : pyval;
  st_ocr_text : option (list (pyval * pyval))
}.

Section Pipeline.

(** The collaborators and the clock. *)
Variable perform_ocr_on_url : pyval -> string.
Variable model_ready : bool.
Variable generate_content : pyval -> list (pyval * pyval) -> pyval -> res string.
Variable json_loads : string -> res pyval.
Variable now : datetime.

(** In [s] the image [i] of [s0] carries the text extracted from its url. *)
Definition extracted (s0 s : store) (i : pyval) : Prop :=
  exists d', as_dict s i = Some d' /\
    dict_lookup "ocr_text" d' = Some (PStr (perform_ocr_on_url (field_of "url" s0 i))).

(** [_OCR_branching_condition(state)] *)
Definition _OCR_branching_condition (s : store) (state : notify_state) : res bool :=
  let images := st_image state in
  if truthy s images then
    n <-- py_len s images ;; ret (0 <? n)
  else ret false.

(** The [for] loop of [_OCR]: each image dictionary gets its [ocr_text] in
    place.  The store and the calls made so far are kept when an image
    raises. *)
Fixpoint ocr_loop (images : list pyval) (s : store) (tr : list event)
  : res unit * store * list event :=
  match images with
  | [] => (ret tt, s, tr)
  | i :: rest =>
      match py_getitem s i "url" with
      | inl e => (inl e, s, tr)
      | inr url =>
          let text := perform_ocr_on_url url in
          let tr := app tr [OcrCall url] in
          match py_setitem s i "ocr_text" (PStr text) with
          | inl e => (inl e, s, tr)
          | inr s' => ocr_loop rest s' tr
          end
      end
  end.

(** The list comprehension of [_OCR]. *)
Fixpoint ocr_entries (s : store) (images : list pyval) : res (list (pyval * pyval)) :=
  match images with
  | [] => ret []
  | i :: rest =>
      filename <-- py_getitem s i "filename" ;;
      text <-- py_getitem s i "ocr_text" ;;
      entries <-- ocr_entries s rest ;;
      ret ((filename, text) :: entries)
  end.

(** [_OCR(state)]: the update [{'ocr_text': ...}] of the state. *)
Definition _OCR (s : store) (state : notify_state)
  : res (list (pyval * pyval)) * store * list event :=
  match py_iter s (st_image state) with
  | inl e => (inl e, s, [])
  | inr images =>
      match ocr_loop images s [] with
      | (inl e, s', tr) => (inl e, s', tr)
      | (inr _, s', tr) => (ocr_entries s' images, s', tr)
      end
  end.

Definition msg_parse_failed : string := "파싱 실패".

(** [_Summary(state)] *)
Definition _Summary (s : store) (state : notify_state) : json_summary * list event :=
  let title := st_title state in
  let ocr_text := default [] (st_ocr_text state) in
  let content := st_content state in
  let category := st_category state in
  match py_slice_check s title with
  | inl e =>
      let error_msg := "Summary 노드에서 예상치 못한 오류: " ++ exn_str e in
      (Error error_msg None
         (SuggestionEngine.generate_error_suggestions s
            (PStr "unexpected") (PStr (exn_str e))), [])
  | inr _ =>
      let summary_result :=
        SummaryContent.summarize model_ready generate_content json_loads
          title ocr_text content in
      let tr := [SummarizeCall title ocr_text content] in
      if negb (startswith SummaryContent.failure_prefix summary_result) then
        let parsed : res (option pyval) :=
          match json_loads summary_result with
          | inr v => ret (Some v)
          | inl e =>
              match exn_cls e with
              | JSONDecodeError => ret None
              | _ => inl e
              end
          end in
        match parsed with
        | inl e =>
            let error_msg := "Summary 노드에서 예상치 못한 오류: " ++ exn_str e in
            (Error error_msg None
               (SuggestionEngine.generate_error_suggestions s
                  (PStr "unexpected") (PStr (exn_str e))), tr)
        | inr (Some parsed_data) =>
            if truthy s parsed_data then
              let suggestion_lists : list pyval := [] in
              let engine_suggestions :=
                SuggestionEngine.generate_parsing_suggestions s now parsed_data in
              let suggestion_lists :=
                match engine_suggestions with
                | [] => suggestion_lists
                | _ => app suggestion_lists [PList (map PStr engine_suggestions)]
                end in
              let general_suggestions :=
                SuggestionEngine.generate_general_suggestions s category in
              let suggestion_lists :=
                match general_suggestions with
                | [] => suggestion_lists
                | _ => app suggestion_lists [PList (map PStr general_suggestions)]
                end in
              let final_suggestions :=
                SuggestionEngine.consolidate_suggestions s suggestion_lists
                  SuggestionEngine.default_max_suggestions in
              (Success summary_result parsed_data final_suggestions, tr)
            else
              (Error msg_parse_failed (Some summary_result)
                 (SuggestionEngine.generate_error_suggestions s
                    (PStr "parsing") (PStr "파싱 실패")), tr)
        | inr None =>
            (Error msg_parse_failed (Some summary_result)
               (SuggestionEngine.generate_error_suggestions s
                  (PStr "parsing") (PStr "파싱 실패")), tr)
        end
      else
        (Error summary_result None
           (SuggestionEngine.generate_error_suggestions s
              (PStr "summary") (PStr summary_result)), tr)
  end.

(** [self.llm_agent.invoke(state)['json_summary']]: the compiled graph.
    From START the condition picks [OCR_Node] or [Summary_Node]; the edge
    from [OCR_Node] leads to [Summary_Node], which is the finish point. *)
Definition invoke (s : store) (state : notify_state)
  : res json_summary * store * list event :=
  match _OCR_branching_condition s state with
  | inl e => (inl e, s, [])
  | inr true =>
      match _OCR s state with
      | (inl e, s', tr) => (inl e, s', tr)
      | (inr ocr_text, s', tr) =>
          let state' :=
            State (st_title state) (st_content state) (st_image state)
                  (st_category state) (Some ocr_text) in
          let '(j, tr') := _Summary s' state' in
          (ret j, s', app tr tr')
      end
  | inr false =>
      let '(j, tr) := _Summary s state in
      (ret j, s, tr)
  end.

(** [run(json_input)] *)
Definition run (s : store) (json_input : pyval) : run_result * store * list event :=
  let input : res notify_state :=
    _ <-- py_getitem s json_input "title" ;;
    title <-- py_getitem s json_input "title" ;;
    content <-- py_getitem s json_input "content" ;;
    image <-- py_getitem s json_input "image" ;;
    category <-- py_getitem s json_input "category" ;;
    ret (State title content image category None) in
  match input with
  | inl _ => (RunError, s, [])
  | inr state =>
      match invoke s state with
      | (inl _, s', tr) => (RunError, s', tr)
      | (inr result, s', tr) => (RunSuccess result, s', tr)
      end
  end.

End Pipeline.

(** The dictionary the Summary node builds for a result. *)
Definition summary_dict (j : json_summary) : pydict :=
  match j with
  | Success data parsed_data suggestions =>
      [ ("status", PStr "success"); ("data", PStr data);
        ("parsed_data", parsed_data); ("suggestions", PList suggestions) ]
  | Error error (Some data) suggestions =>
      [ ("status", PStr "error"); ("error", PStr error); ("data", PStr data);
        ("suggestions", PList (map PStr suggestions)) ]
  | Error error None suggestions =>
      [ ("status", PStr "error"); ("error", PStr error);
        ("suggestions", PList (map PStr suggestions)) ]
  end.

(** *** [_validate_pipeline_input] *)




End LanggraphPipeline.

(** ** [main.py]: [ContentCrawler] *)

Module ContentCrawler.
Import Py.

(** A notification as the registry hands it over; the fields are those the
    crawler reads. *)
Record notification := Notification {
  link : string;
  n_title : string;
  n_notification_id : Z;
  category_title : string;
  content_selector : option string
}.

(** What the crawler does to the world while fetching one notification. *)
Inductive effect :=
| Fetch (n : notification) (attempt : nat)
| Sleep (seconds : Q).

Definition is_fetch (e : effect) : bool :=
  match e with Fetch _ _ => true | Sleep _ => false end.

Definition is_sleep (e : effect) : bool :=
  match e with Sleep _ => true | Fetch _ _ => false end.

Section Crawler.

(** The fetched material itself is of no concern here. *)
Variable payload : Type.

(** [content_data]: the dictionary [fetch_content] returns, with the two
    entries [fetch_with_retry] adds to it. *)
Record content_data := ContentData {
  title : string;
  fetched : payload;
  fetch_success : bool;
  error : option string;
  notification_id : option Z;
  category : option string
}.

(** [self.fetcher.fetch_content(notification, selector)].  The fetcher talks
    to a remote site: what it answers can change from one attempt to the
    next, so the answer is a function of the notification and of the number
    of attempts already made for it.  With the answers fixed in this way the
    thread pool only decides when the calls happen: the returned list is
    assembled from the futures in the order of submission. *)
Variable fetch_content : notification -> nat -> res content_data.

(** [urlparse(link).netloc] *)
Variable netloc : string -> string.

Definition fast_domains : gset string := {[ "scatch.ssu.ac.kr" ]}.

Definition is_fast (n : notification) : bool :=
  bool_decide (netloc (link n) ∈ fast_domains).

(** [domain_groups[domain].append(notification)] on a [defaultdict(list)]:
    the domains stay in the order of their first notification. *)
Fixpoint group_add (domain : string) (n : notification)
    (groups : list (string * list notification)) : list (string * list notification) :=
  match groups with
  | [] => [(domain, [n])]
  | (d, ns) :: rest =>
      if String.eqb domain d then (d, app ns [n]) :: rest
      else (d, ns) :: group_add domain n rest
  end.

(** The loop of [categorize_notifications], with both accumulators. *)
Fixpoint categorize_loop (all_notifications : list notification)
    (domain_groups : list (string * list notification))
    (fast_notifications : list notification)
  : list (string * list notification) * list notification :=
  match all_notifications with
  | [] => (domain_groups, fast_notifications)
  | n :: rest =>
      let domain := netloc (link n) in
      if bool_decide (domain ∈ fast_domains)
      then categorize_loop rest domain_groups (app fast_notifications [n])
      else categorize_loop rest (group_add domain n domain_groups) fast_notifications
  end.

Definition categorize_notifications (all_notifications : list notification)
  : list (string * list notification) * list notification :=
  categorize_loop all_notifications [] [].

Definition max_retries : nat := 2.

Definition retry_delay (fast_mode : bool) : Q :=
  if fast_mode then 0.5 else 1.0.

(** The two assignments made to every fetched [content_data]. *)
Definition stamp (n : notification) (c : content_data) : content_data :=
  ContentData (title c) (fetched c) (fetch_success c) (error c)
    (Some (n_notification_id n)) (Some (category_title n)).

(** The [for attempt in range(max_retries + 1)] loop from [attempt] on, with
    [more] iterations left after this one. *)
Fixpoint attempt_from (n : notification) (delay : Q) (attempt more : nat)
  : res content_data * list effect :=
  match fetch_content n attempt with
  | inl e => (inl e, [Fetch n attempt])
  | inr c =>
      let content_data := stamp n c in
      if fetch_success content_data then (ret content_data, [Fetch n attempt])
      else
        let pause := if (attempt <? max_retries)%nat then [Sleep delay] else [] in
        match more with
        | O => (ret content_data, Fetch n attempt :: pause)
        | S k =>
            let '(r, tr) := attempt_from n delay (S attempt) k in
            (r, Fetch n attempt :: app pause tr)
        end
  end.

(** Attempts 0 to [k], with a pause between two attempts. *)
Fixpoint attempts_trace (n : notification) (delay : Q) (k : nat) : list effect :=
  match k with
  | O => [Fetch n 0]
  | S j => app (attempts_trace n delay j) [Sleep delay; Fetch n (S j)]
  end.

(** [fetch_with_retry(notification, fast_mode)]: what it returns, and what it
    did on the way. *)
Definition fetch_with_retry (n : notification) (fast_mode : bool)
  : res content_data * list effect :=
  attempt_from n (retry_delay fast_mode) 0 max_retries.

(** [process_domain_group(domain, notifications)] *)
Fixpoint process_domain_group (domain : string) (notifications : list notification)
  : res (list content_data) :=
  match notifications with
  | [] => ret []
  | n :: rest =>
      content_data <-- fst (fetch_with_retry n false) ;;
      domain_results <-- process_domain_group domain rest ;;
      ret (content_data :: domain_results)
  end.

(** The pool size; it has no bearing on what is returned. *)
Definition max_workers (domain_groups : list (string * list notification))
    (fast_notifications : list notification) : nat :=
  let fast_workers :=
    match fast_notifications with
    | [] => O
    | _ => Nat.min 20 (length fast_notifications)
    end in
  Nat.max 1 (length domain_groups + fast_workers).

(** What is submitted to the executor. *)
Inductive task :=
| FastTask (n : notification)
| GroupTask (domain : string) (notifications : list notification).

(** [future.result()]: the value of the task, or the exception it raised. *)
Definition future_result (t : task) : res (list content_data) :=
  match t with
  | FastTask n =>
      result <-- fst (fetch_with_retry n true) ;; ret [result]
  | GroupTask domain notifications => process_domain_group domain notifications
  end.

(** One round of the last loop: [append] or [extend], or the [except]
    branch, which logs and goes on. *)
Definition collect (results : list content_data) (t : task) : list content_data :=
  match future_result t with
  | inr rs => app results rs
  | inl _ => results
  end.

(** The result [fetch_with_retry] reaches for a notification, in the mode
    its domain is crawled in. *)
Definition outcome (n : notification) : res content_data :=
  fst (fetch_with_retry n (is_fast n)).

(** The notifications a task stands for. *)
Definition task_items (t : task) : list notification :=
  match t with
  | FastTask n => [n]
  | GroupTask _ ns => ns
  end.

(** The fetcher answers every attempt made for [n], with success or with
    failure, rather than raising. *)
Definition fetchable (n : notification) : Prop :=
  forall k, (k <= max_retries)%nat -> returns (fetch_content n k).

(** [crawl_all_content(all_notifications)] *)
Definition crawl_all_content (all_notifications : list notification)
  : list content_data :=
  let '(domain_groups, fast_notifications) :=
    categorize_notifications all_notifications in
  let futures :=
    app (map FastTask fast_notifications)
        (map (fun g => GroupTask (fst g) (snd g)) domain_groups) in
  fold_left collect futures [].

End Crawler.

End ContentCrawler.

(** ** [tools/email_tool.py]: [EmailSender.send] *)

Module EmailSender.
Import Py.

(** A call of [_send_email(receiver_emails, data)]; that method catches
    whatever goes wrong inside it. *)
Inductive effect :=
| SendEmail (receiver_emails : list string) (data : pyval).

Section Send.

Variable s : store.

(** The subscriber mapping [get_all_subscribers_email_initial()] returns:
    the addresses by notification id. *)
Variable receiver : gmap Z (list string).

(** [notification_id in receiver]: the entry found under the key, if any.
    The keys are integers, and [True == 1]. *)
Definition receiver_lookup (notification_id : pyval) : res (option (list string)) :=
  k <-- hash_key s notification_id ;;
  match k with
  | KInt z => ret (receiver !! z)
  | _ => ret None
  end.

(** [send(data)] *)
Definition send (data : pyval) : res string * list effect :=
  match
    (notification_id <-- py_getitem s data "notification_id" ;;
     found <-- receiver_lookup notification_id ;;
     ret (notification_id, found))
  with
  | inl e => (inl e, [])
  | inr (notification_id, None) =>
      (ret ("No subscribers for notification_id " ++ py_str notification_id), [])
  | inr (notification_id, Some receiver_emails) =>
      match receiver_emails with
      | [] =>
          (ret ("Empty subscriber list for notification_id "
                  ++ py_str notification_id), [])
      | _ =>
          (ret ("Email sent to "
                  ++ str_of_Z (Z.of_nat (length receiver_emails))
                  ++ " subscribers for notification_id "
                  ++ py_str notification_id),
           [SendEmail receiver_emails data])
      end
  end.

End Send.

(** *** The values [_send_email] reads from an item

    The first statements of [_send_email], up to the point where the message
    is built.  They run inside the [try] of the method: when one of them
    raises, the error is logged and no message is sent. *)

Record mail := Mail {
  m_category : pyval;
  m_title : pyval;
  m_schedule : pyval;
  m_target : pyval;
  m_application_method : pyval;
  m_important_notes : pyval
}.

Section Mail.

Variable s : store.
(** [json.loads] *)
Variable json_loads : string -> res pyval.

(** [o.get(k, {})]: the value under the key; [None] stands for the new,
    empty dictionary given as the default. *)
Definition get_or_empty (o : pyval) (k : string) : res (option pyval) :=
  match as_dict s o with
  | Some d => ret (dict_lookup k d)
  | None => no_attribute s o "get"
  end.

(** [o.get(k, dflt)] where [o] may be that empty dictionary. *)
Definition get_from (o : option pyval) (k : string) (dflt : pyval) : res pyval :=
  match o with
  | Some v => py_get s v k dflt
  | None => ret dflt
  end.

Definition mail_fields (data : pyval) : res mail :=
  category <-- py_get s data "category" (PStr "Unknown Category") ;;
  a <-- get_or_empty data "ai_summary" ;;
  ai_summary <-- match a with
                 | Some v => get_or_empty v "data"
                 | None => ret None
                 end ;;
  ai_summary <-- match ai_summary with
                 | Some (PStr t) =>
                     match json_loads t with
                     | inr v => ret (Some v)
                     | inl e =>
                         match exn_cls e with
                         | JSONDecodeError => ret None
                         | _ => inl e
                         end
                     end
                 | _ => ret ai_summary
                 end ;;
  title <-- get_from ai_summary "title" (PStr EmptyString) ;;
  schedule <-- get_from ai_summary "schedule" (PStr EmptyString) ;;
  target <-- get_from ai_summary "target" (PStr EmptyString) ;;
  application_method <-- get_from ai_summary "application_method" (PStr EmptyString) ;;
  important_notes <-- get_from ai_summary "summary" (PStr EmptyString) ;;
  ret (Mail category title schedule target application_method important_notes).

End Mail.

End EmailSender.

(** ** [main.py]: the stages after the crawl *)

Module Main.
Import Py Datetime LanggraphPipeline.

(** The summary stored when [run] reports an error. *)
Definition failure_summary (title : pyval) : pydict :=
  [ ("title", title); ("schedule", PStr "AI 처리 실패");
    ("target", PStr "Unknown"); ("application_method", PStr "Unknown");
    ("important_notes", PStr "AI 요약을 생성할 수 없습니다.") ].

(** The summary stored when the stage itself catches the exception [e]. *)
Definition crash_summary (title : pyval) (e : exn) : pydict :=
  [ ("title", title); ("schedule", PStr "AI 처리 오류");
    ("target", PStr "Unknown"); ("application_method", PStr "Unknown");
    ("important_notes", PStr ("처리 오류: " ++ exn_str e)) ].

(** [content_data['ai_summary'] = {...}] for a dictionary built on the
    spot. *)
Definition store_summary (s : store) (content_data : pyval) (d : pydict) : res store :=
  let '(r, s1) := new_dict s d in
  py_setitem s1 content_data "ai_summary" (PRef r).

Section Summary.

Variable perform_ocr_on_url : pyval -> string.
Variable model_ready : bool.
Variable generate_content : pyval -> list (pyval * pyval) -> pyval -> res string.
Variable json_loads : string -> res pyval.
Variable now : datetime.
(** [LanggraphPipeline()]: the constructor passes on what goes wrong while
    the graph is built. *)
Variable pipeline_init : res unit.

(** The body of the [try].  The value under ['json_summary'] is the
    dictionary of the Summary node, never a text, so the branch that parses
    a text is not entered. *)
Definition summary_body (s : store) (content_data : pyval)
  : res unit * store * list event :=
  match pipeline_init with
  | inl e => (inl e, s, [])
  | inr _ =>
      let '(result, s1, tr) :=
        run perform_ocr_on_url model_ready generate_content json_loads now
          s content_data in
      match result with
      | RunSuccess j =>
          match store_summary s1 content_data (summary_dict j) with
          | inl e => (inl e, s1, tr)
          | inr s2 =>
              (t <-- py_get s2 content_data "title" (PStr "Unknown") ;;
               py_slice_upto s2 t 50, s2, tr)
          end
      | RunError =>
          match
            (title <-- py_get s1 content_data "title" (PStr "No title") ;;
             store_summary s1 content_data (failure_summary title))
          with
          | inl e => (inl e, s1, tr)
          | inr s2 => (ret tt, s2, tr)
          end
      end
  end.

(** [process_ai_summary(content_data)] *)
Definition process_ai_summary (s : store) (content_data : pyval)
  : res pyval * store * list event :=
  let '(body, s1, tr) := summary_body s content_data in
  match body with
  | inr _ => (ret content_data, s1, tr)
  | inl e =>
      match
        (title <-- py_get s1 content_data "title" (PStr "No title") ;;
         store_summary s1 content_data (crash_summary title e))
      with
      | inl e' => (inl e', s1, tr)
      | inr s2 => (ret content_data, s2, tr)
      end
  end.

End Summary.

Section Mailing.

Variable s : store.
(** [EmailDB().get_all_subscribers_email_initial()], the first thing [send]
    does: the subscriber mapping, or the exception raised while the database
    is reached. *)
Variable email_db : res (gmap Z (list string)).

(** [send_email(content_data)] *)
Definition send_email (content_data : pyval) : string * list EmailSender.effect :=
  match email_db with
  | inl e => ("Email sending failed: " ++ exn_str e, [])
  | inr receiver =>
      match EmailSender.send s receiver content_data with
      | (inr result, tr) => (result, tr)
      | (inl e, tr) => ("Email sending failed: " ++ exn_str e, tr)
      end
  end.

End Mailing.

End Main.

(** ** [db/dbPostgreSQL.py]: the subscriber queries of [EmailDB] *)

Module EmailDB.
Import Py.

(** A row of the join of [user_subscriptions] with [user]: its
    [notification_id] and its [email]. *)
Definition row : Type := Z * string.

(** One round of the grouping loop of [get_all_subscribers_email_initial]. *)
Definition add_email (notification_dict : gmap Z (list string)) (r : row)
  : gmap Z (list string) :=
  let '(notification_id, email) := r in
  let notification_dict :=
    match notification_dict !! notification_id with
    | None => <[notification_id := []]> notification_dict
    | Some _ => notification_dict
    end in
  alter (fun emails => app emails [email]) notification_id notification_dict.

(** [email_dict[email].append(notification_id)], the key created when it is
    not there; the keys stay in the order they were first seen. *)
Fixpoint add_id (email : string) (notification_id : Z)
    (email_dict : list (string * list Z)) : list (string * list Z) :=
  match email_dict with
  | [] => [(email, [notification_id])]
  | (e, ids) :: rest =>
      if String.eqb email e then (e, app ids [notification_id]) :: rest
      else (e, ids) :: add_id email notification_id rest
  end.

(** [{"email_address": ..., "notification_ids": [...]}] *)
Record subscriber := Subscriber {
  email_address : string;
  notification_ids : list Z
}.

Section Queries.

(** [cursor.execute(...)] and [cursor.fetchall()] for each of the two
    queries: the rows, or the exception the database raised. *)
Variable rows_by_notification : res (list row).
Variable rows_by_email : res (list row).

(** [get_all_subscribers_email_initial()].  (The mapping is looked up by
    key only; the order of its keys is not kept here.) *)
Definition get_all_subscribers_email_initial : gmap Z (list string) :=
  match rows_by_notification with
  | inr results => fold_left add_email results ∅
  | inl _ => ∅
  end.

(** [get_all_subscribers_email_second()] *)
Definition get_all_subscribers_email_second : list subscriber :=
  match rows_by_email with
  | inr results =>
      let email_dict :=
        fold_left (fun d r => add_id (snd r) (fst r) d) results [] in
      map (fun kv => Subscriber (fst kv) (snd kv)) email_dict
  | inl _ => []
  end.

End Queries.

End EmailDB.

(** ** Sample inputs, used where a statement is tried on a concrete case *)

Module Samples.
Import Py ContentCrawler.

(** The host of a link of the form [https://host/path]. *)
Fixpoint until_slash (t : string) : string :=
  match t with
  | EmptyString => EmptyString
  | String c r => if Ascii.eqb c "/" then EmptyString else String c (until_slash r)
  end.

Definition netloc (l : string) : string :=
  until_slash (String.substring 8 (String.length l) l).

Definition notice (id : Z) (l : string) : notification :=
  Notification l "notice" id "학사" None.

Definition fast_notice : notification := notice 1 "https://scatch.ssu.ac.kr/a".
Definition grouped_notice_1 : notification := notice 2 "https://cse.ssu.ac.kr/b".
Definition grouped_notice_2 : notification := notice 3 "https://cse.ssu.ac.kr/c".

Definition batch : list notification :=
  [grouped_notice_1; fast_notice; grouped_notice_2].

Definition fetched_ok : content_data unit :=
  ContentData unit "notice" tt true None None None.

Definition fetched_failed : content_data unit :=
  ContentData unit "notice" tt false (Some "timeout") None None.

(** A fetcher that fails once and then succeeds. *)
Definition flaky (n : notification) (attempt : nat) : res (content_data unit) :=
  ret (if (attempt <? 1)%nat then fetched_failed else fetched_ok).

(** A fetcher that never gets the second notification. *)
Definition one_down (n : notification) (attempt : nat) : res (content_data unit) :=
  ret (if n_notification_id n =? 2 then fetched_failed else fetched_ok).

(** A fetcher that raises on the second notification. *)
Definition one_raising (n : notification) (attempt : nat) : res (content_data unit) :=
  if n_notification_id n =? 2 then raise OtherError "connection reset"
  else ret fetched_ok.

(** An item of source 7, and it alone in the store. *)
Definition item_7 : pydict :=
  [("title", PStr "notice"); ("notification_id", PInt 7)].

Definition store_7 : store := {[ 1%positive := item_7 ]}.

(** Source 7 has no row at all; source 8 has one subscriber. *)
Definition subscribers : gmap Z (list string) := {[ 8 := ["a@ssu.ac.kr"] ]}.

(** The clock: 2025-09-04, 09:00. *)
Definition nine_o_clock : Datetime.datetime := Datetime.DT 2025 9 4 32400000000.

(** An extraction service that reads two lines off every image. *)
Definition download (img_url : pyval) : res unit := ret tt.
Definition ocr_instance : res unit := ret tt.
Definition predict (img_array : unit) : res OcrTool.ocr_results :=
  ret (OcrTool.ResultsList
         (OcrTool.ResultObject (PList [PStr "line 1"; PStr "line 2"])) []).

(** A summarization service that answers with a JSON object, and a parser
    that knows it as the dictionary at address 9. *)
Definition generate_content (title : pyval) (ocr_text : list (pyval * pyval))
    (content : pyval) : res string :=
  ret "Here is the summary: {...} Done.".

Definition json_loads (t : string) : res pyval :=
  if String.eqb t "{...}" then ret (PRef 9%positive)
  else raise JSONDecodeError "Expecting value".

Definition image_1 : pydict :=
  [("url", PStr "https://scatch.ssu.ac.kr/1.jpg"); ("filename", PStr "1.jpg")].
Definition image_2 : pydict :=
  [("url", PStr "https://scatch.ssu.ac.kr/2.jpg"); ("filename", PStr "2.jpg")].

Definition images : list pyval := [PRef 2%positive; PRef 3%positive].

Definition input_with_images : pydict :=
  [("title", PStr "장학금 안내"); ("content", PStr "<div>...</div>");
   ("image", PList images); ("category", PStr "장학")].

(** An input with a title, a content and a category, but no ['image']
    entry. *)
Definition input_without_image_key : pydict :=
  [("title", PStr "장학금 안내"); ("content", PStr "<div>...</div>");
   ("category", PStr "장학")].

Definition parsed_summary : pydict :=
  [("title", PStr "장학금 안내"); ("summary", PStr "...");
   ("schedule", PList []); ("target", PStr "재학생");
   ("application_method", PStr "온라인 신청"); ("important_notes", PStr "")].

Definition pipeline_store : store :=
  <[ 1%positive := input_with_images ]>
  (<[ 2%positive := image_1 ]>
  (<[ 3%positive := image_2 ]>
  (<[ 4%positive := input_without_image_key ]>
  (<[ 9%positive := parsed_summary ]> ∅)))).

(** A summary with three schedule entries: a deadline on 2025.09.04 with no
    location, an entry without a date, and a deadline on the last day of
    September. *)
Definition entry_sep_4 : pydict :=
  [("description", PStr "신청 마감"); ("date", PStr "2025.09.04");
   ("location", PStr EmptyString)].
Definition entry_undated : pydict := [("description", PStr "문의")].
Definition entry_sep_30 : pydict :=
  [("description", PStr "서류 제출 마감"); ("date", PStr "2025.09.30");
   ("location", PStr "학생회관")].

Definition summary_item : pydict :=
  [("title", PStr "장학금 안내"); ("summary", PStr EmptyString);
   ("schedule", PList [PRef 2%positive; PRef 3%positive; PRef 4%positive])].

Definition calendar_store : store :=
  <[ 1%positive := summary_item ]>
  (<[ 2%positive := entry_sep_4 ]>
  (<[ 3%positive := entry_undated ]>
  (<[ 4%positive := entry_sep_30 ]> ∅))).

(** An input whose second image has no [url]. *)
Definition image_without_url : pydict := [("filename", PStr "3.jpg")].

Definition input_with_broken_image : pydict :=
  [("title", PStr "장학금 안내"); ("content", PStr "<div>...</div>");
   ("image", PList [PRef 2%positive; PRef 5%positive]); ("category", PStr "장학")].

Definition broken_store : store :=
  <[ 1%positive := input_with_broken_image ]>
  (<[ 2%positive := image_1 ]>
  (<[ 5%positive := image_without_url ]> ∅)).



End Samples.

(* ===================================================================== *)
(** * Part II: lemmas and theorems                                        *)
(* ===================================================================== *)

(** ** The crawler *)

Section CrawlerFacts.
Import Py ContentCrawler.

Variable payload : Type.
Variable fetch_content : notification -> nat -> res (content_data payload).
Variable netloc : string -> string.

#[local] Abbreviation attempt_from := (attempt_from payload fetch_content).
#[local] Abbreviation fetch_with_retry := (fetch_with_retry payload fetch_content).
#[local] Abbreviation process_domain_group := (process_domain_group payload fetch_content).
#[local] Abbreviation crawl_all_content := (crawl_all_content payload fetch_content netloc).
#[local] Abbreviation outcome := (outcome payload fetch_content netloc).

Lemma retry_delay_fast_shorter : (retry_delay true < retry_delay false)%Q.
Proof. reflexivity. Qed.

Lemma attempts_trace_fetches n d k :
  length (List.filter is_fetch (attempts_trace n d k)) = S k.
Proof.
  induction k as [|k IH]; simpl; [reflexivity|].
  rewrite List.filter_app, length_app, IH. simpl. lia.
Qed.

Lemma attempts_trace_sleeps n d k e :
  In e (attempts_trace n d k) -> is_sleep e = true -> e = Sleep d.
Proof.
  induction k as [|k IH]; simpl.
  - intros [<-|[]]; discriminate.
  - rewrite in_app_iff. simpl. intros [H|[<-|[<-|[]]]]; auto; discriminate.
Qed.

(** The value returned does not depend on the pause between attempts. *)
Lemma attempt_from_delay n d1 d2 more : forall attempt,
  fst (attempt_from n d1 attempt more) = fst (attempt_from n d2 attempt more).
Proof.
  induction more as [|k IH]; intros attempt; simpl.
  - destruct (fetch_content n attempt) as [e|c]; [reflexivity|].
    destruct (fetch_success _ _); reflexivity.
  - destruct (fetch_content n attempt) as [e|c]; [reflexivity|].
    destruct (fetch_success _ _); [reflexivity|].
    specialize (IH (S attempt)).
    destruct (attempt_from n d1 (S attempt) k), (attempt_from n d2 (S attempt) k).
    exact IH.
Qed.

Lemma attempt_from_returns n d more : forall attempt,
  (forall k, (attempt <= k <= attempt + more)%nat -> returns (fetch_content n k)) ->
  returns (fst (attempt_from n d attempt more)).
Proof.
  induction more as [|k IH]; intros attempt H; simpl.
  - destruct (H attempt ltac:(lia)) as [c ->].
    destruct (fetch_success _ _); eexists; reflexivity.
  - destruct (H attempt ltac:(lia)) as [c ->].
    destruct (fetch_success _ _); [eexists; reflexivity|].
    destruct (IH (S attempt)) as [c' Hc'].
    { intros j Hj. apply H. lia. }
    destruct (attempt_from n d (S attempt) k) as [r tr]. simpl in *. subst r.
    eexists; reflexivity.
Qed.




Lemma group_add_perm domain n groups :
  concat (map snd (group_add domain n groups)) ≡ₚ n :: concat (map snd groups).
Proof.
  induction groups as [|[d ns] rest IH]; simpl; [reflexivity|].
  destruct (String.eqb domain d); simpl.
  - rewrite <- app_assoc. simpl. symmetry. apply Permutation_middle.
  - rewrite IH. symmetry. apply Permutation_middle.
Qed.

Lemma categorize_loop_perm all : forall groups fast,
  let '(groups', fast') := categorize_loop netloc all groups fast in
  (fast' ++ concat (map snd groups'))%list
    ≡ₚ (all ++ fast ++ concat (map snd groups))%list.
Proof.
  induction all as [|n rest IH]; intros groups fast; simpl; [reflexivity|].
  destruct (bool_decide _).
  - specialize (IH groups (fast ++ [n])%list).
    destruct (categorize_loop netloc rest groups (fast ++ [n])) as [g f].
    rewrite IH. rewrite <- app_assoc. simpl.
    rewrite <- !Permutation_middle. reflexivity.
  - specialize (IH (group_add (netloc (link n)) n groups) fast).
    destruct (categorize_loop netloc rest _ fast) as [g f].
    rewrite IH, group_add_perm.
    rewrite <- !Permutation_middle. reflexivity.
Qed.

#[local] Abbreviation fetchable := (fetchable payload fetch_content).

Lemma outcome_any_mode n b : fst (fetch_with_retry n b) = outcome n.
Proof. apply attempt_from_delay. Qed.

Lemma fetch_with_retry_returns n b :
  fetchable n -> returns (fst (fetch_with_retry n b)).
Proof.
  intros H. apply attempt_from_returns. intros k Hk. apply H.
  unfold max_retries in *. lia.
Qed.

Lemma process_domain_group_all domain ns :
  Forall fetchable ns ->
  exists rs, process_domain_group domain ns = inr rs /\
             map inr rs = map outcome ns.
Proof.
  induction 1 as [|n ns Hn _ IH]; simpl.
  - exists []. split; reflexivity.
  - destruct IH as (rs & -> & Hrs).
    destruct (fetch_with_retry_returns n false Hn) as [c Hc].
    rewrite Hc. simpl. exists (c :: rs). split; [reflexivity|].
    simpl. rewrite Hrs, <- (outcome_any_mode n false), Hc. reflexivity.
Qed.

Lemma future_result_all t :
  Forall fetchable (task_items t) ->
  exists rs, future_result payload fetch_content t = inr rs /\
             map inr rs = map outcome (task_items t).
Proof.
  destruct t as [n|domain ns]; simpl; intros H.
  - apply Forall_inv in H.
    destruct (fetch_with_retry_returns n true H) as [c Hc].
    rewrite Hc. simpl. exists [c]. split; [reflexivity|].
    simpl. rewrite <- (outcome_any_mode n true), Hc. reflexivity.
  - apply process_domain_group_all, H.
Qed.

Lemma collect_all tasks : forall results,
  Forall (fun t => Forall fetchable (task_items t)) tasks ->
  map inr (fold_left (collect payload fetch_content) tasks results)
    = (map inr results ++ map outcome (concat (map task_items tasks)))%list.
Proof.
  induction tasks as [|t rest IH]; intros results H; simpl.
  - rewrite app_nil_r. reflexivity.
  - inversion H as [|? ? Ht Hrest]; subst.
    destruct (future_result_all t Ht) as (rs & Hrs & Hmap).
    unfold collect at 2. rewrite Hrs. rewrite IH by assumption.
    rewrite !map_app, Hmap, <- app_assoc. reflexivity.
Qed.


Lemma crawl_tasks_items all :
  let '(groups, fast) := categorize_notifications netloc all in
  concat (map task_items
            (map FastTask fast ++ map (fun g => GroupTask (fst g) (snd g)) groups))
    ≡ₚ all.
Proof.
  unfold categorize_notifications.
  pose proof (categorize_loop_perm all [] []) as H.
  destruct (categorize_loop netloc all [] []) as [groups fast].
  simpl in H. rewrite app_nil_r in H. rewrite <- H.
  rewrite map_app, concat_app, !map_map. simpl.
  apply Permutation_app.
  - clear. induction fast as [|n f IH]; simpl; [reflexivity|]. now rewrite IH.
  - reflexivity.
Qed.


End CrawlerFacts.



(** What the sample batch gives: the fast notification first, then the group,
    the failed fetch of the group included. *)
Example crawl_sample :
  map (fun c => (ContentCrawler.notification_id _ c, ContentCrawler.fetch_success _ c))
      (ContentCrawler.crawl_all_content unit Samples.one_down Samples.netloc
         Samples.batch)
  = [(Some 1, true); (Some 2, false); (Some 3, true)].
Proof. vm_compute. reflexivity. Qed.

(** The [except] branch of the last loop: when the fetcher does raise inside
    a group, the exception leaves [process_domain_group], and the results of
    that whole group are missing from the list. *)
Example crawl_sample_raising :
  map (fun c => ContentCrawler.notification_id _ c)
      (ContentCrawler.crawl_all_content unit Samples.one_raising Samples.netloc
         Samples.batch)
  = [Some 1].
Proof. vm_compute. reflexivity. Qed.

(** ** Distribution *)

Section EmailFacts.
Import Py EmailSender.

Variable s : store.
Variable receiver : gmap Z (list string).

(** C9.  For an item whose notification id has no entry in the subscriber
    mapping, or an entry that is the empty list, [send] returns its no-op
    text: it does not raise, and [_send_email] is not called. *)
Theorem send_without_subscribers (data : pyval) (id : Z) :
  py_getitem s data "notification_id" = inr (PInt id) ->
  receiver !! id = None \/ receiver !! id = Some [] ->
  exists msg,
    send s receiver data = (inr msg, []) /\
    ((receiver !! id = None /\
      msg = "No subscribers for notification_id " ++ str_of_Z id) \/
     (receiver !! id = Some [] /\
      msg = "Empty subscriber list for notification_id " ++ str_of_Z id)).
Proof.
  intros Hid Hsub. unfold send, receiver_lookup. rewrite Hid. simpl.
  destruct Hsub as [Hnone|Hempty].
  - rewrite Hnone. eexists. split; [reflexivity|]. left. split; reflexivity.
  - rewrite Hempty. eexists. split; [reflexivity|]. right. split; reflexivity.
Qed.

End EmailFacts.

Lemma send_without_subscribers_witness :
  Py.py_getitem Samples.store_7 (Py.PRef 1%positive) "notification_id"
    = inr (Py.PInt 7) /\
  (Samples.subscribers !! 7 = None \/ Samples.subscribers !! 7 = Some []) /\
  exists msg,
    EmailSender.send Samples.store_7 Samples.subscribers (Py.PRef 1%positive)
      = (inr msg, []) /\
    ((Samples.subscribers !! 7 = None /\
      msg = "No subscribers for notification_id " ++ Py.str_of_Z 7) \/
     (Samples.subscribers !! 7 = Some [] /\
      msg = "Empty subscriber list for notification_id " ++ Py.str_of_Z 7)).
Proof.
  assert (H1 : Py.py_getitem Samples.store_7 (Py.PRef 1%positive) "notification_id"
               = inr (Py.PInt 7)) by reflexivity.
  assert (H2 : Samples.subscribers !! 7 = None \/ Samples.subscribers !! 7 = Some [])
    by (left; reflexivity).
  split; [exact H1|]. split; [exact H2|].
  exact (send_without_subscribers Samples.store_7 Samples.subscribers
           (Py.PRef 1%positive) 7 H1 H2).
Defined.

(** With a subscriber the message does go out. *)
Example send_sample :
  EmailSender.send (<[ 2%positive := [("notification_id", Py.PInt 8)] ]> Samples.store_7)
    Samples.subscribers (Py.PRef 2%positive)
  = (inr "Email sent to 1 subscribers for notification_id 8",
     [EmailSender.SendEmail ["a@ssu.ac.kr"] (Py.PRef 2%positive)]).
Proof. vm_compute. reflexivity. Qed.

(** ** Consolidation of suggestions *)

Section ConsolidateFacts.
Import Py SuggestionEngine.

Variable s : store.

#[local] Abbreviation differs x := (fun y : string => negb (String.eqb x y)).

Lemma differs_spec x y : differs x y = true <-> x <> y.
Proof.
  cbv beta. destruct (String.eqb_spec x y); simpl; split; congruence.
Qed.

Lemma filter_comm {A} (p q : A -> bool) l :
  List.filter p (List.filter q l) = List.filter q (List.filter p l).
Proof.
  induction l as [|a l IH]; simpl; [reflexivity|].
  destruct (p a) eqn:P, (q a) eqn:Q; simpl; rewrite ?P, ?Q, IH; reflexivity.
Qed.

Lemma first_seen_filter (p : string -> bool) l :
  first_seen (List.filter p l) = List.filter p (first_seen l).
Proof.
  induction l as [|x l IH]; simpl; [reflexivity|].
  destruct (p x) eqn:P; simpl; rewrite ?P.
  - rewrite IH, filter_comm. reflexivity.
  - rewrite IH, filter_comm.
    symmetry. apply forallb_filter_id, forallb_forall. intros y Hy.
    apply filter_In in Hy. destruct Hy as [_ Hy].
    apply differs_spec. congruence.
Qed.

Lemma In_first_seen x l : In x (first_seen l) <-> In x l.
Proof.
  induction l as [|y l IH]; simpl; [tauto|].
  rewrite filter_In, IH, differs_spec.
  destruct (string_dec y x); intuition congruence.
Qed.

Lemma NoDup_filter {A} (p : A -> bool) l : List.NoDup l -> List.NoDup (List.filter p l).
Proof.
  induction 1 as [|a l Ha Hl IH]; simpl; [constructor|].
  destruct (p a); [constructor|]; auto.
  rewrite filter_In. tauto.
Qed.

Lemma NoDup_first_seen l : List.NoDup (first_seen l).
Proof.
  induction l as [|x l IH]; simpl; constructor.
  - rewrite filter_In, differs_spec. tauto.
  - apply NoDup_filter, IH.
Qed.

Lemma first_seen_NoDup l : List.NoDup l -> first_seen l = l.
Proof.
  induction 1 as [|x l Hx Hl IH]; simpl; [reflexivity|].
  rewrite IH. f_equal.
  apply forallb_filter_id. apply forallb_forall. intros y Hy.
  apply differs_spec. congruence.
Qed.


Lemma filter_twice {A} (p q : A -> bool) l :
  List.filter p (List.filter q l) = List.filter (fun y => q y && p y) l.
Proof.
  induction l as [|a l IH]; simpl; [reflexivity|].
  destruct (q a); simpl; [destruct (p a)|]; rewrite IH; reflexivity.
Qed.

(** The strings not yet among the unique ones. *)
#[local] Abbreviation unseen u := (fun y : string => negb (bool_decide (y ∈ u))).

Lemma unique_loop_strings (l : list string) : forall (u : list string) (seen : gset hkey),
  (forall x, KStr x ∈ seen <-> x ∈ u) ->
  unique_loop s (map PStr l) (map PStr u) seen
  = inr (map PStr (u ++ first_seen (List.filter (unseen u) l))).
Proof.
  induction l as [|x r IH]; intros u seen Hseen; simpl.
  - rewrite app_nil_r. reflexivity.
  - destruct (decide (KStr x ∈ seen)) as [Hin|Hout].
    + apply Hseen in Hin. rewrite bool_decide_true by assumption. simpl.
      apply IH, Hseen.
    + assert (Hx : x ∉ u) by (rewrite <- Hseen; assumption).
      rewrite bool_decide_false by assumption. simpl.
      change (map PStr u ++ [PStr x])%list with (map PStr u ++ map PStr [x])%list.
      rewrite <- map_app.
      rewrite (IH (u ++ [x])%list).
      * rewrite <- app_assoc. simpl.
        rewrite <- first_seen_filter, filter_twice.
        assert (E : List.filter (unseen (u ++ [x])%list) r
                    = List.filter (fun y => unseen u y && differs x y) r).
        { apply filter_ext. intros y. cbv beta.
          destruct (String.eqb_spec x y) as [->|Hne]; simpl.
          - rewrite bool_decide_true
              by (apply elem_of_app; right; now apply list_elem_of_singleton).
            now rewrite andb_false_r.
          - rewrite andb_true_r. f_equal. apply bool_decide_ext.
            rewrite elem_of_app, list_elem_of_singleton. intuition congruence. }
        rewrite E. reflexivity.
      * intros y.
        rewrite elem_of_union, elem_of_singleton, Hseen, elem_of_app,
          list_elem_of_singleton.
        split; intros [H|H]; auto; [injection H; auto | subst; auto].
Qed.

Lemma flatten_strings (lists : list (list string)) :
  flatten (map (fun l => PList (map PStr l)) lists) = map PStr (concat lists).
Proof.
  induction lists as [|l r IH]; simpl; [reflexivity|].
  rewrite IH, map_app. reflexivity.
Qed.

Lemma slice_to_nat {A} (n : nat) (l : list A) : slice_to (Z.of_nat n) l = take n l.
Proof.
  unfold slice_to. destruct (Z.ltb_spec (Z.of_nat n) 0); [lia|].
  now rewrite Nat2Z.id.
Qed.

Lemma consolidate_strings (lists : list (list string)) (max_count : nat) :
  consolidate_suggestions s (map (fun l => PList (map PStr l)) lists) (Z.of_nat max_count)
  = map PStr (take max_count (first_seen (concat lists))).
Proof.
  unfold consolidate_suggestions. rewrite flatten_strings.
  change (@nil pyval) with (map PStr []).
  rewrite unique_loop_strings
    by (intros x; rewrite elem_of_empty, elem_of_nil; tauto).
  simpl. rewrite slice_to_nat, firstn_map.
  rewrite (forallb_filter_id (fun _ => true));
    [reflexivity | now apply forallb_forall].
Qed.

Lemma unique_loop_unhashable x (all : list pyval) : forall u seen,
  In x all -> raises (hash_key s x) -> raises (unique_loop s all u seen).
Proof.
  induction all as [|y r IH]; intros u seen Hin Hx; simpl; [destruct Hin|].
  destruct Hin as [->|Hin].
  - destruct Hx as [e ->]. simpl. eexists; reflexivity.
  - destruct (hash_key s y) as [e|k]; simpl; [eexists; reflexivity|].
    destruct (decide (k ∈ seen)); apply IH; assumption.
Qed.

Lemma first_seen_count (l : list string) :
  length (first_seen l) = size (list_to_set l : gset string).
Proof.
  rewrite <- (size_list_to_set (C := gset string) (first_seen l)).
  - f_equal. apply set_eq. intros x.
    rewrite !elem_of_list_to_set, !list_elem_of_In. apply In_first_seen.
  - apply NoDup_ListNoDup, NoDup_first_seen.
Qed.


(** C6.  On lists of strings and a cap [max_count], [consolidate_suggestions]
    returns the first [max_count] elements of the concatenation of the lists
    (in call order) with duplicates removed, each element staying at its first
    occurrence: the result has no duplicates, draws on exactly the elements
    given, and its length is the minimum of the number of distinct elements
    and the cap.  Consolidating the result again returns it unchanged.  The
    default cap is 10.  The function never raises: when the loop crashes
    (on an element that cannot be put in a set) it returns the single
    fallback suggestion. *)
Theorem consolidate_suggestions_spec (lists : list (list string)) (max_count : nat) :
  let typed := map (fun l => PList (map PStr l)) lists in
  let out := take max_count (first_seen (concat lists)) in
  consolidate_suggestions s typed (Z.of_nat max_count) = map PStr out /\
  List.NoDup out /\
  (forall x, In x (first_seen (concat lists)) <-> In x (concat lists)) /\
  length out = Nat.min (size (list_to_set (concat lists) : gset string)) max_count /\
  consolidate_suggestions s [PList (map PStr out)] (Z.of_nat max_count) = map PStr out /\
  consolidate_suggestions s typed default_max_suggestions
    = map PStr (take 10 (first_seen (concat lists))) /\
  (forall (any : list pyval) (m : Z) (x : pyval),
     In x (flatten any) -> raises (hash_key s x) ->
     consolidate_suggestions s any m = [PStr msg_ask_department]).
Proof.
  intros typed out.
  assert (Hnodup : List.NoDup out).
  { pose proof (NoDup_first_seen (concat lists)) as H.
    rewrite <- (firstn_skipn max_count) in H.
    apply NoDup_app_remove_r in H. exact H. }
  split; [apply consolidate_strings|].
  split; [exact Hnodup|].
  split; [intros x; apply In_first_seen|].
  split.
  { unfold out. rewrite length_take, first_seen_count. lia. }
  split.
  { pose proof (consolidate_strings [out] max_count) as H. simpl in H.
    rewrite app_nil_r, (first_seen_NoDup out Hnodup) in H.
    rewrite H. unfold out. rewrite firstn_firstn, Nat.min_id. reflexivity. }
  split; [apply (consolidate_strings lists 10)|].
  intros any m x Hin Hx. unfold consolidate_suggestions.
  destruct (unique_loop_unhashable x (flatten any) [] ∅ Hin Hx) as [e ->].
  reflexivity.
Qed.

End ConsolidateFacts.

Lemma consolidate_suggestions_spec_witness :
  SuggestionEngine.consolidate_suggestions ∅
    [Py.PList [Py.PStr "a"; Py.PList []]] 10
  = [Py.PStr SuggestionEngine.msg_ask_department].
Proof.
  destruct (consolidate_suggestions_spec ∅ [] 0%nat) as (_ & _ & _ & _ & _ & _ & H).
  apply (H _ _ (Py.PList [])).
  - simpl. auto.
  - eexists. reflexivity.
Defined.

Example consolidate_sample :
  SuggestionEngine.consolidate_suggestions ∅
    [Py.PList [Py.PStr "a"; Py.PStr "b"; Py.PStr "a"];
     Py.PList [Py.PStr "c"; Py.PStr "b"; Py.PStr "d"]] 3
  = [Py.PStr "a"; Py.PStr "b"; Py.PStr "c"].
Proof. vm_compute. reflexivity. Qed.

(** The cap is a count.  A negative [max_suggestions] is a slice bound from
    the end of the list in Python: the last elements are dropped. *)
Example consolidate_negative_cap :
  SuggestionEngine.consolidate_suggestions ∅
    [Py.PList [Py.PStr "a"; Py.PStr "b"; Py.PStr "c"]] (-1)
  = [Py.PStr "a"; Py.PStr "b"].
Proof. vm_compute. reflexivity. Qed.

(** ** The deadline rule *)

Section DeadlineFacts.
Import Py Datetime SuggestionEngine.

Variable s : store.

(** The buckets of [days_left]: below 0, 0, up to 3, up to 7, up to 14,
    above. *)
Lemma deadline_message_buckets (d : Z) :
  (d < 0 -> deadline_message d = deadline_message (-1)) /\
  (d = 0 -> deadline_message d = "🚨 오늘이 마감일입니다!") /\
  (1 <= d <= 3 ->
     deadline_message d = "⏰ " ++ str_of_Z d ++ "일 후 마감입니다. 서둘러 준비하세요!") /\
  (4 <= d <= 7 ->
     deadline_message d
     = "📅 일주일 내 마감(" ++ str_of_Z d ++ "일 후)입니다. 미리 준비하세요") /\
  (8 <= d <= 14 -> deadline_message d = deadline_message 14) /\
  (15 <= d ->
     deadline_message d
     = "📆 마감까지 " ++ str_of_Z d ++ "일 남았습니다. 계획적으로 준비하세요").
Proof.
  unfold deadline_message.
  repeat split; intros H;
    repeat match goal with
    | |- context [?a <? ?b] => destruct (Z.ltb_spec a b); try lia
    | |- context [?a =? ?b] => destruct (Z.eqb_spec a b); try lia
    | |- context [?a <=? ?b] => destruct (Z.leb_spec a b); try lia
    end; try reflexivity.
Qed.

Lemma make_midnight y m d t : Datetime.make y m d = inr t -> micros t = 0.
Proof.
  unfold Datetime.make.
  repeat match goal with
  | |- context [if ?b then _ else _] => destruct b
  end; try discriminate.
  intros [= <-]. reflexivity.
Qed.

Lemma find_deadline_midnight ps t deadline :
  find_deadline ps t = Some deadline -> micros deadline = 0.
Proof.
  induction ps as [|p rest IH]; simpl; [discriminate|].
  destruct (re_search p t) as [[[g1 g2] g3]|]; [|exact IH].
  destruct (deadline_of_groups p (g1, g2, g3)) as [e|d] eqn:E; [exact IH|].
  intros [= <-]. unfold deadline_of_groups in E.
  destruct p; cbv iota beta in E;
    repeat match type of E with
    | bind (group_int ?g) _ = _ => destruct (group_int g); [discriminate|]; cbn [bind] in E
    end; eapply make_midnight; exact E.
Qed.

Lemma find_deadline_text ps deadline : find_deadline ps EmptyString <> Some deadline.
Proof. induction ps as [|[] rest IH]; simpl; auto; discriminate. Qed.

(** [days_left] is the number of calendar days to the deadline, less one as
    soon as the clock is past midnight. *)
Lemma days_left_lags (deadline now : datetime) :
  micros deadline = 0 ->
  0 <= micros now < micros_per_day ->
  sub_days deadline now
  = toordinal deadline - toordinal now - (if micros now =? 0 then 0 else 1).
Proof.
  intros Hd Hn. unfold sub_days. rewrite Hd.
  destruct (Z.eqb_spec (micros now) 0) as [->|Hne].
  - rewrite Z.add_0_r, Z.div_mul by (unfold micros_per_day; lia). lia.
  - symmetry. apply Z.div_unique with (r := micros_per_day - micros now); lia.
Qed.

(** A deadline that falls today is reported overdue from 00:00:00.000001
    on. *)
Lemma deadline_today_generally (now : datetime) (t : string) (deadline : datetime) :
  find_deadline date_patterns t = Some deadline ->
  toordinal deadline = toordinal now ->
  0 < micros now < micros_per_day ->
  _generate_deadline_suggestions s now (PStr t) = [deadline_message (-1)].
Proof.
  intros Hf Hord Hmic. unfold _generate_deadline_suggestions.
  destruct t as [|c r]; [now apply find_deadline_text in Hf|].
  simpl truthy. cbv iota. simpl negb. cbv iota.
  rewrite Hf. simpl.
  rewrite days_left_lags by (eauto using find_deadline_midnight; lia).
  destruct (Z.eqb_spec (micros now) 0); [lia|].
  rewrite Hord. replace (toordinal now - toordinal now - 1) with (-1) by lia.
  reflexivity.
Qed.

Lemma unparseable_deadline (now : datetime) (t : string) :
  t <> EmptyString ->
  find_deadline date_patterns t = None ->
  _generate_deadline_suggestions s now (PStr t) = [msg_check_format].
Proof.
  intros Ht Hf. unfold _generate_deadline_suggestions.
  destruct t as [|c r]; [congruence|]. simpl truthy. simpl negb. cbv iota.
  rewrite Hf. reflexivity.
Qed.

End DeadlineFacts.

(** C4.  The buckets are cut at 0, 3, 7 and 14 of [days_left], but
    [days_left] is not the number of calendar days to the deadline: the
    deadline is taken at midnight and the difference to the clock is rounded
    down, so on 2025-09-04 at 09:00 the deadline 2025.09.04, which is today,
    gets the overdue message, and it is the deadline 2025.09.05 that gets the
    due-today message. *)
Theorem deadline_today_reported_overdue :
  let now := Datetime.DT 2025 9 4 32400000000 in
  SuggestionEngine._generate_deadline_suggestions ∅ now (Py.PStr "2025.09.04")
    = ["⚠️ 마감일이 지났습니다. 연장 가능 여부를 확인해보세요"] /\
  SuggestionEngine._generate_deadline_suggestions ∅ now (Py.PStr "2025.09.05")
    = ["🚨 오늘이 마감일입니다!"].
Proof. split; vm_compute; reflexivity. Qed.

Example deadline_samples :
  let now := Datetime.DT 2025 9 4 32400000000 in
  map (fun t => SuggestionEngine._generate_deadline_suggestions ∅ now (Py.PStr t))
      ["2025.09.07"; "2025.09.14"; "2025.09.03"; "next week"]
  = [ ["⏰ 2일 후 마감입니다. 서둘러 준비하세요!"];
      ["📋 2주 내 마감입니다. 필요한 서류를 준비해보세요"];
      ["⚠️ 마감일이 지났습니다. 연장 가능 여부를 확인해보세요"];
      ["📅 마감일 형식을 확인하여 일정을 관리하세요"] ].
Proof. vm_compute. reflexivity. Qed.

(** ** Dictionaries *)

Section DictFacts.
Import Py.

Lemma dict_lookup_set_eq k v d : dict_lookup k (dict_set k v d) = Some v.
Proof.
  induction d as [|[k' v'] r IH]; simpl.
  - now rewrite String.eqb_refl.
  - destruct (String.eqb_spec k k') as [->|Hne]; simpl.
    + now rewrite String.eqb_refl.
    + destruct (String.eqb_spec k k'); [congruence|exact IH].
Qed.

Lemma dict_lookup_set_ne k k' v d :
  k <> k' -> dict_lookup k (dict_set k' v d) = dict_lookup k d.
Proof.
  intros Hne. induction d as [|[k'' v''] r IH]; simpl.
  - destruct (String.eqb_spec k k'); [congruence|reflexivity].
  - destruct (String.eqb_spec k' k'') as [->|Hne']; simpl.
    + destruct (String.eqb_spec k k''); [congruence|reflexivity].
    + destruct (String.eqb_spec k k''); [reflexivity|exact IH].
Qed.

Lemma py_getitem_dict (s : store) r d k v :
  s !! r = Some d -> dict_lookup k d = Some v -> py_getitem s (PRef r) k = inr v.
Proof. intros Hd Hk. unfold py_getitem. rewrite Hd, Hk. reflexivity. Qed.

Lemma py_setitem_dict (s : store) r d k v :
  s !! r = Some d -> py_setitem s (PRef r) k v = inr (<[r := dict_set k v d]> s).
Proof. intros Hd. unfold py_setitem. rewrite Hd. reflexivity. Qed.

End DictFacts.

(** ** The pipeline *)

Section PipelineFacts.
Import Py Datetime LanggraphPipeline.

Variable perform_ocr_on_url : pyval -> string.
Variable model_ready : bool.
Variable generate_content : pyval -> list (pyval * pyval) -> pyval -> res string.
Variable json_loads : string -> res pyval.
Variable now : datetime.

#[local] Abbreviation ocr_loop := (ocr_loop perform_ocr_on_url).
#[local] Abbreviation _OCR := (_OCR perform_ocr_on_url).
#[local] Abbreviation _Summary :=
  (_Summary model_ready generate_content json_loads now).
#[local] Abbreviation invoke :=
  (invoke perform_ocr_on_url model_ready generate_content json_loads now).
#[local] Abbreviation run :=
  (run perform_ocr_on_url model_ready generate_content json_loads now).

(** The text extracted for an image of the store [s0]. *)
#[local] Abbreviation text_of s0 i := (perform_ocr_on_url (field_of "url" s0 i)).
#[local] Abbreviation extracted := (extracted perform_ocr_on_url).

Lemma field_of_dict (s : store) r d k v :
  s !! r = Some d -> dict_lookup k d = Some v -> field_of k s (PRef r) = v.
Proof. intros Hd Hk. unfold field_of. simpl. rewrite Hd. simpl. now rewrite Hk. Qed.

Lemma keeps_images_refl s : keeps_images s s.
Proof. intros r d H. exists d. auto. Qed.

Lemma ocr_loop_images (s0 : store) (images : list pyval) : forall s tr,
  keeps_images s0 s ->
  Forall (image_ok s0) images ->
  exists s',
    ocr_loop images s tr
      = (inr tt, s', tr ++ map (fun i => OcrCall (field_of "url" s0 i)) images)%list /\
    keeps_images s0 s' /\
    Forall (extracted s0 s') images /\
    (forall i, image_ok s0 i -> extracted s0 s i -> extracted s0 s' i).
Proof.
  induction images as [|i rest IH]; intros s tr Hk Himgs; cbn [LanggraphPipeline.ocr_loop].
  - exists s. simpl. rewrite app_nil_r. auto.
  - apply Forall_cons in Himgs. destruct Himgs as [Hi Hrest].
    destruct Hi as (d & url & filename & Hd & Hurl & Hfile).
    destruct i as [| | | | |r]; try discriminate. simpl in Hd.
    destruct (Hk r d Hd) as (d' & Hd' & Hurl' & Hfile').
    rewrite (py_getitem_dict s r d' "url" url) by congruence.
    rewrite (py_setitem_dict s r d') by assumption.
    set (text := perform_ocr_on_url url).
    set (s1 := <[r := dict_set "ocr_text" (PStr text) d']> s).
    assert (Hk1 : keeps_images s0 s1).
    { intros r0 d0 H0. destruct (Hk r0 d0 H0) as (d0' & H0' & Hu0 & Hf0).
      unfold s1. destruct (decide (r = r0)) as [->|Hne].
      - rewrite lookup_insert_eq. eexists. split; [reflexivity|].
        rewrite !dict_lookup_set_ne by discriminate.
        rewrite H0' in Hd'. injection Hd' as ->. auto.
      - rewrite lookup_insert_ne by assumption. eauto. }
    assert (Hstep : forall j, image_ok s0 j -> extracted s0 s j -> extracted s0 s1 j).
    { intros j (dj & uj & fj & Hdj & Huj & Hfj) (dj' & Hdj' & Htj).
      destruct j as [| | | | |rj]; try discriminate. simpl in *.
      unfold extracted, s1. simpl. destruct (decide (r = rj)) as [->|Hne].
      - rewrite lookup_insert_eq. eexists. split; [reflexivity|].
        rewrite dict_lookup_set_eq. unfold field_of. simpl.
        rewrite Hdj. simpl. rewrite Huj.
        rewrite Hd in Hdj. injection Hdj as <-. rewrite Hurl in Huj.
        injection Huj as <-. reflexivity.
      - rewrite lookup_insert_ne by assumption. eauto. }
    destruct (IH s1 (tr ++ [OcrCall url])%list Hk1 Hrest)
      as (s' & Hloop & Hk' & Hdone & Hkeep).
    exists s'. split; [|split; [exact Hk'|split]].
    + rewrite Hloop. rewrite <- app_assoc. simpl.
      unfold field_of at 2. simpl. rewrite Hd. simpl. rewrite Hurl. reflexivity.
    + constructor; [|exact Hdone].
      apply Hkeep; [exists d, url, filename; auto|].
      unfold extracted, s1. simpl. rewrite lookup_insert_eq.
      eexists. split; [reflexivity|]. rewrite dict_lookup_set_eq.
      unfold field_of. simpl. rewrite Hd. simpl. rewrite Hurl. reflexivity.
    + intros j Hj Hex. apply Hkeep; [exact Hj|]. apply Hstep; assumption.
Qed.


Lemma ocr_entries_images (s0 s : store) (images : list pyval) :
  keeps_images s0 s ->
  Forall (image_ok s0) images ->
  Forall (extracted s0 s) images ->
  ocr_entries s images
  = inr (map (fun i => (field_of "filename" s0 i, PStr (text_of s0 i))) images).
Proof.
  intros Hk. induction images as [|i rest IH]; intros Himgs Hdone;
    cbn [ocr_entries]; [reflexivity|].
  apply Forall_cons in Himgs. destruct Himgs as [Hi Hrest].
  apply Forall_cons in Hdone. destruct Hdone as [Hdi Hdrest].
  destruct Hi as (d & url & filename & Hd & Hurl & Hfile).
  destruct Hdi as (d' & Hd' & Htext).
  destruct i as [| | | | |r]; try discriminate. simpl in Hd, Hd'.
  destruct (Hk r d Hd) as (d'' & Hd'' & _ & Hfile'').
  rewrite Hd' in Hd''. injection Hd'' as <-.
  rewrite (py_getitem_dict s r d' "filename" filename) by congruence.
  rewrite (py_getitem_dict s r d' "ocr_text" _ Hd' Htext).
  rewrite (IH Hrest Hdrest). simpl.
  rewrite (field_of_dict s0 r d "filename" filename Hd Hfile). reflexivity.
Qed.

(** The Summary node calls the summarizer once, unless the title cannot be
    sliced for the log line; it never calls the extraction service. *)
Lemma summary_events (s : store) (state : notify_state) :
  snd (_Summary s state)
  = match py_slice_check s (st_title state) with
    | inr _ =>
        [SummarizeCall (st_title state) (default [] (st_ocr_text state))
           (st_content state)]
    | inl _ => []
    end.
Proof.
  unfold LanggraphPipeline._Summary.
  destruct (py_slice_check s (st_title state)); [reflexivity|].
  destruct (negb _); [|reflexivity].
  destruct (json_loads _) as [e|v]; simpl.
  - destruct (exn_cls e); reflexivity.
  - destruct (truthy s v); reflexivity.
Qed.

Lemma summary_no_ocr (s : store) (state : notify_state) :
  List.filter is_ocr_call (snd (_Summary s state)) = [].
Proof.
  rewrite summary_events. destruct (py_slice_check _ _); reflexivity.
Qed.


(** What [_OCR] hands to the Summary node for the images of [s]. *)
#[local] Abbreviation entries s images :=
  (map (fun i => (field_of "filename" s i, PStr (text_of s i))) images).

Lemma invoke_with_images (s : store) (title content category : pyval)
    (images : list pyval) :
  Forall (image_ok s) images ->
  exists s',
    let state' :=
      State title content (PList images) category
        (match images with [] => None | _ => Some (entries s images) end) in
    invoke s (State title content (PList images) category None)
    = (inr (fst (_Summary s' state')), s',
       (map (fun i => OcrCall (field_of "url" s i)) images
          ++ snd (_Summary s' state'))%list) /\
    keeps_images s s' /\
    Forall (extracted s s') images /\
    (images = [] -> s' = s).
Proof.
  intros Himgs. unfold LanggraphPipeline.invoke, _OCR_branching_condition.
  destruct images as [|i rest].
  - exists s. simpl. destruct (_Summary s _) as [j tr] eqn:E. simpl.
    repeat split; auto using keeps_images_refl.
  - cbn [st_image truthy py_len]. cbn [bind ret].
    replace (0 <? Z.of_nat (length (i :: rest))) with true
      by (symmetry; apply Z.ltb_lt; simpl; lia).
    unfold LanggraphPipeline._OCR. cbn [st_image py_iter ret].
    destruct (ocr_loop_images s (i :: rest) s [] (keeps_images_refl s) Himgs)
      as (s' & Hloop & Hk & Hdone & _).
    rewrite Hloop. rewrite (ocr_entries_images s s' _ Hk Himgs Hdone).
    exists s'. cbn [st_title st_content st_image st_category].
    destruct (_Summary s' _) as [j tr] eqn:E. simpl.
    repeat split; auto. discriminate.
Qed.

Lemma run_reads_input (s : store) (json_input title content image category : pyval) :
  py_getitem s json_input "title" = inr title ->
  py_getitem s json_input "content" = inr content ->
  py_getitem s json_input "image" = inr image ->
  py_getitem s json_input "category" = inr category ->
  run s json_input
  = match invoke s (State title content image category None) with
    | (inl _, s', tr) => (RunError, s', tr)
    | (inr result, s', tr) => (RunSuccess result, s', tr)
    end.
Proof.
  intros Ht Hc Hi Hg. unfold LanggraphPipeline.run.
  rewrite Ht, Hc, Hi, Hg. reflexivity.
Qed.

Lemma invoke_without_images (s : store) (title content image category : pyval) :
  truthy s image = false ->
  invoke s (State title content image category None)
  = (inr (fst (_Summary s (State title content image category None))), s,
     snd (_Summary s (State title content image category None))).
Proof.
  intros Hf. unfold LanggraphPipeline.invoke, _OCR_branching_condition.
  cbn [st_image]. rewrite Hf. cbn [ret].
  destruct (_Summary s _) as [j tr]. reflexivity.
Qed.


(** *** Errors of the Summary node *)

Lemma generate_error_suggestions_nonempty (s : store) (error_type error_message : pyval) :
  SuggestionEngine.generate_error_suggestions s error_type error_message <> [].
Proof.
  unfold SuggestionEngine.generate_error_suggestions.
  destruct (SuggestionEngine.classify_error s error_type error_message) as [e|[]];
    discriminate.
Qed.

#[local] Abbreviation summarize :=
  (SummaryContent.summarize model_ready generate_content json_loads).

#[local] Abbreviation unexpected e := ("Summary 노드에서 예상치 못한 오류: " ++ exn_str e).

(** The four ways out of [_Summary] with an error, and the one without. *)
Lemma summary_cases (s : store) (state : notify_state) :
  let title := st_title state in
  let summary_result :=
    summarize title (default [] (st_ocr_text state)) (st_content state) in
  let j := fst (_Summary s state) in
  (exists e, py_slice_check s title = inl e /\
     j = Error (unexpected e) None
           (SuggestionEngine.generate_error_suggestions s
              (PStr "unexpected") (PStr (exn_str e)))) \/
  (startswith SummaryContent.failure_prefix summary_result = true /\
     j = Error summary_result None
           (SuggestionEngine.generate_error_suggestions s
              (PStr "summary") (PStr summary_result))) \/
  (exists e, startswith SummaryContent.failure_prefix summary_result = false /\
     json_loads summary_result = inl e /\ exn_cls e <> JSONDecodeError /\
     j = Error (unexpected e) None
           (SuggestionEngine.generate_error_suggestions s
              (PStr "unexpected") (PStr (exn_str e)))) \/
  (startswith SummaryContent.failure_prefix summary_result = false /\
   ((exists e, json_loads summary_result = inl e /\ exn_cls e = JSONDecodeError) \/
    (exists v, json_loads summary_result = inr v /\ truthy s v = false)) /\
     j = Error msg_parse_failed (Some summary_result)
           (SuggestionEngine.generate_error_suggestions s
              (PStr "parsing") (PStr msg_parse_failed))) \/
  (exists v suggestions,
     startswith SummaryContent.failure_prefix summary_result = false /\
     json_loads summary_result = inr v /\ truthy s v = true /\
     j = Success summary_result v suggestions).
Proof.
  intros title summary_result j. subst j.
  unfold LanggraphPipeline._Summary. fold title. fold summary_result.
  destruct (py_slice_check s title) as [e|[]].
  { left. exists e. split; reflexivity. }
  right.
  destruct (startswith SummaryContent.failure_prefix summary_result) eqn:Hpre; simpl.
  { left. split; reflexivity. }
  right.
  destruct (json_loads summary_result) as [e|v] eqn:Hload; simpl.
  - destruct (exn_cls e) eqn:Hcls;
      try (left; exists e; split; [reflexivity|]; split; [reflexivity|];
           split; [congruence|reflexivity]).
    right. left. split; [reflexivity|]. split; [|reflexivity].
    left. exists e. split; [reflexivity|assumption].
  - right. destruct (truthy s v) eqn:Htruthy.
    + right. do 2 eexists. split; [reflexivity|]. split; [reflexivity|].
      split; [assumption|reflexivity].
    + left. split; [reflexivity|]. split; [|reflexivity].
      right. exists v. split; [reflexivity|assumption].
Qed.

(** A result of the Summary node with the status [error] carries an error
    message and suggestions from [generate_error_suggestions], which are never
    empty. *)
Lemma summary_error_report (s : store) (state : notify_state) error data suggestions :
  fst (_Summary s state) = Error error data suggestions ->
  suggestions <> [] /\
  exists error_type error_message,
    suggestions
    = SuggestionEngine.generate_error_suggestions s (PStr error_type) (PStr error_message).
Proof.
  intros H.
  destruct (summary_cases s state)
    as [(e & _ & E)|[(_ & E)|[(e & _ & _ & _ & E)|[(_ & _ & E)|(v & sg & _ & _ & _ & E)]]]];
    rewrite E in H; try discriminate; injection H as <- <- <-;
    (split; [apply generate_error_suggestions_nonempty| do 2 eexists; reflexivity]).
Qed.

Lemma summary_status (s : store) (state : notify_state) :
  status (fst (_Summary s state)) = "success" \/
  status (fst (_Summary s state)) = "error".
Proof. destruct (fst (_Summary s state)); simpl; auto. Qed.

(** *** What [run] returns *)

Lemma ocr_loop_events (images : list pyval) : forall s tr,
  List.filter is_summarize_call (snd (ocr_loop images s tr))
  = List.filter is_summarize_call tr.
Proof.
  induction images as [|i rest IH]; intros s tr; cbn [LanggraphPipeline.ocr_loop];
    [reflexivity|].
  destruct (py_getitem s i "url") as [e|url]; [reflexivity|].
  destruct (py_setitem s i "ocr_text" _) as [e|s'].
  - simpl. rewrite List.filter_app. simpl. apply app_nil_r.
  - rewrite IH, List.filter_app. simpl. apply app_nil_r.
Qed.

Lemma invoke_cases (s : store) (state : notify_state) :
  (exists e s' tr, invoke s state = (inl e, s', tr) /\
     List.filter is_summarize_call tr = []) \/
  (exists s' state' tr,
     invoke s state
     = (inr (fst (_Summary s' state')), s', (tr ++ snd (_Summary s' state'))%list)).
Proof.
  unfold LanggraphPipeline.invoke.
  destruct (_OCR_branching_condition s state) as [e|[|]].
  - left. exists e, s, []. split; reflexivity.
  - unfold LanggraphPipeline._OCR.
    destruct (py_iter s (st_image state)) as [e|images].
    { left. exists e, s, []. split; reflexivity. }
    pose proof (ocr_loop_events images s []) as Hev.
    destruct (ocr_loop images s []) as [[[e|[]] s'] tr]; simpl in Hev.
    { left. exists e, s', tr. split; [reflexivity|exact Hev]. }
    destruct (ocr_entries s' images) as [e|ocr_text].
    { left. exists e, s', tr. split; [reflexivity|exact Hev]. }
    right. eexists s', _, tr.
    destruct (_Summary s' _) as [j tr'] eqn:E. rewrite E. reflexivity.
  - right. exists s, state, [].
    destruct (_Summary s state) as [j tr'] eqn:E. reflexivity.
Qed.

Lemma run_cases (s : store) (json_input : pyval) :
  (exists s' tr, run s json_input = (RunError, s', tr) /\
     List.filter is_summarize_call tr = []) \/
  (exists s' state' tr,
     run s json_input
     = (RunSuccess (fst (_Summary s' state')), s',
        (tr ++ snd (_Summary s' state'))%list)).
Proof.
  unfold LanggraphPipeline.run.
  destruct (bind (py_getitem s json_input "title") _) as [e|state].
  { left. exists s, []. split; reflexivity. }
  destruct (invoke_cases s state)
    as [(e & s' & tr & -> & Hev)|(s' & state' & tr & ->)].
  - left. exists s', tr. split; [reflexivity|exact Hev].
  - right. exists s', state', tr. reflexivity.
Qed.


(** *** Failures of the summarizer *)

Lemma summarize_failure (title : pyval) (ocr_text : list (pyval * pyval)) (content : pyval) :
  model_ready = false \/
  raises (generate_content title ocr_text content) \/
  (exists raw, generate_content title ocr_text content = inr raw /\
     (SummaryContent.brace_span raw = None \/
      exists json_string, SummaryContent.brace_span raw = Some json_string /\
        raises (json_loads json_string))) ->
  startswith SummaryContent.failure_prefix (summarize title ocr_text content) = true.
Proof.
  unfold SummaryContent.summarize.
  intros [->|H]; [reflexivity|].
  destruct model_ready; [|reflexivity]. simpl negb. cbv iota.
  destruct H as [[e ->]|(raw & -> & H)]; [reflexivity|]. simpl.
  destruct H as [->|(js & -> & [e ->])]; reflexivity.
Qed.

End PipelineFacts.

(** ** Text extraction *)

Section OcrFacts.
Import Py OcrTool.

Variable s : store.
Variable image : Type.
Variable download : pyval -> res image.
Variable ocr_instance : res unit.
Variable predict : image -> res ocr_results.

#[local] Abbreviation ocr_body := (ocr_body s image download ocr_instance predict).
#[local] Abbreviation perform_ocr_on_url :=
  (perform_ocr_on_url s image download ocr_instance predict).

(** Whatever raises inside the function, the caller gets the empty text. *)
Lemma perform_ocr_on_url_failure (img_url : pyval) :
  raises (ocr_body img_url) -> perform_ocr_on_url img_url = EmptyString.
Proof. intros [e H]. unfold OcrTool.perform_ocr_on_url. now rewrite H. Qed.

Lemma ocr_body_download_fails (img_url : pyval) :
  raises (download img_url) -> raises (ocr_body img_url).
Proof. intros [e H]. unfold OcrTool.ocr_body. rewrite H. eexists; reflexivity. Qed.

Lemma ocr_body_instance_fails (img_url : pyval) :
  raises ocr_instance -> raises (ocr_body img_url).
Proof.
  intros [e H]. unfold OcrTool.ocr_body.
  destruct (download img_url); simpl; [eexists; reflexivity|].
  rewrite H. eexists; reflexivity.
Qed.

Lemma ocr_body_predict_fails (img_url : pyval) (img_array : image) :
  download img_url = inr img_array -> raises (predict img_array) ->
  raises (ocr_body img_url).
Proof.
  intros Hd [e H]. unfold OcrTool.ocr_body. rewrite Hd. simpl.
  destruct ocr_instance; simpl; [eexists; reflexivity|].
  rewrite H. eexists; reflexivity.
Qed.

End OcrFacts.

(** C8.  Take an input with its title, content and category.  When its
    images are a list of dictionaries with a [url] and a [filename], [run]
    first calls the extraction service, once per image and in order, leaving
    on each image dictionary the extracted text as [ocr_text], and only then
    enters the Summary node, which makes no extraction call and, for a title
    that is text, exactly one summarization call, on the extracted texts.
    When the image value is empty, no extraction call is made at all and the
    store is left as it was.  [perform_ocr_on_url] returns the empty text
    whenever anything inside it raises: the download, the OCR engine or the
    prediction. *)
Theorem extraction_before_summarization
    (image : Type) (download : Py.pyval -> Py.res image) (ocr_instance : Py.res unit)
    (predict : image -> Py.res OcrTool.ocr_results)
    (model_ready : bool)
    (generate_content : Py.pyval -> list (Py.pyval * Py.pyval) -> Py.pyval -> Py.res string)
    (json_loads : string -> Py.res Py.pyval) (now : Datetime.datetime)
    (s : Py.store) (json_input title content category : Py.pyval) :
  let ocr := OcrTool.perform_ocr_on_url s image download ocr_instance predict in
  let run := LanggraphPipeline.run ocr model_ready generate_content json_loads now in
  Py.py_getitem s json_input "title" = inr title ->
  Py.py_getitem s json_input "content" = inr content ->
  Py.py_getitem s json_input "category" = inr category ->
  (forall images,
     Py.py_getitem s json_input "image" = inr (Py.PList images) ->
     Forall (LanggraphPipeline.image_ok s) images ->
     exists j s' events,
       run s json_input
       = (LanggraphPipeline.RunSuccess j, s',
          (map (fun i => LanggraphPipeline.OcrCall (LanggraphPipeline.field_of "url" s i))
               images ++ events)%list) /\
       Forall (LanggraphPipeline.extracted ocr s s') images /\
       List.filter LanggraphPipeline.is_ocr_call events = [] /\
       (forall t, title = Py.PStr t ->
          events
          = [LanggraphPipeline.SummarizeCall title
               (map (fun i => (LanggraphPipeline.field_of "filename" s i,
                               Py.PStr (ocr (LanggraphPipeline.field_of "url" s i))))
                    images)
               content]) /\
       (images = [] -> s' = s)) /\
  (forall image_value,
     Py.py_getitem s json_input "image" = inr image_value ->
     Py.truthy s image_value = false ->
     exists j events,
       run s json_input = (LanggraphPipeline.RunSuccess j, s, events) /\
       List.filter LanggraphPipeline.is_ocr_call events = []) /\
  (forall img_url,
     Py.raises (OcrTool.ocr_body s image download ocr_instance predict img_url) ->
     ocr img_url = EmptyString) /\
  (forall img_url, Py.raises (download img_url) -> ocr img_url = EmptyString) /\
  (Py.raises ocr_instance -> forall img_url, ocr img_url = EmptyString) /\
  (forall img_url img_array,
     download img_url = inr img_array -> Py.raises (predict img_array) ->
     ocr img_url = EmptyString).
Proof.
  intros ocr run Ht Hc Hg.
  split; [|split; [|split; [|split; [|split]]]].
  - intros images Hi Himgs. unfold run.
    rewrite (run_reads_input _ _ _ _ _ s json_input title content _ category Ht Hc Hi Hg).
    destruct (invoke_with_images ocr model_ready generate_content json_loads now
                s title content category images Himgs)
      as (s' & Hinv & _ & Hdone & Hsame).
    cbv zeta in Hinv. rewrite Hinv.
    eexists _, s', _. split; [reflexivity|].
    split; [exact Hdone|]. split; [apply summary_no_ocr|].
    split; [|exact Hsame].
    intros t ->. rewrite summary_events. simpl.
    destruct images; reflexivity.
  - intros image_value Hi Hf. unfold run.
    rewrite (run_reads_input _ _ _ _ _ s json_input title content _ category Ht Hc Hi Hg).
    rewrite invoke_without_images by assumption.
    eexists _, _. split; [reflexivity|apply summary_no_ocr].
  - intros img_url. apply perform_ocr_on_url_failure.
  - intros img_url H. apply perform_ocr_on_url_failure, ocr_body_download_fails, H.
  - intros H img_url. apply perform_ocr_on_url_failure, ocr_body_instance_fails, H.
  - intros img_url img_array Hd H.
    eapply perform_ocr_on_url_failure, ocr_body_predict_fails; eassumption.
Qed.

(** C2, as amended.  Every result of the Summary node has the status
    [success] or [error]; with the status [error] it carries an error message
    and a list of suggestions that comes from [generate_error_suggestions] and
    is not empty.  A failure of the summarizer (no model, the service raising,
    no JSON in the answer, JSON that does not parse) and a parsing failure in
    the node are both reported in this way.  [run] either wraps such a result
    under the status [success], or, when an exception reaches it before the
    Summary node has called the summarizer, returns the status [error] with
    an empty summary, which carries neither message nor suggestions. *)
Theorem pipeline_error_reporting
    (perform_ocr_on_url : Py.pyval -> string) (model_ready : bool)
    (generate_content : Py.pyval -> list (Py.pyval * Py.pyval) -> Py.pyval -> Py.res string)
    (json_loads : string -> Py.res Py.pyval) (now : Datetime.datetime) :
  let summary := LanggraphPipeline._Summary model_ready generate_content json_loads now in
  let summarize := SummaryContent.summarize model_ready generate_content json_loads in
  let run := LanggraphPipeline.run perform_ocr_on_url model_ready generate_content
               json_loads now in
  (forall s state,
     let j := fst (summary s state) in
     (LanggraphPipeline.status j = "success" \/ LanggraphPipeline.status j = "error") /\
     (forall error data suggestions,
        j = LanggraphPipeline.Error error data suggestions ->
        suggestions <> [] /\
        exists error_type error_message,
          suggestions
          = SuggestionEngine.generate_error_suggestions s
              (Py.PStr error_type) (Py.PStr error_message))) /\
  (forall s state,
     let title := LanggraphPipeline.st_title state in
     let ocr_text := default [] (LanggraphPipeline.st_ocr_text state) in
     let content := LanggraphPipeline.st_content state in
     let summary_result := summarize title ocr_text content in
     Py.py_slice_check s title = inr tt ->
     (model_ready = false \/
      Py.raises (generate_content title ocr_text content) \/
      (exists raw, generate_content title ocr_text content = inr raw /\
         (SummaryContent.brace_span raw = None \/
          exists json_string, SummaryContent.brace_span raw = Some json_string /\
            Py.raises (json_loads json_string))) ->
      fst (summary s state)
      = LanggraphPipeline.Error summary_result None
          (SuggestionEngine.generate_error_suggestions s
             (Py.PStr "summary") (Py.PStr summary_result))) /\
     (Py.startswith SummaryContent.failure_prefix summary_result = false ->
      (exists e, json_loads summary_result = inl e /\
                 Py.exn_cls e = Py.JSONDecodeError) \/
      (exists v, json_loads summary_result = inr v /\ Py.truthy s v = false) ->
      fst (summary s state)
      = LanggraphPipeline.Error LanggraphPipeline.msg_parse_failed (Some summary_result)
          (SuggestionEngine.generate_error_suggestions s
             (Py.PStr "parsing") (Py.PStr LanggraphPipeline.msg_parse_failed)))) /\
  (forall s json_input,
     (exists s' tr,
        run s json_input = (LanggraphPipeline.RunError, s', tr) /\
        List.filter LanggraphPipeline.is_summarize_call tr = [] /\
        LanggraphPipeline.error_report LanggraphPipeline.RunError = None) \/
     (exists s' state' tr,
        run s json_input
        = (LanggraphPipeline.RunSuccess (fst (summary s' state')), s',
           (tr ++ snd (summary s' state'))%list))).
Proof.
  intros summary summarize run. split; [|split].
  - intros s state j. split; [apply summary_status|].
    intros error data suggestions H. eapply summary_error_report. exact H.
  - intros s state title ocr_text content summary_result Hslice.
    pose proof (summary_cases model_ready generate_content json_loads now s state)
      as Hcases.
    cbv zeta in Hcases. fold title ocr_text content in Hcases.
    fold summarize in Hcases. fold summary_result in Hcases. fold summary in Hcases.
    split.
    + intros Hfail.
      apply (summarize_failure model_ready generate_content json_loads) in Hfail.
      fold summarize in Hfail. fold summary_result in Hfail.
      destruct Hcases
        as [(e & He & _)|[(_ & E)|[(e & Hpre & _)|[(Hpre & _)|(v & sg & Hpre & _)]]]];
        congruence.
    + intros Hpre Hparse.
      destruct Hcases
        as [(e & He & _)|[(Hpre' & _)|[(e & _ & He & Hcls & _)|[(_ & _ & E)|(v & sg & _ & Hv & Ht & _)]]]];
        try congruence.
      * destruct Hparse as [(e' & He' & Hcls')|(v & Hv & _)]; congruence.
      * destruct Hparse as [(e' & He' & _)|(v' & Hv' & Ht')]; congruence.
  - intros s json_input.
    destruct (run_cases perform_ocr_on_url model_ready generate_content json_loads
                now s json_input) as [(s' & tr & H & Hev)|(s' & state' & tr & H)].
    + left. exists s', tr. auto.
    + right. exists s', state', tr. exact H.
Qed.

Lemma extraction_before_summarization_witness :
  exists j s' events,
    LanggraphPipeline.run
      (OcrTool.perform_ocr_on_url Samples.pipeline_store unit Samples.download
         Samples.ocr_instance Samples.predict)
      true Samples.generate_content Samples.json_loads Samples.nine_o_clock
      Samples.pipeline_store (Py.PRef 1%positive)
    = (LanggraphPipeline.RunSuccess j, s',
       (map (fun i => LanggraphPipeline.OcrCall
                        (LanggraphPipeline.field_of "url" Samples.pipeline_store i))
            Samples.images ++ events)%list) /\
    List.filter LanggraphPipeline.is_ocr_call events = [].
Proof.
  destruct (extraction_before_summarization unit Samples.download
              Samples.ocr_instance Samples.predict true Samples.generate_content
              Samples.json_loads Samples.nine_o_clock Samples.pipeline_store
              (Py.PRef 1%positive) _ _ _ eq_refl eq_refl eq_refl) as [H _].
  destruct (H Samples.images eq_refl) as (j & s' & events & Hrun & _ & Hocr & _).
  - repeat constructor; do 3 eexists; repeat split; reflexivity.
  - exists j, s', events. split; assumption.
Defined.

(** The run of the sample input, in full: two extraction calls, then the
    summarization call on the two texts. *)
Example run_sample_events :
  snd (LanggraphPipeline.run
         (OcrTool.perform_ocr_on_url Samples.pipeline_store unit Samples.download
            Samples.ocr_instance Samples.predict)
         true Samples.generate_content Samples.json_loads Samples.nine_o_clock
         Samples.pipeline_store (Py.PRef 1%positive))
  = [ LanggraphPipeline.OcrCall (Py.PStr "https://scatch.ssu.ac.kr/1.jpg");
      LanggraphPipeline.OcrCall (Py.PStr "https://scatch.ssu.ac.kr/2.jpg");
      LanggraphPipeline.SummarizeCall (Py.PStr "장학금 안내")
        [ (Py.PStr "1.jpg", Py.PStr ("line 1" ++ Py.nl ++ "line 2"));
          (Py.PStr "2.jpg", Py.PStr ("line 1" ++ Py.nl ++ "line 2")) ]
        (Py.PStr "<div>...</div>") ].
Proof. vm_compute. reflexivity. Qed.

(** C2, the claim as it stands: for the input without an ['image'] entry,
    [run] returns the status [error] with no error message and no
    suggestions. *)
Lemma run_error_without_report :
  let r :=
    fst (fst (LanggraphPipeline.run (fun _ => EmptyString) true
                Samples.generate_content Samples.json_loads Samples.nine_o_clock
                Samples.pipeline_store (Py.PRef 4%positive))) in
  ~ (LanggraphPipeline.run_status r = "error" ->
     exists error suggestions,
       LanggraphPipeline.error_report r = Some (error, suggestions) /\
       suggestions <> []).
Proof.
  intros r H. destruct H as (error & suggestions & Hrep & _).
  - vm_compute. reflexivity.
  - vm_compute in Hrep. discriminate.
Qed.

Lemma pipeline_error_reporting_witness :
  let summary :=
    LanggraphPipeline._Summary false Samples.generate_content Samples.json_loads
      Samples.nine_o_clock in
  let state :=
    LanggraphPipeline.State (Py.PStr "장학금 안내") (Py.PStr "<div>...</div>")
      (Py.PList []) (Py.PStr "장학") None in
  exists summary_result,
    fst (summary Samples.pipeline_store state)
    = LanggraphPipeline.Error summary_result None
        (SuggestionEngine.generate_error_suggestions Samples.pipeline_store
           (Py.PStr "summary") (Py.PStr summary_result)).
Proof.
  intros summary state.
  destruct (pipeline_error_reporting (fun _ => EmptyString) false
              Samples.generate_content Samples.json_loads Samples.nine_o_clock)
    as (_ & H & _).
  destruct (H Samples.pipeline_store state eq_refl) as [Hfail _].
  eexists. apply Hfail. left. reflexivity.
Defined.

(** ** Strings *)

Section StringFacts.
Import Py.

Lemma append_cons (x : ascii) (a b : string) : String x a ++ b = String x (a ++ b).
Proof. reflexivity. Qed.

Lemma append_assoc (a b c : string) : (a ++ b) ++ c = a ++ b ++ c.
Proof.
  induction a as [|x a IH]; [reflexivity|].
  rewrite !append_cons, IH. reflexivity.
Qed.

Lemma append_nil_r (a : string) : a ++ EmptyString = a.
Proof.
  induction a as [|x a IH]; [reflexivity|].
  rewrite append_cons, IH. reflexivity.
Qed.

Lemma length_append (a b : string) :
  String.length (a ++ b) = (String.length a + String.length b)%nat.
Proof.
  induction a as [|x a IH]; [reflexivity|].
  rewrite append_cons. simpl. rewrite IH. reflexivity.
Qed.

Lemma all_chars_append p (a b : string) :
  all_chars p (a ++ b) = all_chars p a && all_chars p b.
Proof.
  induction a as [|x a IH]; [reflexivity|].
  rewrite append_cons. simpl. rewrite IH, andb_assoc. reflexivity.
Qed.

Lemma all_chars_weaken (p q : ascii -> bool) (t : string) :
  (forall c, p c = true -> q c = true) ->
  all_chars p t = true -> all_chars q t = true.
Proof.
  intros Hpq. induction t as [|c r IH]; simpl; [reflexivity|].
  rewrite !andb_true_iff. intros [Hc Hr]. auto.
Qed.

(** [quote] leaves a text of safe characters as it is. *)
Lemma quote_safe (safe t : string) :
  all_chars (fun c => always_safe c || mem_char c safe) t = true ->
  quote safe t = t.
Proof.
  induction t as [|c r IH]; simpl; [reflexivity|].
  rewrite andb_true_iff. intros [Hc Hr]. rewrite Hc, (IH Hr). reflexivity.
Qed.

Lemma quote_empty (safe t : string) :
  quote safe t = EmptyString <-> t = EmptyString.
Proof.
  split; [|intros ->; reflexivity].
  destruct t as [|c r]; [reflexivity|]. simpl.
  destruct (always_safe c || mem_char c safe); discriminate.
Qed.

Lemma uint_digits (d : Decimal.uint) :
  all_chars is_digit (NilEmpty.string_of_uint d) = true.
Proof. induction d; simpl; auto. Qed.

Lemma str_of_N_digits (n : N) : all_chars is_digit (str_of_N n) = true.
Proof.
  unfold str_of_N, NilZero.string_of_uint.
  destruct (N.to_uint n) eqn:E; try reflexivity;
    rewrite <- E; try apply uint_digits;
    change (all_chars is_digit (NilEmpty.string_of_uint (N.to_uint n)) = true);
    apply uint_digits.
Qed.

End StringFacts.

(** ** The calendar links *)

Section CalendarFacts.
Import Py Calendar.

Lemma repeat_char_zero (n : nat) : all_chars is_numeric (repeat_char "0" n) = true.
Proof. induction n as [|n IH]; simpl; [reflexivity|exact IH]. Qed.

Lemma format_0d_numeric (w : nat) (z : Z) : all_chars is_numeric (format_0d w z) = true.
Proof.
  assert (H : forall k n, all_chars is_numeric (zfill k (str_of_N n)) = true).
  { intros k n. unfold zfill. rewrite all_chars_append, repeat_char_zero. simpl.
    apply (all_chars_weaken is_digit); [|apply str_of_N_digits].
    intros c Hc. unfold is_numeric. now rewrite Hc. }
  unfold format_0d. destruct (z <? 0); [simpl|]; apply H.
Qed.

Lemma ymd_numeric (y m d : Z) : all_chars is_numeric (ymd y m d) = true.
Proof.
  unfold ymd. rewrite !all_chars_append, !format_0d_numeric. reflexivity.
Qed.

Lemma format_0d_nonempty (w : nat) (z : Z) : format_0d w z <> EmptyString.
Proof.
  assert (H : forall n, str_of_N n <> EmptyString).
  { intros n. unfold str_of_N, NilZero.string_of_uint.
    destruct (N.to_uint n); discriminate. }
  unfold format_0d. destruct (z <? 0); [discriminate|].
  unfold zfill. intros E. apply (f_equal String.length) in E.
  rewrite length_append in E. simpl in E.
  specialize (H (Z.abs_N z)). destruct (str_of_N (Z.abs_N z)); [congruence|].
  simpl in E. lia.
Qed.

Lemma numeric_safe (c : ascii) :
  is_numeric c = true -> always_safe c || mem_char c "/T:-_." = true.
Proof.
  unfold is_numeric, always_safe. destruct (is_digit c); simpl.
  - intros _. now rewrite !orb_true_r.
  - destruct (Ascii.eqb_spec c "-"); [subst; reflexivity|discriminate].
Qed.

(** The [dates] value needs no escaping, and is never empty. *)
Lemma gcal_dates_shape (date_str dates : string) :
  gcal_dates date_str = Some dates ->
  exists year month day,
    date_parts date_str = Some (year, month, day) /\
    dates = ymd year month day ++ "/" ++ ymd year month (day + 1) /\
    enc true dates = dates /\
    dates <> EmptyString.
Proof.
  unfold gcal_dates. destruct (date_parts date_str) as [[[y m] d]|]; [|discriminate].
  intros [= <-]. exists y, m, d. split; [reflexivity|]. split; [reflexivity|].
  split.
  - apply quote_safe. rewrite !all_chars_append.
    rewrite !(all_chars_weaken is_numeric _ _ numeric_safe (ymd_numeric _ _ _)).
    reflexivity.
  - intros E. apply (f_equal String.length) in E.
    rewrite !length_append in E. simpl in E. lia.
Qed.


Lemma gcal_url_closed (title summary description location dates : string) :
  enc true dates = dates ->
  dates <> EmptyString ->
  gcal_url title summary description location dates
  = "https://calendar.google.com/calendar/render?action=TEMPLATE"
      ++ param "text" (enc false (event_title title description))
      ++ "&dates=" ++ dates
      ++ param "details" (enc false (details location summary))
      ++ "&ctz=Asia%2FSeoul".
Proof.
  intros Henc Hne. unfold gcal_url, query, param. rewrite Henc.
  change (enc false "Asia/Seoul") with "Asia%2FSeoul".
  set (T := enc false (event_title title description)).
  set (D := enc false (details location summary)).
  cbn [List.filter snd fst negb String.eqb Ascii.eqb Bool.eqb].
  destruct (String.eqb_spec dates EmptyString) as [|_]; [contradiction|].
  destruct (String.eqb_spec T EmptyString), (String.eqb_spec D EmptyString);
    cbn [negb map fst snd join String.concat];
    rewrite ?append_assoc; reflexivity.
Qed.


Lemma str_field_set (k : string) (v : pyval) (d : pydict) :
  k <> "url" -> str_field k (dict_set "url" v d) = str_field k d.
Proof. intros H. unfold str_field. now rewrite dict_lookup_set_ne. Qed.

Lemma entry_fields_dict (s : store) (schedule_item : pyval) description date_str location :
  entry_fields s schedule_item = inr (description, date_str, location) ->
  exists d,
    as_dict s schedule_item = Some d /\
    str_field "description" d = Some description /\
    str_field "date" d = Some date_str /\
    str_field "location" d = Some location.
Proof.
  unfold entry_fields, py_get.
  destruct (as_dict s schedule_item) as [d|]; [|discriminate].
  intros Hfields. exists d. split; [reflexivity|]. revert Hfields.
  unfold str_field. simpl.
  destruct (default (PStr EmptyString) (dict_lookup "description" d)); try discriminate.
  simpl.
  destruct (default (PStr EmptyString) (dict_lookup "date" d)); try discriminate.
  simpl.
  destruct (default (PStr EmptyString) (dict_lookup "location" d)); try discriminate.
  simpl. intros [= <- <- <-]. auto.
Qed.

Lemma py_copy_fresh (s : store) (v : pyval) (r : loc) (s1 : store) :
  py_copy s v = inr (r, s1) ->
  exists d, as_dict s v = Some d /\ s !! r = None /\ s1 = <[r := d]> s.
Proof.
  unfold py_copy. destruct (as_dict s v) as [d|]; [|discriminate].
  intros [= <- <-]. exists d. split; [reflexivity|]. split; [|reflexivity].
  apply not_elem_of_dom, is_fresh.
Qed.

(** The loop leaves every dictionary of the store as it is; what it returns
    are the dictionaries built so far followed by new ones, each a copy with
    its link. *)
Lemma schedule_loop_frame (title summary : string) (items : list pyval) :
  forall (result : list loc) (s : store),
    s ⊆ snd (schedule_loop title summary items result s) /\
    forall rs, fst (schedule_loop title summary items result s) = inr rs ->
      exists new,
        rs = (result ++ new)%list /\
        Forall (fun r =>
                  s !! r = None /\
                  exists d,
                    snd (schedule_loop title summary items result s) !! r = Some d /\
                    link_of title summary d) new.
Proof.
  induction items as [|schedule_item rest IH]; intros result s;
    cbn [schedule_loop].
  - split; [reflexivity|]. intros rs [= <-]. exists []. split; [now rewrite app_nil_r|constructor].
  - destruct (entry_fields s schedule_item) as [e|[[description date_str] location]] eqn:Hfields.
    { split; [reflexivity|discriminate]. }
    destruct (String.eqb date_str EmptyString); [apply IH|].
    destruct (gcal_dates date_str) as [dates|] eqn:Hdates; [|apply IH].
    destruct (py_copy s schedule_item) as [e|[r s1]] eqn:Hcopy.
    { split; [reflexivity|discriminate]. }
    apply entry_fields_dict in Hfields. destruct Hfields as (d & Hd & Hf1 & Hf2 & Hf3).
    apply py_copy_fresh in Hcopy. destruct Hcopy as (d' & Hd' & Hfresh & ->).
    rewrite Hd in Hd'. injection Hd' as <-.
    rewrite alter_insert_eq.
    set (url := gcal_url title summary description location dates).
    set (s2 := <[r := dict_set "url" (PStr url) d]> s).
    assert (Hsub : s ⊆ s2) by (apply insert_subseteq, Hfresh).
    destruct (IH (result ++ [r])%list s2) as [Hframe Hres].
    split; [etrans; eassumption|].
    intros rs Hrs. destruct (Hres rs Hrs) as (new & -> & Hnew).
    exists (r :: new). split; [now rewrite <- app_assoc|].
    constructor.
    + split; [exact Hfresh|].
      exists (dict_set "url" (PStr url) d). split.
      * eapply lookup_weaken; [|exact Hframe]. apply lookup_insert_eq.
      * exists description, date_str, location, dates.
        rewrite !str_field_set by discriminate.
        rewrite dict_lookup_set_eq. auto.
    + eapply Forall_impl; [exact Hnew|]. intros r' [Hr' Hlink]. split; [|exact Hlink].
      destruct (s !! r') as [d0|] eqn:E; [|reflexivity].
      apply (lookup_weaken _ _ _ _ E) in Hsub. congruence.
Qed.


Lemma build_gcal_urls_loop (s : store) (item : pyval) :
  (fst (build_gcal_urls s item) = inr [] /\ snd (build_gcal_urls s item) = s) \/
  (exists e, build_gcal_urls s item = (inl e, s)) \/
  (exists di title summary items,
     as_dict s item = Some di /\
     py_strip s (py_or s (default PNone (dict_lookup "title" di)) (PStr "제목 없음"))
       = inr title /\
     py_strip s (py_or s (default PNone (dict_lookup "summary" di)) (PStr EmptyString))
       = inr summary /\
     build_gcal_urls s item = schedule_loop title summary items [] s).
Proof.
  unfold build_gcal_urls, py_get.
  destruct (as_dict s item) as [di|]; [|right; left; eexists; reflexivity].
  cbn [ret bind].
  destruct (truthy s (default (PList []) (dict_lookup "schedule" di))); simpl negb; cbv iota;
    [|left; split; reflexivity].
  destruct (py_strip s (py_or s (default PNone (dict_lookup "title" di)) _))
    as [e|title] eqn:Ht; [right; left; eexists; reflexivity|].
  cbn [bind].
  destruct (py_strip s (py_or s (default PNone (dict_lookup "summary" di)) _))
    as [e|summary] eqn:Hs; [right; left; eexists; reflexivity|].
  cbn [bind].
  destruct (py_iter s _) as [e|items]; [right; left; eexists; reflexivity|].
  cbn [bind ret].
  right. right. exists di, title, summary, items. auto.
Qed.

(** C10.  [build_gcal_urls] does not change its input: every dictionary of
    the store before the call, the item and the schedule entries among them,
    has the same contents after it, whether the call returns or raises.  The
    dictionaries it returns are new ones, at addresses that were not in use
    before, and it is these copies that carry the [url]. *)
Theorem build_gcal_urls_leaves_input (s : store) (item : pyval) :
  (forall l d, s !! l = Some d -> snd (build_gcal_urls s item) !! l = Some d) /\
  (forall rs, fst (build_gcal_urls s item) = inr rs ->
     Forall (fun r =>
               s !! r = None /\
               exists d, snd (build_gcal_urls s item) !! r = Some d /\
                         is_Some (dict_lookup "url" d)) rs).
Proof.
  destruct (build_gcal_urls_loop s item)
    as [[Hr Hs]|[(e & H)|(di & title & summary & items & _ & _ & _ & H)]].
  - rewrite Hr, Hs. split; [auto|]. intros rs [= <-]. constructor.
  - rewrite H. simpl. split; [auto|discriminate].
  - rewrite H. destruct (schedule_loop_frame title summary items [] s) as [Hsub Hres].
    split.
    + intros l d Hl. eapply lookup_weaken; eassumption.
    + intros rs Hrs. destruct (Hres rs Hrs) as (new & -> & Hnew). simpl.
      eapply Forall_impl; [exact Hnew|].
      intros r (Hfresh & d & Hd & (? & ? & ? & ? & _ & _ & _ & _ & Hurl)).
      split; [exact Hfresh|]. exists d. split; [exact Hd|]. rewrite Hurl. eauto.
Qed.


End CalendarFacts.

Lemma build_gcal_urls_leaves_input_witness :
  Samples.calendar_store !! 2%positive = Some Samples.entry_sep_4 /\
  snd (Calendar.build_gcal_urls Samples.calendar_store (Py.PRef 1%positive))
    !! 2%positive = Some Samples.entry_sep_4.
Proof.
  assert (H : Samples.calendar_store !! 2%positive = Some Samples.entry_sep_4)
    by reflexivity.
  split; [exact H|].
  exact (proj1 (build_gcal_urls_leaves_input Samples.calendar_store (Py.PRef 1%positive))
           _ _ H).
Defined.



(** An entry without a [date] (or with an empty one) is passed over: the
    loop goes on with the next entry, the list and the store as they were. *)
Lemma undated_entry_skipped (title summary : string) (s : Py.store) (r : Py.loc)
    (d : Py.pydict) (rest : list Py.pyval) (result : list Py.loc)
    (description location : string) :
  s !! r = Some d ->
  Calendar.str_field "description" d = Some description ->
  Calendar.str_field "date" d = Some EmptyString ->
  Calendar.str_field "location" d = Some location ->
  Calendar.schedule_loop title summary (Py.PRef r :: rest) result s
  = Calendar.schedule_loop title summary rest result s.
Proof.
  intros Hd. unfold Calendar.str_field. intros H1 H2 H3.
  cbn [Calendar.schedule_loop].
  unfold Calendar.entry_fields, Py.py_get. cbn [Py.as_dict]. rewrite Hd.
  destruct (default (Py.PStr EmptyString) (Py.dict_lookup "description" d));
    try discriminate.
  destruct (default (Py.PStr EmptyString) (Py.dict_lookup "date" d));
    try discriminate.
  destruct (default (Py.PStr EmptyString) (Py.dict_lookup "location" d));
    try discriminate.
  cbn [Py.bind Py.ret Py.py_strip].
  injection H2 as ->. reflexivity.
Qed.

Example undated_entry_sample :
  Calendar.str_field "date" Samples.entry_undated = Some EmptyString.
Proof. reflexivity. Qed.

(** C5.  The three entries of the sample give two links: the entry without
    a date is left out, and nothing raises.  The date 2025.09.04 gives
    [dates=20250904/20250905].  The date 2025.09.30 gives
    [dates=20250930/20250931]: the end is not the day after, 2025-10-01, and
    is not a date at all. *)
Theorem gcal_dates_at_month_end :
  Calendar.returned_urls Samples.calendar_store (Py.PRef 1%positive)
  = [ Some (Py.PStr
        ("https://calendar.google.com/calendar/render?action=TEMPLATE"
           ++ "&text=%EC%9E%A5%ED%95%99%EA%B8%88%20%EC%95%88%EB%82%B4%20-%20"
           ++ "%EC%8B%A0%EC%B2%AD%20%EB%A7%88%EA%B0%90"
           ++ "&dates=20250904/20250905&ctz=Asia%2FSeoul"));
      Some (Py.PStr
        ("https://calendar.google.com/calendar/render?action=TEMPLATE"
           ++ "&text=%EC%9E%A5%ED%95%99%EA%B8%88%20%EC%95%88%EB%82%B4%20-%20"
           ++ "%EC%84%9C%EB%A5%98%20%EC%A0%9C%EC%B6%9C%20%EB%A7%88%EA%B0%90"
           ++ "&dates=20250930/20250931"
           ++ "&details=%5B%EC%9E%A5%EC%86%8C%5D%20%ED%95%99%EC%83%9D%ED%9A%8C%EA%B4%80"
           ++ "&ctz=Asia%2FSeoul")) ] /\
  Calendar.gcal_dates "2025.09.30" = Some "20250930/20250931" /\
  Datetime.valid_date 2025 9 31 = false /\
  Datetime.next_day 2025 9 30 = (2025, 10, 1).
Proof. repeat split; vm_compute; reflexivity. Qed.

(* ===================================================================== *)
(** * Part III: further properties                                        *)
(* ===================================================================== *)

(** ** More on strings and integers *)

Section TextFacts.
Import Py.

Lemma all_chars_mem (p : ascii -> bool) (c : ascii) (t : string) :
  all_chars p t = true -> mem_char c t = true -> p c = true.
Proof.
  induction t as [|d r IH]; simpl; [discriminate|].
  rewrite andb_true_iff, orb_true_iff. intros [Hd Hr] [E|E]; [|auto].
  apply Ascii.eqb_eq in E. subst d. exact Hd.
Qed.









End TextFacts.

(** ** Integers and their text *)

Section IntFacts.
Import Py.

Lemma int_digits_uint_acc (d : Decimal.uint) : forall p,
  int_digits (Z.pos p) true (NilEmpty.string_of_uint d)
  = Some (Z.pos (Pos.of_uint_acc d p)).
Proof.
  induction d; intros p; cbn [NilEmpty.string_of_uint int_digits Pos.of_uint_acc];
    [reflexivity|..];
    match goal with
    | |- context [is_digit ?c] => change (is_digit c) with true; cbv iota
    end;
    match goal with
    | |- int_digits ?a true _ = Some (Z.pos (Pos.of_uint_acc _ ?q)) =>
        replace a with (Z.pos q)
          by (match goal with |- context [digit_val ?c] =>
                let v := eval vm_compute in (digit_val c) in
                change (digit_val c) with v end; lia)
    end; apply IHd.
Qed.

Lemma int_digits_uint (d : Decimal.uint) : forall b,
  d <> Decimal.Nil \/ b = true ->
  int_digits 0 b (NilEmpty.string_of_uint d) = Some (Z.of_N (N.of_uint d)).
Proof.
  induction d; intros b Hb; cbn [NilEmpty.string_of_uint int_digits];
    [destruct Hb as [Hb| ->]; [destruct Hb|]; reflexivity|..];
    match goal with
    | |- context [is_digit ?c] => change (is_digit c) with true; cbv iota
    end.
  - change (0 * 10 + digit_val "0") with 0. rewrite IHd by (right; reflexivity).
    reflexivity.
  - change (0 * 10 + digit_val "1") with (Z.pos 1). apply int_digits_uint_acc.
  - change (0 * 10 + digit_val "2") with (Z.pos 2). apply int_digits_uint_acc.
  - change (0 * 10 + digit_val "3") with (Z.pos 3). apply int_digits_uint_acc.
  - change (0 * 10 + digit_val "4") with (Z.pos 4). apply int_digits_uint_acc.
  - change (0 * 10 + digit_val "5") with (Z.pos 5). apply int_digits_uint_acc.
  - change (0 * 10 + digit_val "6") with (Z.pos 6). apply int_digits_uint_acc.
  - change (0 * 10 + digit_val "7") with (Z.pos 7). apply int_digits_uint_acc.
  - change (0 * 10 + digit_val "8") with (Z.pos 8). apply int_digits_uint_acc.
  - change (0 * 10 + digit_val "9") with (Z.pos 9). apply int_digits_uint_acc.
Qed.

Lemma int_digits_str_of_N (n : N) (b : bool) :
  int_digits 0 b (str_of_N n) = Some (Z.of_N n).
Proof.
  unfold str_of_N, NilZero.string_of_uint.
  rewrite <- (DecimalN.Unsigned.of_to n) at 2.
  destruct (N.to_uint n) eqn:E; [reflexivity|..];
    apply int_digits_uint; left; discriminate.
Qed.

Lemma str_of_N_nonempty (n : N) : str_of_N n <> EmptyString.
Proof.
  intros E. pose proof (int_digits_str_of_N n false) as H. rewrite E in H.
  discriminate.
Qed.

Lemma lstrip_by_id (p : ascii -> bool) (t : string) :
  all_chars (fun c => negb (p c)) t = true -> lstrip_by p t = t.
Proof.
  destruct t as [|c r]; simpl; [reflexivity|].
  destruct (p c); [discriminate|reflexivity].
Qed.

Lemma rstrip_by_id (p : ascii -> bool) (t : string) :
  all_chars (fun c => negb (p c)) t = true -> rstrip_by p t = t.
Proof.
  induction t as [|c r IH]; simpl; [reflexivity|].
  rewrite andb_true_iff. intros [Hc Hr]. rewrite (IH Hr).
  destruct r; [|reflexivity]. destruct (p c); [discriminate|reflexivity].
Qed.

Lemma strip_by_id (p : ascii -> bool) (t : string) :
  all_chars (fun c => negb (p c)) t = true -> strip_by p t = t.
Proof.
  intros H. unfold strip_by. rewrite (rstrip_by_id p t H). apply lstrip_by_id, H.
Qed.

Lemma digit_not_cspace (c : ascii) : is_digit c = true -> negb (is_cspace c) = true.
Proof.
  unfold is_digit, is_cspace. intros H. apply andb_true_iff in H as [H1 H2].
  apply Nat.leb_le in H1. apply negb_true_iff, orb_false_iff. split.
  - apply andb_false_iff. right. apply Nat.leb_gt. lia.
  - apply Nat.eqb_neq. lia.
Qed.

(** [int] on a text made of digits reads the digits. *)
Lemma int_of_str_digits (t : string) :
  all_chars is_digit t = true -> int_of_str t = int_digits 0 false t.
Proof.
  intros H. unfold int_of_str.
  rewrite strip_by_id by (revert H; apply all_chars_weaken, digit_not_cspace).
  destruct t as [|c r]; [reflexivity|].
  simpl in H. apply andb_true_iff in H as [Hc _].
  destruct c as [[] [] [] [] [] [] [] []]; try reflexivity; discriminate.
Qed.







End IntFacts.

(** ** Which dates get a calendar link *)

Section DateFacts.
Import Py Calendar.



End DateFacts.




(** ** Percent-encoding *)

Section QuoteFacts.
Import Py Calendar.

Lemma hex_digit_safe (n : nat) : (n < 16)%nat -> always_safe (hex_digit n) = true.
Proof.
  intros H. do 16 (destruct n as [|n]; [reflexivity|]). lia.
Qed.

Lemma hex_val_digit (n : nat) : (n < 16)%nat -> hex_val (hex_digit n) = Some n.
Proof.
  intros H. do 16 (destruct n as [|n]; [reflexivity|]). lia.
Qed.

Lemma code_bounds (c : ascii) :
  (code c / 16 < 16)%nat /\ (code c mod 16 < 16)%nat /\
  (16 * (code c / 16) + code c mod 16 = code c)%nat.
Proof.
  unfold code. pose proof (nat_ascii_bounded c) as H.
  repeat split.
  - apply Nat.Div0.div_lt_upper_bound. lia.
  - apply Nat.mod_upper_bound. lia.
  - symmetry. apply Nat.div_mod_eq.
Qed.

Lemma pct_chars (c : ascii) : all_chars url_char (pct c) = true.
Proof.
  destruct (code_bounds c) as (H1 & H2 & _). unfold pct. cbn [all_chars].
  unfold url_char. rewrite !hex_digit_safe by assumption. reflexivity.
Qed.

Lemma quote_chars (safe v : string) :
  all_chars url_char safe = true -> all_chars url_char (quote safe v) = true.
Proof.
  intros Hsafe. induction v as [|c r IH]; simpl; [reflexivity|].
  rewrite all_chars_append, IH, andb_true_r.
  destruct (always_safe c) eqn:E1; simpl.
  { unfold url_char. rewrite E1. reflexivity. }
  destruct (mem_char c safe) eqn:E2; [|apply pct_chars].
  simpl. rewrite (all_chars_mem _ _ _ Hsafe E2). reflexivity.
Qed.

Lemma enc_chars (keep_slash : bool) (v : string) :
  all_chars url_char (enc keep_slash v) = true.
Proof. unfold enc. apply quote_chars. destruct keep_slash; reflexivity. Qed.

Lemma param_chars (k v : string) :
  all_chars url_char k = true -> all_chars url_char v = true ->
  all_chars url_char (param k v) = true.
Proof.
  intros Hk Hv. unfold param. destruct (String.eqb v EmptyString); [reflexivity|].
  rewrite !all_chars_append, Hk, Hv. reflexivity.
Qed.

Lemma unquote_plain (c : ascii) (t : string) :
  Ascii.eqb c "%" = false ->
  unquote_to_bytes (String c t) = String c (unquote_to_bytes t).
Proof.
  intros E. destruct t as [|a [|b r]]; cbn [unquote_to_bytes]; rewrite ?E; reflexivity.
Qed.

Lemma unquote_pct (c : ascii) (t : string) :
  unquote_to_bytes (pct c ++ t) = String c (unquote_to_bytes t).
Proof.
  destruct (code_bounds c) as (H1 & H2 & H3).
  unfold pct. rewrite !append_cons.
  change (EmptyString ++ t) with t. cbn [unquote_to_bytes].
  rewrite Ascii.eqb_refl, !hex_val_digit by assumption.
  rewrite H3. unfold code. rewrite ascii_nat_embedding. reflexivity.
Qed.

Lemma unquote_quote (safe v : string) :
  mem_char "%" safe = false -> unquote_to_bytes (quote safe v) = v.
Proof.
  intros Hsafe. induction v as [|c r IH]; [reflexivity|]. cbn [quote].
  destruct (always_safe c || mem_char c safe) eqn:E.
  - rewrite append_cons. change (EmptyString ++ quote safe r) with (quote safe r).
    rewrite unquote_plain, IH; [reflexivity|].
    destruct (Ascii.eqb_spec c "%") as [->|]; [|reflexivity].
    rewrite Hsafe in E. discriminate.
  - rewrite unquote_pct, IH. reflexivity.
Qed.

End QuoteFacts.

(** X3.  Percent-decoding gives back what [enc] was given, byte for byte,
    with either set of safe characters: the event title, the dates and the
    details of a link lose nothing on the way, and two different texts never
    get the same encoding. *)
Theorem enc_round_trip (keep_slash : bool) :
  (forall v, Py.unquote_to_bytes (Calendar.enc keep_slash v) = v) /\
  (forall a b, Calendar.enc keep_slash a = Calendar.enc keep_slash b -> a = b).
Proof.
  assert (H : forall v, Py.unquote_to_bytes (Calendar.enc keep_slash v) = v).
  { intros v. unfold Calendar.enc. apply unquote_quote.
    destruct keep_slash; reflexivity. }
  split; [exact H|].
  intros a b E. rewrite <- (H a), <- (H b), E. reflexivity.
Qed.

(** ** The dictionaries [build_gcal_urls] returns *)

Section LinkFacts.
Import Py Calendar.

Lemma as_dict_weaken (s s' : store) (v : pyval) (d : pydict) :
  s ⊆ s' -> as_dict s v = Some d -> as_dict s' v = Some d.
Proof.
  intros Hsub. destruct v; try discriminate. simpl. intros H.
  eapply lookup_weaken; eassumption.
Qed.

Lemma schedule_loop_entries (title summary : string) (items : list pyval) :
  forall (result : list loc) (s : store) (rs : list loc),
    fst (schedule_loop title summary items result s) = inr rs ->
    exists kept new,
      rs = (result ++ new)%list /\
      sublist kept items /\
      Forall2 (entry_with_url (snd (schedule_loop title summary items result s)))
        kept new.
Proof.
  induction items as [|schedule_item rest IH]; intros result s rs;
    cbn [schedule_loop].
  - intros [= <-]. exists [], []. rewrite app_nil_r. repeat constructor.
  - destruct (entry_fields s schedule_item)
      as [e|[[description date_str] location]] eqn:Hfields; [discriminate|].
    assert (Hskip :
      fst (schedule_loop title summary rest result s) = inr rs ->
      exists kept new,
        rs = (result ++ new)%list /\
        sublist kept (schedule_item :: rest) /\
        Forall2 (entry_with_url (snd (schedule_loop title summary rest result s)))
          kept new).
    { intros H. destruct (IH _ _ _ H) as (kept & new & E & Hk & Hall).
      exists kept, new. repeat split; [exact E| |exact Hall].
      apply sublist_cons. exact Hk. }
    destruct (String.eqb date_str EmptyString); [exact Hskip|].
    destruct (gcal_dates date_str) as [dates|]; [|exact Hskip].
    clear Hskip.
    destruct (py_copy s schedule_item) as [e|[r s1]] eqn:Hcopy; [discriminate|].
    apply py_copy_fresh in Hcopy. destruct Hcopy as (d & Hd & Hfresh & ->).
    rewrite alter_insert_eq.
    set (url := gcal_url title summary description location dates).
    set (s2 := <[r := dict_set "url" (PStr url) d]> s).
    intros H. destruct (IH _ _ _ H) as (kept & new & -> & Hk & Hall).
    destruct (schedule_loop_frame title summary rest (result ++ [r])%list s2)
      as [Hframe _].
    exists (schedule_item :: kept), (r :: new).
    repeat split; [now rewrite <- app_assoc|apply sublist_skip, Hk|].
    constructor; [|exact Hall].
    exists d, url. split.
    + apply (as_dict_weaken s); [|exact Hd].
      etrans; [apply insert_subseteq, Hfresh|exact Hframe].
    + eapply lookup_weaken; [|exact Hframe]. apply lookup_insert_eq.
Qed.

Lemma build_gcal_urls_items (s : store) (item : pyval) (rs : list loc) :
  fst (build_gcal_urls s item) = inr rs ->
  (rs = [] /\ snd (build_gcal_urls s item) = s) \/
  (exists title summary,
     build_gcal_urls s item
     = schedule_loop title summary (schedule_items s item) [] s).
Proof.
  unfold build_gcal_urls, schedule_items, py_get.
  destruct (as_dict s item) as [di|]; [|discriminate].
  cbn [ret bind].
  destruct (truthy s (default (PList []) (dict_lookup "schedule" di))); simpl negb; cbv iota;
    [|intros [= <-]; left; split; reflexivity].
  destruct (py_strip s (py_or s (default PNone (dict_lookup "title" di)) _))
    as [e|title]; [discriminate|].
  cbn [bind].
  destruct (py_strip s (py_or s (default PNone (dict_lookup "summary" di)) _))
    as [e|summary]; [discriminate|].
  cbn [bind].
  destruct (py_iter s _) as [e|items]; [discriminate|].
  cbn [bind ret]. intros _. right. exists title, summary. reflexivity.
Qed.

Lemma link_chars (title summary : string) (d : pydict) :
  link_of title summary d ->
  exists url, dict_lookup "url" d = Some (PStr url) /\ all_chars url_char url = true.
Proof.
  intros (description & date_str & location & dates & _ & _ & _ & Hdates & Hurl).
  eexists. split; [exact Hurl|].
  destruct (gcal_dates_shape _ _ Hdates) as (y & m & dd & _ & Hform & Henc & Hne).
  rewrite gcal_url_closed by assumption.
  rewrite !all_chars_append, !param_chars, <- Henc, enc_chars
    by (reflexivity || apply enc_chars).
  reflexivity.
Qed.

End LinkFacts.

(** X4.  The dictionaries [build_gcal_urls] returns follow the schedule of
    the item: each one is a schedule entry with its [url] set (whatever
    else the entry holds is carried over, and a [url] it already had is
    replaced), they come in the order of the schedule, and there is at most
    one per entry. *)
Theorem build_gcal_urls_follows_schedule (s : Py.store) (item : Py.pyval)
    (rs : list Py.loc) :
  fst (Calendar.build_gcal_urls s item) = inr rs ->
  exists kept,
    sublist kept (Calendar.schedule_items s item) /\
    Forall2 (Calendar.entry_with_url (snd (Calendar.build_gcal_urls s item))) kept rs /\
    (length rs <= length (Calendar.schedule_items s item))%nat.
Proof.
  intros Hrs.
  destruct (build_gcal_urls_items s item rs Hrs) as [[-> Hs]|(title & summary & H)].
  - exists []. repeat split; [apply sublist_nil_l|constructor|simpl; lia].
  - rewrite H in *.
    destruct (schedule_loop_entries _ _ _ _ _ _ Hrs) as (kept & new & -> & Hk & Hall).
    exists kept. simpl. repeat split; [exact Hk|exact Hall|].
    rewrite <- (Forall2_length _ _ _ Hall). apply sublist_length, Hk.
Qed.

Lemma build_gcal_urls_follows_schedule_witness :
  exists kept,
    sublist kept (Calendar.schedule_items Samples.calendar_store (Py.PRef 1%positive)) /\
    Forall2 (Calendar.entry_with_url
               (snd (Calendar.build_gcal_urls Samples.calendar_store (Py.PRef 1%positive))))
      kept [5%positive; 6%positive] /\
    (2 <= length (Calendar.schedule_items Samples.calendar_store (Py.PRef 1%positive)))%nat.
Proof.
  exact (build_gcal_urls_follows_schedule Samples.calendar_store (Py.PRef 1%positive)
           [5%positive; 6%positive] eq_refl).
Defined.

(** X5.  Every link [build_gcal_urls] puts on a returned dictionary is made
    of ASCII letters and digits, the marks [_.-~], the percent sign of an
    escape and the punctuation [/:?&=] of the link itself: a space, a
    line break or a byte of Korean text in the title, the description, the
    location or the summary never reaches the link unescaped. *)
Theorem gcal_links_are_escaped (s : Py.store) (item : Py.pyval) (rs : list Py.loc) :
  fst (Calendar.build_gcal_urls s item) = inr rs ->
  Forall (fun r =>
            exists d url,
              snd (Calendar.build_gcal_urls s item) !! r = Some d /\
              Py.dict_lookup "url" d = Some (Py.PStr url) /\
              Py.all_chars Calendar.url_char url = true) rs.
Proof.
  intros Hrs.
  destruct (build_gcal_urls_loop s item)
    as [[Hr Hs]|[(e & H)|(di & title & summary & items & _ & _ & _ & H)]].
  - rewrite Hr in Hrs. injection Hrs as <-. constructor.
  - rewrite H in Hrs. discriminate.
  - rewrite H in *.
    destruct (schedule_loop_frame title summary items [] s) as [_ Hres].
    destruct (Hres rs Hrs) as (new & -> & Hnew). simpl.
    eapply Forall_impl; [exact Hnew|].
    intros r (_ & d & Hd & Hlink).
    destruct (link_chars _ _ _ Hlink) as (url & Hurl & Hchars).
    exists d, url. auto.
Qed.

Lemma gcal_links_are_escaped_witness :
  Forall (fun r =>
            exists d url,
              snd (Calendar.build_gcal_urls Samples.calendar_store (Py.PRef 1%positive))
                !! r = Some d /\
              Py.dict_lookup "url" d = Some (Py.PStr url) /\
              Py.all_chars Calendar.url_char url = true) [5%positive; 6%positive].
Proof.
  exact (gcal_links_are_escaped Samples.calendar_store (Py.PRef 1%positive)
           [5%positive; 6%positive] eq_refl).
Defined.

(** ** The dates the deadline rule recognises *)

Section PatternFacts.
Import Py Datetime SuggestionEngine.










End PatternFacts.



(** ** Dates written the way the summary writes them *)

Section RoundTripFacts.
Import Py Datetime SuggestionEngine.

Lemma short_numbers :
  forallb (fun k => (String.length (str_of_N (N.of_nat k)) <=? 4)%nat) (seq 0 (100 * 100))
  && forallb (fun k => (String.length (str_of_N (N.of_nat k)) <=? 2)%nat) (seq 0 100)
  = true.
Proof. vm_compute. reflexivity. Qed.

Lemma str_of_N_length (z : Z) :
  (0 <= z < 10000 -> (String.length (str_of_N (Z.abs_N z)) <= 4)%nat) /\
  (0 <= z < 100 -> (String.length (str_of_N (Z.abs_N z)) <= 2)%nat).
Proof.
  pose proof short_numbers as H. apply andb_true_iff in H as [H4 H2].
  rewrite forallb_forall in H4, H2.
  assert (E : 0 <= z -> Z.abs_N z = N.of_nat (Z.to_nat z)).
  { intros Hz. apply N2Z.inj.
    rewrite N2Z.inj_abs_N, nat_N_Z, Z2Nat.id, Z.abs_eq by lia. reflexivity. }
  split; intros Hz; rewrite E by lia.
  - apply Nat.leb_le, H4, in_seq. lia.
  - apply Nat.leb_le, H2, in_seq. lia.
Qed.

Lemma length_repeat_char (c : ascii) (n : nat) : String.length (repeat_char c n) = n.
Proof. induction n; simpl; congruence. Qed.

Lemma int_digits_zeros (k : nat) (t : string) : forall b,
  int_digits 0 b (repeat_char "0" k ++ t) = int_digits 0 (b || (0 <? k)%nat) t.
Proof.
  induction k as [|k IH]; intros b.
  - change (repeat_char "0" 0 ++ t) with t. rewrite orb_false_r. reflexivity.
  - cbn [repeat_char]. rewrite append_cons. cbn [int_digits].
    change (is_digit "0") with true. cbv iota.
    change (0 * 10 + digit_val "0") with 0. rewrite IH, orb_true_r. reflexivity.
Qed.

(** A number that fits the width: [f"{z:0Wd}"] is [W] digits, and [int]
    reads the number back. *)
Lemma format_0d_fits (w : nat) (z : Z) :
  0 <= z -> (String.length (str_of_N (Z.abs_N z)) <= w)%nat ->
  String.length (format_0d w z) = w /\
  all_chars is_digit (format_0d w z) = true /\
  group_int (format_0d w z) = inr z.
Proof.
  intros Hz Hlen. unfold format_0d, zfill.
  destruct (Z.ltb_spec z 0) as [|_]; [lia|].
  set (digits := str_of_N (Z.abs_N z)) in *.
  assert (Hd : all_chars is_digit digits = true) by apply str_of_N_digits.
  assert (Hall : all_chars is_digit
                   (repeat_char "0" (w - String.length digits) ++ digits) = true).
  { rewrite all_chars_append, Hd, andb_true_r.
    generalize (w - String.length digits)%nat. intros n.
    induction n; simpl; auto. }
  repeat split.
  - rewrite length_append, length_repeat_char. lia.
  - exact Hall.
  - unfold group_int. rewrite int_of_str_digits by exact Hall.
    rewrite int_digits_zeros. unfold digits. rewrite int_digits_str_of_N.
    f_equal. lia.
Qed.

Lemma digits_exact_append (g rest : string) :
  all_chars is_digit g = true ->
  digits_exact (String.length g) (g ++ rest) = Some (g, rest).
Proof.
  induction g as [|c g IH]; [reflexivity|].
  cbn [all_chars String.length]. rewrite andb_true_iff.
  intros [Hc Hg]. rewrite ?append_cons. cbn [digits_exact].
  rewrite Hc, (IH Hg). reflexivity.
Qed.

Lemma digits_1_2_append (g rest : string) :
  all_chars is_digit g = true -> String.length g = 2%nat ->
  digits_1_2 (g ++ rest) = Some (g, rest).
Proof.
  intros Hg Hlen. unfold digits_1_2. rewrite <- Hlen at 1.
  rewrite digits_exact_append by exact Hg. reflexivity.
Qed.

Lemma valid_date_bounds (y m d : Z) :
  valid_date y m d = true ->
  1 <= y <= 9999 /\ 1 <= m <= 12 /\ 1 <= d <= 31 /\
  Datetime.make y m d = inr (DT y m d 0).
Proof.
  unfold valid_date, Datetime.make. rewrite !andb_true_iff.
  intros [[[[[Hy1 Hy2] Hm1] Hm2] Hd1] Hd2].
  rewrite Hy1, Hy2, Hm1, Hm2, Hd1, Hd2. simpl.
  assert (days_in_month y m <= 31).
  { unfold days_in_month.
    destruct (m =? 2); [destruct (is_leap y); lia|].
    destruct ((m =? 4) || (m =? 6) || (m =? 9) || (m =? 11)); lia. }
  repeat split; lia.
Qed.

Lemma dotted_date_search (y m d : Z) (rest : string) :
  valid_date y m d = true ->
  re_search Dotted
    (format_0d 4 y ++ "." ++ format_0d 2 m ++ "." ++ format_0d 2 d ++ rest)
  = Some (format_0d 4 y, format_0d 2 m, format_0d 2 d) /\
  deadline_of_groups Dotted (format_0d 4 y, format_0d 2 m, format_0d 2 d)
  = inr (DT y m d 0).
Proof.
  intros Hv. destruct (valid_date_bounds _ _ _ Hv) as (Hy & Hm & Hd & Hmake).
  destruct (format_0d_fits 4 y) as (Ly & Dy & Iy);
    [lia|apply str_of_N_length; lia|].
  destruct (format_0d_fits 2 m) as (Lm & Dm & Im);
    [lia|apply str_of_N_length; lia|].
  destruct (format_0d_fits 2 d) as (Ld & Dd & Id);
    [lia|apply str_of_N_length; lia|].
  split.
  - set (Y := format_0d 4 y) in *. set (M := format_0d 2 m) in *.
    set (D := format_0d 2 d) in *.
    assert (E : match_here Dotted (Y ++ "." ++ M ++ "." ++ D ++ rest) = Some (Y, M, D)).
    { cbn [match_here]. rewrite <- Ly at 1.
      rewrite digits_exact_append by exact Dy. cbn [mbind option_bind].
      change ("." ++ M ++ "." ++ D ++ rest) with (String "." (M ++ "." ++ D ++ rest)).
      cbn [literal]. rewrite Ascii.eqb_refl. cbn [mbind option_bind].
      rewrite digits_1_2_append by assumption. cbn [mbind option_bind].
      change ("." ++ D ++ rest) with (String "." (D ++ rest)).
      cbn [literal]. rewrite Ascii.eqb_refl. cbn [mbind option_bind].
      rewrite digits_1_2_append by assumption. reflexivity. }
    destruct (Y ++ "." ++ M ++ "." ++ D ++ rest); cbn [re_search]; rewrite E; reflexivity.
  - unfold deadline_of_groups. rewrite Iy, Im, Id. exact Hmake.
Qed.

End RoundTripFacts.

(** X7.  A date that exists, written [YYYY.MM.DD] with the year on four
    digits and the month and the day on two, is read back by the deadline
    rule as that date at midnight, whatever follows it in the text (a time of
    day, the end of a period): the suggestion is the message for the whole
    days from the clock to that midnight. *)
Theorem dotted_deadline_is_read_back (s : Py.store) (now : Datetime.datetime)
    (y m d : Z) (rest : string) :
  Datetime.valid_date y m d = true ->
  let text :=
    Py.format_0d 4 y ++ "." ++ Py.format_0d 2 m ++ "." ++ Py.format_0d 2 d ++ rest in
  SuggestionEngine.find_deadline SuggestionEngine.date_patterns text
    = Some (Datetime.DT y m d 0) /\
  SuggestionEngine._generate_deadline_suggestions s now (Py.PStr text)
    = [SuggestionEngine.deadline_message
         (Datetime.sub_days (Datetime.DT y m d 0) now)].
Proof.
  intros Hv text.
  destruct (dotted_date_search y m d rest Hv) as [Hsearch Hdate].
  fold text in Hsearch.
  assert (Hfind : SuggestionEngine.find_deadline SuggestionEngine.date_patterns text
                  = Some (Datetime.DT y m d 0)).
  { unfold SuggestionEngine.date_patterns. cbn [SuggestionEngine.find_deadline].
    rewrite Hsearch, Hdate. reflexivity. }
  split; [exact Hfind|].
  unfold SuggestionEngine._generate_deadline_suggestions. rewrite Hfind.
  assert (Hne : Py.truthy s (Py.PStr text) = true).
  { cbn [Py.truthy]. apply negb_true_iff, String.eqb_neq. intros E.
    unfold text in E. apply (f_equal String.length) in E.
    rewrite length_append in E.
    destruct (format_0d_fits 4 y) as (Ly & _);
      [destruct (valid_date_bounds _ _ _ Hv); lia
      |apply str_of_N_length; destruct (valid_date_bounds _ _ _ Hv); lia|].
    rewrite Ly in E. simpl in E. lia. }
  rewrite Hne. reflexivity.
Qed.

Lemma dotted_deadline_is_read_back_witness :
  SuggestionEngine.find_deadline SuggestionEngine.date_patterns
    (Py.format_0d 4 2025 ++ "." ++ Py.format_0d 2 9 ++ "." ++ Py.format_0d 2 30
       ++ " 18:00")
  = Some (Datetime.DT 2025 9 30 0).
Proof.
  exact (proj1 (dotted_deadline_is_read_back ∅ Samples.nine_o_clock 2025 9 30 " 18:00"
                  eq_refl)).
Defined.


(** ** The JSON text taken from the answer of the model *)

Section BraceFacts.
Import Py SummaryContent.

Lemma from_first_spec (c : ascii) (t u : string) :
  from_first c t = Some u ->
  exists pre r, t = pre ++ u /\ u = String c r /\ mem_char c pre = false.
Proof.
  induction t as [|d t IH]; cbn [from_first]; [discriminate|].
  destruct (Ascii.eqb_spec d c) as [->|Hd].
  - intros [= <-]. exists EmptyString, t. auto.
  - intros H. destruct (IH H) as (pre & r & -> & -> & Hpre).
    exists (String d pre), r. repeat split. cbn [mem_char].
    rewrite Hpre, orb_false_r. apply Ascii.eqb_neq. congruence.
Qed.

Lemma upto_last_spec (c : ascii) (t : string) : forall p,
  upto_last c t = Some p ->
  exists q post, t = p ++ post /\ p = q ++ String c EmptyString /\
                 mem_char c post = false.
Proof.
  induction t as [|d t IH]; intros p; cbn [upto_last]; [discriminate|].
  destruct (upto_last c t) as [p'|] eqn:E.
  - intros [= <-]. destruct (IH _ eq_refl) as (q & post & -> & -> & Hpost).
    exists (String d q), post. auto.
  - destruct (Ascii.eqb_spec d c) as [->|Hd]; [|discriminate].
    intros [= <-]. exists EmptyString, t. repeat split.
    clear IH. induction t as [|x t IHt]; [reflexivity|].
    cbn [upto_last] in E. destruct (upto_last c t); [discriminate|].
    destruct (Ascii.eqb_spec x c) as [|Hx]; [discriminate|].
    cbn [mem_char]. rewrite IHt by reflexivity. rewrite orb_false_r.
    apply Ascii.eqb_neq. congruence.
Qed.

Lemma from_first_found (c : ascii) (pre x : string) :
  exists w, from_first c (pre ++ String c x) = Some (w ++ String c x).
Proof.
  induction pre as [|d pre IH].
  - exists EmptyString. change (EmptyString ++ String c x) with (String c x).
    cbn [from_first]. rewrite Ascii.eqb_refl. reflexivity.
  - rewrite append_cons. cbn [from_first].
    destruct (Ascii.eqb_spec d c) as [->|_].
    + exists (String c pre). reflexivity.
    + exact IH.
Qed.

Lemma upto_last_found (c : ascii) (a b : string) :
  upto_last c (a ++ String c b) <> None.
Proof.
  induction a as [|d a IH].
  - change (EmptyString ++ String c b) with (String c b). cbn [upto_last].
    destruct (upto_last c b); [discriminate|]. rewrite Ascii.eqb_refl. discriminate.
  - rewrite append_cons. cbn [upto_last].
    destruct (upto_last c (a ++ String c b)); [discriminate|]. destruct (IH eq_refl).
Qed.

(** What [brace_span] returns begins with the opening brace and ends with
    the closing one. *)
Lemma brace_span_shape (raw j : string) :
  brace_span raw = Some j ->
  exists pre mid post,
    raw = pre ++ j ++ post /\ j = String "{" (mid ++ "}") /\
    mem_char "{" pre = false /\ mem_char "}" post = false.
Proof.
  unfold brace_span.
  destruct (from_first "{" raw) as [u|] eqn:E; [|discriminate]. cbn [mbind option_bind].
  intros H. destruct (from_first_spec _ _ _ E) as (pre & r & -> & -> & Hpre).
  destruct (upto_last_spec _ _ _ H) as (q & post & Hu & -> & Hpost).
  exists pre. destruct q as [|x q].
  - change (EmptyString ++ String "}" EmptyString) with (String "}" EmptyString) in Hu.
    rewrite append_cons in Hu. discriminate.
  - rewrite !append_cons in Hu. injection Hu as <- Hr.
    exists q, post. rewrite Hr, append_cons. auto.
Qed.

Lemma rstrip_by_end (p : ascii -> bool) (c : ascii) (a : string) :
  p c = false -> rstrip_by p (a ++ String c EmptyString) = a ++ String c EmptyString.
Proof.
  intros Hc. induction a as [|d a IH].
  - change (EmptyString ++ String c EmptyString) with (String c EmptyString).
    cbn [rstrip_by]. rewrite Hc. reflexivity.
  - rewrite append_cons. cbn [rstrip_by]. rewrite IH.
    destruct (a ++ String c EmptyString) eqn:E; [|reflexivity].
    destruct a; discriminate.
Qed.

Lemma strip_braces (mid : string) :
  strip (String "{" (mid ++ "}")) = String "{" (mid ++ "}").
Proof.
  unfold strip, strip_by.
  change (String "{" (mid ++ "}")) with (String "{" mid ++ String "}" EmptyString).
  rewrite rstrip_by_end by reflexivity. reflexivity.
Qed.

(** A result of [summarize] without the failure prefix is the JSON text of
    the answer, and it has been parsed. *)
Lemma summarize_parses (model_ready : bool)
    (generate_content : pyval -> list (pyval * pyval) -> pyval -> res string)
    (json_loads : string -> res pyval)
    (title : pyval) (ocr_text : list (pyval * pyval)) (content : pyval) :
  let result := summarize model_ready generate_content json_loads title ocr_text content in
  startswith failure_prefix result = false ->
  model_ready = true /\
  exists raw mid,
    generate_content title ocr_text content = inr raw /\
    brace_span raw = Some result /\
    result = String "{" (mid ++ "}") /\
    returns (json_loads result).
Proof.
  cbv zeta. intros Hs.
  assert (F := summarize_failure model_ready generate_content json_loads
                 title ocr_text content).
  assert (N : ~ (model_ready = false \/
                 raises (generate_content title ocr_text content) \/
                 exists raw, generate_content title ocr_text content = inr raw /\
                   (brace_span raw = None \/
                    exists json_string, brace_span raw = Some json_string /\
                      raises (json_loads json_string)))).
  { intros C. rewrite (F C) in Hs. discriminate. }
  clear F.
  destruct model_ready eqn:Hm; [|destruct N; auto].
  destruct (generate_content title ocr_text content) as [e|raw] eqn:Hg.
  { destruct N. right; left. exists e. reflexivity. }
  destruct (brace_span raw) as [j|] eqn:Hb.
  2:{ destruct N. right; right. exists raw. auto. }
  destruct (json_loads j) as [e|v] eqn:Hj.
  { destruct N. right; right. exists raw. split; [reflexivity|].
    right. exists j. split; [exact Hb|]. exists e. exact Hj. }
  destruct (brace_span_shape raw j Hb) as (pre & mid & post & _ & Hjform & _).
  assert (E : summarize true generate_content json_loads title ocr_text content = j).
  { unfold summarize. cbn [negb]. rewrite Hg. cbn [bind].
    rewrite Hb, Hj. cbn [bind ret]. rewrite Hjform. apply strip_braces. }
  rewrite E. split; [reflexivity|]. exists raw, mid.
  split; [reflexivity|]. split; [exact Hb|]. split; [exact Hjform|].
  exists v. exact Hj.
Qed.

End BraceFacts.

(** X9.  The JSON text [summarize] takes from the answer of the model runs
    from the first opening brace of the answer to its last closing brace
    (the match of [\{.*\}] over line breaks): nothing before it holds an
    opening brace, nothing after it a closing one.  And whenever the answer
    has an opening brace with a closing brace somewhere after it, such a text
    is found. *)
Theorem brace_span_is_outermost :
  (forall raw j,
     SummaryContent.brace_span raw = Some j ->
     exists pre mid post,
       raw = pre ++ j ++ post /\ j = "{" ++ mid ++ "}" /\
       Py.mem_char "{" pre = false /\ Py.mem_char "}" post = false) /\
  (forall pre mid post,
     SummaryContent.brace_span (pre ++ "{" ++ mid ++ "}" ++ post) <> None).
Proof.
  split.
  - intros raw j H. destruct (brace_span_shape raw j H) as (pre & mid & post & H1 & H2 & H3).
    exists pre, mid, post. auto.
  - intros pre mid post. unfold SummaryContent.brace_span.
    change ("{" ++ mid ++ "}" ++ post) with (String "{" (mid ++ String "}" post)).
    destruct (from_first_found "{" pre (mid ++ String "}" post)) as (w & ->).
    cbn [mbind option_bind].
    change (String "{" (mid ++ String "}" post)) with (String "{" mid ++ String "}" post).
    rewrite <- append_assoc. apply upto_last_found.
Qed.

(** X10.  [summarize] returns one of two things.  Either a text that starts
    with the failure prefix, and this happens exactly when the model is not
    ready, the service raises, no JSON text is found in the answer, or the
    JSON text does not parse; or the JSON text of the answer itself, which
    starts with an opening brace, ends with a closing one, has been parsed,
    and is left as it is by [strip].  The Summary node can therefore tell the
    two apart by the prefix. *)
Theorem summarize_outcomes (model_ready : bool)
    (generate_content : Py.pyval -> list (Py.pyval * Py.pyval) -> Py.pyval -> Py.res string)
    (json_loads : string -> Py.res Py.pyval)
    (title : Py.pyval) (ocr_text : list (Py.pyval * Py.pyval)) (content : Py.pyval) :
  let result :=
    SummaryContent.summarize model_ready generate_content json_loads
      title ocr_text content in
  (Py.startswith SummaryContent.failure_prefix result = true /\
   (model_ready = false \/
    Py.raises (generate_content title ocr_text content) \/
    exists raw, generate_content title ocr_text content = inr raw /\
      (SummaryContent.brace_span raw = None \/
       exists json_string, SummaryContent.brace_span raw = Some json_string /\
         Py.raises (json_loads json_string)))) \/
  (Py.startswith SummaryContent.failure_prefix result = false /\
   model_ready = true /\
   exists raw mid,
     generate_content title ocr_text content = inr raw /\
     SummaryContent.brace_span raw = Some result /\
     result = "{" ++ mid ++ "}" /\
     Py.returns (json_loads result)).
Proof.
  cbv zeta.
  destruct (Py.startswith SummaryContent.failure_prefix
              (SummaryContent.summarize model_ready generate_content json_loads
                 title ocr_text content)) eqn:Hs.
  - left. split; [reflexivity|].
    destruct model_ready eqn:Hm; [|auto].
    destruct (generate_content title ocr_text content) as [e|raw] eqn:Hg.
    { right; left. exists e. reflexivity. }
    right; right. exists raw. split; [reflexivity|].
    destruct (SummaryContent.brace_span raw) as [j|] eqn:Hb; [|auto].
    right. exists j. split; [reflexivity|].
    destruct (json_loads j) as [e|v] eqn:Hj; [exists e; reflexivity|].
    exfalso. revert Hs. unfold SummaryContent.summarize. cbn [negb].
    rewrite Hg. cbn [Py.bind]. rewrite Hb, Hj. cbn [Py.bind Py.ret].
    destruct (brace_span_shape raw j Hb) as (pre & mid & post & _ & -> & _).
    rewrite strip_braces. discriminate.
  - right. split; [reflexivity|].
    destruct (summarize_parses _ _ _ _ _ _ Hs) as (Hm & raw & mid & H1 & H2 & H3 & H4).
    split; [exact Hm|]. exists raw, mid. auto.
Qed.

(** ** The suggestions of the Summary node *)

Section SummaryFacts.
Import Py Datetime LanggraphPipeline.

Variable model_ready : bool.
Variable generate_content : pyval -> list (pyval * pyval) -> pyval -> res string.
Variable json_loads : string -> res pyval.
Variable now : datetime.

#[local] Abbreviation _Summary :=
  (_Summary model_ready generate_content json_loads now).
#[local] Abbreviation summarize :=
  (SummaryContent.summarize model_ready generate_content json_loads).

(** On two texts the classification never raises: the suggestions are those
    of one of the five classes. *)
Lemma generate_error_suggestions_text (s : store) (error_type error_message : string) :
  exists c,
    SuggestionEngine.generate_error_suggestions s (PStr error_type) (PStr error_message)
    = SuggestionEngine.error_messages c.
Proof.
  unfold SuggestionEngine.generate_error_suggestions, SuggestionEngine.classify_error,
    SuggestionEngine.or_else, SuggestionEngine.lower_has.
  cbn [py_lower bind ret].
  repeat match goal with
         | |- context [if ?b then _ else _] => destruct b; cbn [bind ret]
         end; eexists; reflexivity.
Qed.

Lemma error_messages_three (c : SuggestionEngine.error_class) :
  length (SuggestionEngine.error_messages c) = 3%nat.
Proof. destruct c; reflexivity. Qed.

Lemma generate_general_suggestions_some (s : store) (category : pyval) :
  SuggestionEngine.generate_general_suggestions s category <> [].
Proof.
  unfold SuggestionEngine.generate_general_suggestions.
  destruct category as [| | |t| |]; try (intros H; cbv in H; discriminate).
  cbn [py_lower bind ret].
  repeat match goal with
         | |- context [if ?b then _ else _] => destruct b
         end; discriminate.
Qed.

(** The suggestion lists the node hands to [consolidate_suggestions]. *)
Lemma summary_success_form (s : store) (state : notify_state) data parsed_data suggestions :
  fst (_Summary s state) = Success data parsed_data suggestions ->
  data = summarize (st_title state) (default [] (st_ocr_text state)) (st_content state) /\
  json_loads data = inr parsed_data /\
  suggestions
  = SuggestionEngine.consolidate_suggestions s
      (map (fun l => PList (map PStr l))
         (List.filter (fun l => negb (Nat.eqb (length l) 0))
            [ SuggestionEngine.generate_parsing_suggestions s now parsed_data;
              SuggestionEngine.generate_general_suggestions s (st_category state) ]))
      SuggestionEngine.default_max_suggestions.
Proof.
  unfold LanggraphPipeline._Summary.
  destruct (py_slice_check s (st_title state)); [discriminate|].
  destruct (negb (startswith SummaryContent.failure_prefix _)); [|discriminate].
  destruct (json_loads _) as [e|v] eqn:Hj.
  { destruct (exn_cls e); discriminate. }
  cbv beta zeta iota delta [ret].
  destruct (truthy s v); [|discriminate].
  cbn [fst]. intros [= <- <- <-]. split; [reflexivity|]. split; [exact Hj|].
  destruct (SuggestionEngine.generate_parsing_suggestions s now v);
    destruct (SuggestionEngine.generate_general_suggestions s (st_category state));
    reflexivity.
Qed.

Lemma concat_nonempty_lists {A} (l1 l2 : list A) :
  concat (List.filter (fun l => negb (Nat.eqb (length l) 0)) [l1; l2]) = (l1 ++ l2)%list.
Proof. destruct l1, l2; simpl; rewrite ?app_nil_r; reflexivity. Qed.

Lemma NoDup_map_injective {A B} (f : A -> B) (l : list A) :
  (forall x y, f x = f y -> x = y) -> List.NoDup l -> List.NoDup (map f l).
Proof.
  intros Hf. induction 1 as [|x l Hx Hl IH]; simpl; constructor; [|exact IH].
  intros Hin. apply in_map_iff in Hin as (y & E & Hy).
  apply Hf in E. subst y. contradiction.
Qed.

End SummaryFacts.

(** X11.  A result of the Summary node with the status [error] always carries
    exactly three suggestions.  When it also carries the text of the summary
    (the entry [data]), it is the parsing failure: the text had been parsed
    by [summarize] already, so the node does not fail to decode it, and the
    failure is that the parsed value is empty; the suggestions are then the
    general ones (retry later, ask the administrator, note the error), since
    the word [parsing] is looked for in the message, which is in Korean, and
    not in the error type. *)
Theorem summary_error_suggestions (model_ready : bool)
    (generate_content : Py.pyval -> list (Py.pyval * Py.pyval) -> Py.pyval -> Py.res string)
    (json_loads : string -> Py.res Py.pyval) (now : Datetime.datetime)
    (s : Py.store) (state : LanggraphPipeline.notify_state)
    (error : string) (data : option string) (suggestions : list string) :
  fst (LanggraphPipeline._Summary model_ready generate_content json_loads now s state)
    = LanggraphPipeline.Error error data suggestions ->
  length suggestions = 3%nat /\
  (forall d, data = Some d ->
     error = LanggraphPipeline.msg_parse_failed /\
     d = SummaryContent.summarize model_ready generate_content json_loads
           (LanggraphPipeline.st_title state)
           (default [] (LanggraphPipeline.st_ocr_text state))
           (LanggraphPipeline.st_content state) /\
     suggestions = SuggestionEngine.error_messages SuggestionEngine.Other /\
     exists v, json_loads d = inr v /\ Py.truthy s v = false).
Proof.
  intros H.
  destruct (summary_cases model_ready generate_content json_loads now s state)
    as [(e & _ & E)|[(_ & E)|[(e & _ & _ & _ & E)|[(Hs & Hp & E)|(v & sg & _ & _ & _ & E)]]]];
    rewrite E in H; try discriminate; injection H as <- <- <-.
  1,2,3: split; [|discriminate];
    match goal with
    | |- context [SuggestionEngine.generate_error_suggestions ?s0 (Py.PStr ?a) (Py.PStr ?b)] =>
        destruct (generate_error_suggestions_text s0 a b) as [c ->]
    end; apply error_messages_three.
  split; [reflexivity|]. intros d [= <-].
  repeat split.
  destruct Hp as [(e & He & _)|Hv]; [|exact Hv].
  destruct (summarize_parses _ _ _ _ _ _ Hs) as (_ & _ & _ & _ & _ & _ & v & Hv).
  rewrite Hv in He. discriminate.
Qed.

Lemma summary_error_suggestions_witness :
  length
    (SuggestionEngine.generate_error_suggestions Samples.pipeline_store
       (Py.PStr "summary")
       (Py.PStr "요약에 실패했습니다. 모델이 초기화되지 않았습니다."))
  = 3%nat.
Proof.
  exact (proj1 (summary_error_suggestions false Samples.generate_content
                  Samples.json_loads Samples.nine_o_clock Samples.pipeline_store
                  (LanggraphPipeline.State (Py.PStr "장학금 안내")
                     (Py.PStr "<div>...</div>") (Py.PList []) (Py.PStr "장학") None)
                  _ _ _ eq_refl)).
Defined.

(** X12.  A result of the Summary node with the status [success] carries the
    JSON text [summarize] returned, its parsed value, and the suggestions of
    the engine for that value followed by the general suggestions for the
    category, without duplicates and cut at ten.  The general suggestions are
    never empty (for a category that is not a text they are the single
    fallback), so a successful result always has between one and ten
    suggestions. *)
Theorem summary_success_suggestions (model_ready : bool)
    (generate_content : Py.pyval -> list (Py.pyval * Py.pyval) -> Py.pyval -> Py.res string)
    (json_loads : string -> Py.res Py.pyval) (now : Datetime.datetime)
    (s : Py.store) (state : LanggraphPipeline.notify_state)
    (data : string) (parsed_data : Py.pyval) (suggestions : list Py.pyval) :
  fst (LanggraphPipeline._Summary model_ready generate_content json_loads now s state)
    = LanggraphPipeline.Success data parsed_data suggestions ->
  let engine := SuggestionEngine.generate_parsing_suggestions s now parsed_data in
  let general :=
    SuggestionEngine.generate_general_suggestions s (LanggraphPipeline.st_category state) in
  json_loads data = inr parsed_data /\
  suggestions
    = map Py.PStr (take 10 (SuggestionEngine.first_seen (engine ++ general)%list)) /\
  general <> [] /\
  (1 <= length suggestions <= 10)%nat /\
  List.NoDup suggestions /\
  (forall x, In (Py.PStr x) suggestions -> In x engine \/ In x general).
Proof.
  intros H engine general.
  destruct (summary_success_form _ _ _ _ _ _ _ _ _ H) as (_ & Hj & Hsg).
  change SuggestionEngine.default_max_suggestions with (Z.of_nat 10) in Hsg.
  rewrite consolidate_strings, concat_nonempty_lists in Hsg.
  fold engine general in Hsg.
  assert (Hg : general <> []) by apply generate_general_suggestions_some.
  split; [exact Hj|]. split; [exact Hsg|]. split; [exact Hg|].
  assert (Hne : SuggestionEngine.first_seen (engine ++ general)%list <> []).
  { destruct general as [|g general'] eqn:E; [contradiction|].
    intros E0.
    assert (Hin : In g (SuggestionEngine.first_seen (engine ++ g :: general')%list)).
    { apply In_first_seen, in_or_app. right. left. reflexivity. }
    rewrite E0 in Hin. destruct Hin. }
  rewrite Hsg, length_map. repeat split.
  - destruct (SuggestionEngine.first_seen (engine ++ general)%list); [contradiction|].
    simpl. lia.
  - rewrite length_take. lia.
  - apply NoDup_map_injective; [intros x y [= ->]; reflexivity|].
    pose proof (NoDup_first_seen (engine ++ general)%list) as Hn.
    rewrite <- (firstn_skipn 10) in Hn.
    apply NoDup_app_remove_r in Hn. exact Hn.
  - intros x Hx. apply in_map_iff in Hx as (y & [= ->] & Hy).
    apply in_app_or, In_first_seen.
    rewrite <- (firstn_skipn 10). apply in_or_app. left. exact Hy.
Qed.

Lemma summary_success_suggestions_witness :
  (1 <= length
          match
            fst (LanggraphPipeline._Summary true Samples.generate_content
                   Samples.json_loads Samples.nine_o_clock Samples.pipeline_store
                   (LanggraphPipeline.State (Py.PStr "장학금 안내")
                      (Py.PStr "<div>...</div>") (Py.PList []) (Py.PStr "장학") None))
          with
          | LanggraphPipeline.Success _ _ suggestions => suggestions
          | LanggraphPipeline.Error _ _ _ => []
          end
   <= 10)%nat.
Proof.
  refine (proj1 (proj2 (proj2 (proj2
            (summary_success_suggestions true Samples.generate_content
               Samples.json_loads Samples.nine_o_clock Samples.pipeline_store
               (LanggraphPipeline.State (Py.PStr "장학금 안내")
                  (Py.PStr "<div>...</div>") (Py.PList []) (Py.PStr "장학") None)
               "{...}" (Py.PRef 9%positive) _ _))))).
  vm_compute. reflexivity.
Defined.

(** ** What the pipeline leaves behind when it fails *)

Section FrameFacts.
Import Py Datetime LanggraphPipeline.

Variable perform_ocr_on_url : pyval -> string.

#[local] Abbreviation ocr_loop := (ocr_loop perform_ocr_on_url).

Lemma only_ocr_text_refl (s : store) : only_ocr_text s s.
Proof. intros r. destruct (s !! r); auto. Qed.

Lemma only_ocr_text_trans (s1 s2 s3 : store) :
  only_ocr_text s1 s2 -> only_ocr_text s2 s3 -> only_ocr_text s1 s3.
Proof.
  intros H12 H23 r. specialize (H12 r). specialize (H23 r).
  destruct (s1 !! r), (s2 !! r), (s3 !! r); try contradiction; auto.
  intros k Hk. rewrite H23, H12 by assumption. reflexivity.
Qed.

Lemma only_ocr_text_set (s s' : store) (i v : pyval) :
  py_setitem s i "ocr_text" v = inr s' -> only_ocr_text s s'.
Proof.
  destruct i as [| | | | |r]; try discriminate. cbn [py_setitem].
  destruct (s !! r) as [d|] eqn:Hd; [|discriminate]. intros [= <-] r0.
  destruct (decide (r = r0)) as [<-|Hne].
  - rewrite lookup_insert_eq, Hd. intros k Hk. apply dict_lookup_set_ne. exact Hk.
  - rewrite lookup_insert_ne by assumption. destruct (s !! r0); auto.
Qed.

(** Whatever the images are, and whether the loop ends or raises, it only
    ever sets [ocr_text] on dictionaries that were there. *)
Lemma ocr_loop_frame (images : list pyval) : forall s tr,
  only_ocr_text s (snd (fst (ocr_loop images s tr))).
Proof.
  induction images as [|i rest IH]; intros s tr; cbn [LanggraphPipeline.ocr_loop].
  - apply only_ocr_text_refl.
  - destruct (py_getitem s i "url") as [e|url]; [apply only_ocr_text_refl|].
    destruct (py_setitem s i "ocr_text" _) as [e|s1] eqn:Hset;
      [apply only_ocr_text_refl|].
    eapply only_ocr_text_trans; [eapply only_ocr_text_set; exact Hset|apply IH].
Qed.

Lemma ocr_loop_app (a b : list pyval) : forall s tr,
  ocr_loop (a ++ b) s tr
  = match ocr_loop a s tr with
    | (inr _, s1, tr1) => ocr_loop b s1 tr1
    | failed => failed
    end.
Proof.
  induction a as [|i a IH]; intros s tr; cbn [LanggraphPipeline.ocr_loop app];
    [reflexivity|].
  destruct (py_getitem s i "url") as [e|url]; [reflexivity|].
  destruct (py_setitem s i "ocr_text" _) as [e|s1]; [reflexivity|]. apply IH.
Qed.

Lemma getitem_still_raises (s s' : store) (o : pyval) (k : string) :
  only_ocr_text s s' -> k <> "ocr_text" ->
  raises (py_getitem s o k) -> raises (py_getitem s' o k).
Proof.
  intros Hf Hk. destruct o as [| | | | |r]; cbn [py_getitem];
    try (intros _; eexists; reflexivity).
  specialize (Hf r). destruct (s !! r) as [d|], (s' !! r) as [d'|];
    try contradiction; [|intros _; eexists; reflexivity].
  rewrite (Hf k Hk). exact id.
Qed.

End FrameFacts.

(** X13.  [run] reads the four entries [title], [content], [image] and
    [category] of its input before anything else.  When one of them cannot be
    read (the key is missing, or the input is not a dictionary) it returns
    the bare error result: nothing has been extracted or summarized, and the
    store is as it was. *)
Theorem run_needs_four_keys
    (perform_ocr_on_url : Py.pyval -> string) (model_ready : bool)
    (generate_content : Py.pyval -> list (Py.pyval * Py.pyval) -> Py.pyval -> Py.res string)
    (json_loads : string -> Py.res Py.pyval) (now : Datetime.datetime)
    (s : Py.store) (json_input : Py.pyval) (k : string) :
  In k ["title"; "content"; "image"; "category"] ->
  Py.raises (Py.py_getitem s json_input k) ->
  LanggraphPipeline.run perform_ocr_on_url model_ready generate_content json_loads now
    s json_input
  = (LanggraphPipeline.RunError, s, []).
Proof.
  intros Hk [e He]. unfold LanggraphPipeline.run.
  destruct (Py.py_getitem s json_input "title") as [e1|title] eqn:H1; [reflexivity|].
  cbn [Py.bind].
  destruct (Py.py_getitem s json_input "content") as [e2|content] eqn:H2; [reflexivity|].
  cbn [Py.bind].
  destruct (Py.py_getitem s json_input "image") as [e3|image] eqn:H3; [reflexivity|].
  cbn [Py.bind].
  destruct (Py.py_getitem s json_input "category") as [e4|category] eqn:H4; [reflexivity|].
  exfalso. simpl in Hk.
  destruct Hk as [<-|[<-|[<-|[<-|[]]]]]; congruence.
Qed.

Lemma run_needs_four_keys_witness :
  LanggraphPipeline.run (fun _ => EmptyString) true Samples.generate_content
    Samples.json_loads Samples.nine_o_clock Samples.pipeline_store (Py.PRef 4%positive)
  = (LanggraphPipeline.RunError, Samples.pipeline_store, []).
Proof.
  apply (run_needs_four_keys _ _ _ _ _ _ _ "image").
  - simpl. auto.
  - eexists. reflexivity.
Defined.

(** X14.  When an image of the list has no [url] (or is not a dictionary),
    [run] stops there with the bare error result, but the work done up to
    that point stays: the images before the bad one have been sent to the
    extraction service, in order, and carry their [ocr_text]; no image after
    it has been looked at, the summarizer has not been called, and nothing
    but [ocr_text] entries has changed in the store. *)
Theorem run_stops_at_bad_image
    (perform_ocr_on_url : Py.pyval -> string) (model_ready : bool)
    (generate_content : Py.pyval -> list (Py.pyval * Py.pyval) -> Py.pyval -> Py.res string)
    (json_loads : string -> Py.res Py.pyval) (now : Datetime.datetime)
    (s : Py.store) (json_input title content category : Py.pyval)
    (good : list Py.pyval) (bad : Py.pyval) (rest : list Py.pyval) :
  Py.py_getitem s json_input "title" = inr title ->
  Py.py_getitem s json_input "content" = inr content ->
  Py.py_getitem s json_input "category" = inr category ->
  Py.py_getitem s json_input "image" = inr (Py.PList (good ++ bad :: rest)) ->
  Forall (LanggraphPipeline.image_ok s) good ->
  Py.raises (Py.py_getitem s bad "url") ->
  exists s',
    LanggraphPipeline.run perform_ocr_on_url model_ready generate_content json_loads now
      s json_input
    = (LanggraphPipeline.RunError, s',
       map (fun i => LanggraphPipeline.OcrCall (LanggraphPipeline.field_of "url" s i)) good) /\
    Forall (LanggraphPipeline.extracted perform_ocr_on_url s s') good /\
    LanggraphPipeline.only_ocr_text s s'.
Proof.
  intros Ht Hc Hg Hi Hgood Hbad.
  rewrite (run_reads_input _ _ _ _ _ _ _ _ _ _ _ Ht Hc Hi Hg).
  unfold LanggraphPipeline.invoke, LanggraphPipeline._OCR_branching_condition.
  cbn [LanggraphPipeline.st_image].
  assert (Htruthy : Py.truthy s (Py.PList (good ++ bad :: rest)) = true)
    by (destruct good; reflexivity).
  rewrite Htruthy. cbn [Py.py_len Py.bind Py.ret].
  replace (0 <? Z.of_nat (length (good ++ bad :: rest))) with true
    by (symmetry; apply Z.ltb_lt; rewrite length_app; simpl; lia).
  unfold LanggraphPipeline._OCR. cbn [LanggraphPipeline.st_image Py.py_iter Py.ret].
  rewrite ocr_loop_app.
  destruct (ocr_loop_images perform_ocr_on_url s good s []
              (keeps_images_refl s) Hgood) as (s' & Hloop & _ & Hdone & _).
  rewrite Hloop. cbn [LanggraphPipeline.ocr_loop].
  assert (Hframe : LanggraphPipeline.only_ocr_text s s').
  { pose proof (ocr_loop_frame perform_ocr_on_url good s []) as F.
    rewrite Hloop in F. exact F. }
  destruct (getitem_still_raises s s' bad "url" Hframe) as [e He];
    [discriminate|exact Hbad|].
  rewrite He. exists s'. auto.
Qed.

Lemma run_stops_at_bad_image_witness :
  exists s',
    LanggraphPipeline.run (fun _ => "text") true Samples.generate_content
      Samples.json_loads Samples.nine_o_clock Samples.broken_store (Py.PRef 1%positive)
    = (LanggraphPipeline.RunError, s',
       [LanggraphPipeline.OcrCall (Py.PStr "https://scatch.ssu.ac.kr/1.jpg")]) /\
    s' !! 2%positive
    = Some (Samples.image_1 ++ [("ocr_text", Py.PStr "text")])%list.
Proof.
  destruct (run_stops_at_bad_image (fun _ => "text") true Samples.generate_content
              Samples.json_loads Samples.nine_o_clock Samples.broken_store
              (Py.PRef 1%positive) (Py.PStr "장학금 안내") (Py.PStr "<div>...</div>")
              (Py.PStr "장학") [Py.PRef 2%positive] (Py.PRef 5%positive) []
              eq_refl eq_refl eq_refl eq_refl)
    as (s' & Hrun & _).
  - repeat constructor. exists Samples.image_1. do 2 eexists.
    repeat split; reflexivity.
  - eexists. reflexivity.
  - exists s'. split; [exact Hrun|].
    assert (E : snd (fst (LanggraphPipeline.run (fun _ => "text") true
                            Samples.generate_content Samples.json_loads
                            Samples.nine_o_clock Samples.broken_store
                            (Py.PRef 1%positive))) = s') by (rewrite Hrun; reflexivity).
    rewrite <- E. reflexivity.
Defined.

(** ** The shared OCR engine *)

Section InstanceFacts.
Import Py OcrTool.

Variable engine : Type.
Variable PADDLEOCR_AVAILABLE : bool.
Variable PaddleOCR : nat -> res engine.

#[local] Abbreviation get_instance :=
  (_get_ocr_instance engine PADDLEOCR_AVAILABLE PaddleOCR).
#[local] Abbreviation calls :=
  (repeated_calls engine PADDLEOCR_AVAILABLE PaddleOCR).

Lemma lookup_repeat {A} (x : A) (n j : nat) :
  (j < n)%nat -> repeat x n !! j = Some x.
Proof.
  revert j. induction n as [|n IH]; intros [|j] Hj; try lia; [reflexivity|].
  apply (IH j). lia.
Qed.

Lemma get_instance_ready (g : module_state engine) (e : engine) :
  _ocr_instance engine g = Some e -> get_instance g = (inr e, g).
Proof. unfold OcrTool._get_ocr_instance. intros ->. reflexivity. Qed.

Lemma calls_ready (n : nat) (g : module_state engine) (e : engine) :
  _ocr_instance engine g = Some e -> calls n g = (repeat (inr e) n, g).
Proof.
  intros Hg. induction n as [|n IH]; [reflexivity|].
  cbn [OcrTool.repeated_calls]. rewrite (get_instance_ready g e Hg), IH. reflexivity.
Qed.

Lemma get_instance_constructed (g : module_state engine) :
  (constructed engine (snd (get_instance g)) <= S (constructed engine g))%nat.
Proof.
  unfold OcrTool._get_ocr_instance. destruct (_ocr_instance engine g); [simpl; lia|].
  destruct (negb PADDLEOCR_AVAILABLE); [simpl; lia|].
  destruct (PaddleOCR _); simpl; lia.
Qed.

Lemma get_instance_returned (g : module_state engine) (e : engine) :
  fst (get_instance g) = inr e ->
  _ocr_instance engine (snd (get_instance g)) = Some e.
Proof.
  unfold OcrTool._get_ocr_instance.
  destruct (_ocr_instance engine g) as [e0|] eqn:Hg.
  - simpl. intros [= <-]. exact Hg.
  - destruct (negb PADDLEOCR_AVAILABLE); [discriminate|].
    destruct (PaddleOCR _); [discriminate|]. simpl. intros [= <-]. reflexivity.
Qed.

Lemma calls_step (n : nat) (g : module_state engine) :
  calls (S n) g
  = (fst (get_instance g) :: fst (calls n (snd (get_instance g))),
     snd (calls n (snd (get_instance g)))).
Proof.
  cbn [OcrTool.repeated_calls]. destruct (get_instance g) as [r g1]. cbn [fst snd].
  destruct (calls n g1). reflexivity.
Qed.

End InstanceFacts.

(** X15.  The OCR engine is built once and shared.  Among any number of calls
    of [_get_ocr_instance] in a row, once a call has returned an engine every
    later call returns that same engine without calling the constructor
    again: the engine stays in the module, and the constructor has run at
    most once per call up to and including the first successful one. *)
Theorem ocr_engine_is_shared (engine : Type) (PADDLEOCR_AVAILABLE : bool)
    (PaddleOCR : nat -> Py.res engine)
    (n i : nat) (g : OcrTool.module_state engine) (e : engine) :
  fst (OcrTool.repeated_calls engine PADDLEOCR_AVAILABLE PaddleOCR n g) !! i
    = Some (inr e) ->
  let after := snd (OcrTool.repeated_calls engine PADDLEOCR_AVAILABLE PaddleOCR n g) in
  (forall j, (i <= j < n)%nat ->
     fst (OcrTool.repeated_calls engine PADDLEOCR_AVAILABLE PaddleOCR n g) !! j
     = Some (inr e)) /\
  OcrTool._ocr_instance engine after = Some e /\
  (OcrTool.constructed engine after <= OcrTool.constructed engine g + S i)%nat.
Proof.
  cbv zeta. revert i g. induction n as [|n IH]; intros i g; [discriminate|].
  rewrite calls_step. cbn [fst snd].
  pose proof (get_instance_constructed engine PADDLEOCR_AVAILABLE PaddleOCR g) as Hc.
  destruct i as [|i].
  - cbn [lookup list_lookup]. intros [= Hr].
    pose proof (get_instance_returned engine PADDLEOCR_AVAILABLE PaddleOCR g e Hr) as Hg1.
    rewrite (calls_ready engine PADDLEOCR_AVAILABLE PaddleOCR n _ e Hg1). cbn [fst snd].
    split; [|split; [exact Hg1|lia]].
    intros [|j] Hj; [cbn; rewrite Hr; reflexivity|].
    change ((repeat (inr e : Py.res engine) n) !! j = Some (inr e)).
    apply lookup_repeat. lia.
  - intros Hi.
    destruct (IH i (snd (OcrTool._get_ocr_instance engine PADDLEOCR_AVAILABLE
                           PaddleOCR g)) Hi) as (Hlater & Hinst & Hcount).
    split; [|split; [exact Hinst|lia]].
    intros [|j] Hj; [lia|]. apply (Hlater j). lia.
Qed.

Lemma ocr_engine_is_shared_witness :
  (OcrTool.constructed nat
     (snd (OcrTool.repeated_calls nat true
             (fun k => if (k <? 2)%nat then Py.raise Py.OtherError "no model" else inr k)
             5 (OcrTool.ModuleState nat None 0)))
   <= 3)%nat.
Proof.
  exact (proj2 (proj2 (ocr_engine_is_shared nat true
                         (fun k => if (k <? 2)%nat then Py.raise Py.OtherError "no model"
                                   else inr k)
                         5 2 (OcrTool.ModuleState nat None 0) 2%nat eq_refl))).
Defined.

(** ** The subscriber queries *)

Section SubscriberFacts.
Import Py EmailDB.

Lemma add_email_lookup (m : gmap Z (list string)) (r : row) (z : Z) :
  add_email m r !! z
  = if fst r =? z then Some (default [] (m !! z) ++ [snd r])%list else m !! z.
Proof.
  destruct r as [id email]. unfold add_email. cbn [fst snd].
  destruct (Z.eqb_spec id z) as [->|Hne].
  - rewrite lookup_alter_eq. destruct (m !! z) as [l|] eqn:E.
    + rewrite E. reflexivity.
    + rewrite lookup_insert_eq. reflexivity.
  - rewrite lookup_alter_ne by exact Hne.
    destruct (m !! id); [reflexivity|]. apply lookup_insert_ne. exact Hne.
Qed.

Lemma fold_add_email_lookup (rows : list row) (z : Z) : forall m,
  fold_left add_email rows m !! z
  = match map snd (List.filter (fun r => fst r =? z) rows) with
    | [] => m !! z
    | l => Some (default [] (m !! z) ++ l)%list
    end.
Proof.
  induction rows as [|r rows IH]; intros m; [reflexivity|].
  cbn [fold_left List.filter]. rewrite IH, add_email_lookup.
  destruct (fst r =? z); cbn [map default]; [|reflexivity].
  destruct (map snd (List.filter (fun r0 => fst r0 =? z) rows)); [reflexivity|].
  f_equal. simpl. rewrite <- app_assoc. reflexivity.
Qed.

Lemma first_seen_snoc (l : list string) (x : string) :
  SuggestionEngine.first_seen (l ++ [x])
  = (SuggestionEngine.first_seen l
       ++ (if existsb (String.eqb x) l then [] else [x]))%list.
Proof.
  induction l as [|a l IH]; [reflexivity|].
  cbn [app SuggestionEngine.first_seen existsb]. rewrite IH, List.filter_app.
  f_equal. f_equal.
  destruct (String.eqb_spec x a) as [->|Hne]; cbn [orb].
  - destruct (existsb _ l); [reflexivity|]. cbn [List.filter].
    rewrite String.eqb_refl. reflexivity.
  - destruct (existsb _ l); [reflexivity|]. cbn [List.filter].
    destruct (String.eqb_spec a x) as [->|_]; [contradiction|reflexivity].
Qed.

Lemma add_id_map (g : string -> list Z) (e : string) (z : Z) (L : list string) :
  List.NoDup L ->
  add_id e z (map (fun e' => (e', g e')) L)
  = (map (fun e' => (e', if String.eqb e e' then g e' ++ [z] else g e')) L
       ++ (if existsb (String.eqb e) L then [] else [(e, [z])]))%list.
Proof.
  induction 1 as [|x L Hx HL IH]; [reflexivity|].
  cbn [map add_id existsb app].
  destruct (String.eqb_spec e x) as [->|Hne]; cbn [orb].
  - rewrite app_nil_r. f_equal. apply map_ext_in. intros y Hy.
    destruct (String.eqb_spec x y) as [->|_]; [contradiction|reflexivity].
  - rewrite IH. reflexivity.
Qed.

Lemma existsb_first_seen (e : string) (l : list string) :
  existsb (String.eqb e) (SuggestionEngine.first_seen l) = existsb (String.eqb e) l.
Proof.
  apply eq_true_iff_eq. rewrite !existsb_exists.
  split; intros (y & Hy & E); exists y; (split; [|exact E]);
    apply In_first_seen; exact Hy.
Qed.

Lemma ids_absent (e : string) (rows : list (Z * string)) :
  existsb (String.eqb e) (map snd rows) = false ->
  List.filter (fun r : Z * string => String.eqb (snd r) e) rows = [].
Proof.
  induction rows as [|r rows IH]; [reflexivity|]. cbn [map existsb List.filter].
  intros H. apply orb_false_iff in H as [H1 H2].
  rewrite String.eqb_sym, H1. exact (IH H2).
Qed.

(** The dictionary built by the grouping loop of the second query. *)
Lemma fold_add_id (rows : list (Z * string)) :
  fold_left (fun d r => add_id (snd r) (fst r) d) rows []
  = map (fun e => (e, map fst (List.filter (fun r : Z * string => String.eqb (snd r) e) rows)))
      (SuggestionEngine.first_seen (map snd rows)).
Proof.
  induction rows as [|r rows IH] using rev_ind; [reflexivity|].
  rewrite fold_left_app. cbn [fold_left]. rewrite IH.
  rewrite add_id_map by apply NoDup_first_seen.
  rewrite map_app. cbn [map]. rewrite first_seen_snoc, map_app, existsb_first_seen.
  f_equal.
  - apply map_ext. intros e'. f_equal.
    rewrite List.filter_app, map_app. cbn [List.filter].
    destruct (String.eqb (snd r) e'); [reflexivity|]. cbn [map].
    rewrite app_nil_r. reflexivity.
  - destruct (existsb (String.eqb (snd r)) (map snd rows)) eqn:E; [reflexivity|].
    cbn [map]. rewrite List.filter_app, (ids_absent _ _ E). cbn [List.filter app].
    rewrite String.eqb_refl. reflexivity.
Qed.

End SubscriberFacts.

(** X16.  [get_all_subscribers_email_initial] groups the rows of its query by
    notification: under an id it holds the addresses of the rows with that
    id, in the order of the rows, and an id no row has is not a key.  So no
    entry of the mapping is ever an empty list.  When the database raises,
    the mapping is empty. *)
Theorem subscribers_by_notification (rows_by_notification : Py.res (list EmailDB.row))
    (notification_id : Z) :
  EmailDB.get_all_subscribers_email_initial rows_by_notification !! notification_id
  = match rows_by_notification with
    | inr rows =>
        match map snd (List.filter (fun r => fst r =? notification_id) rows) with
        | [] => None
        | emails => Some emails
        end
    | inl _ => None
    end /\
  EmailDB.get_all_subscribers_email_initial rows_by_notification !! notification_id
  <> Some [].
Proof.
  assert (E : EmailDB.get_all_subscribers_email_initial rows_by_notification
              !! notification_id
              = match rows_by_notification with
                | inr rows =>
                    match map snd (List.filter (fun r => fst r =? notification_id) rows) with
                    | [] => None
                    | emails => Some emails
                    end
                | inl _ => None
                end).
  { unfold EmailDB.get_all_subscribers_email_initial.
    destruct rows_by_notification as [e|rows]; [apply lookup_empty|].
    rewrite fold_add_email_lookup, lookup_empty. reflexivity. }
  split; [exact E|]. rewrite E.
  destruct rows_by_notification as [e|rows]; [discriminate|].
  destruct (map snd _); discriminate.
Qed.

(** X17.  [get_all_subscribers_email_second] returns one entry per address,
    the addresses in the order in which the rows first show them and without
    repetition, each with the ids of the rows of that address in the order
    of the rows; no entry has an empty list of ids.  When the database
    raises, the list is empty. *)
Theorem subscribers_by_email (rows_by_email : Py.res (list EmailDB.row)) :
  let subscribers := EmailDB.get_all_subscribers_email_second rows_by_email in
  let rows := match rows_by_email with inr rows => rows | inl _ => [] end in
  map EmailDB.email_address subscribers = SuggestionEngine.first_seen (map snd rows) /\
  List.NoDup (map EmailDB.email_address subscribers) /\
  List.Forall
    (fun sub =>
       EmailDB.notification_ids sub
       = map fst (List.filter
                    (fun r => String.eqb (snd r) (EmailDB.email_address sub)) rows) /\
       EmailDB.notification_ids sub <> [])
    subscribers.
Proof.
  cbv zeta.
  assert (E : EmailDB.get_all_subscribers_email_second rows_by_email
              = map (fun e =>
                       EmailDB.Subscriber e
                         (map fst (List.filter (fun r : EmailDB.row => String.eqb (snd r) e)
                                     match rows_by_email with
                                     | inr rows => rows
                                     | inl _ => []
                                     end)))
                  (SuggestionEngine.first_seen
                     (map snd match rows_by_email with
                              | inr rows => rows
                              | inl _ => []
                              end))).
  { unfold EmailDB.get_all_subscribers_email_second.
    destruct rows_by_email as [e|rows]; [reflexivity|].
    unfold EmailDB.row in *. rewrite fold_add_id, map_map. reflexivity. }
  rewrite E, map_map. cbn [EmailDB.email_address]. rewrite map_id.
  split; [reflexivity|]. split; [apply NoDup_first_seen|].
  apply List.Forall_forall. intros sub Hsub.
  apply in_map_iff in Hsub as (e & <- & He). cbn [EmailDB.email_address
    EmailDB.notification_ids].
  split; [reflexivity|].
  apply In_first_seen, in_map_iff in He as (r & <- & Hr).
  intros Hnil. apply (f_equal (@length Z)) in Hnil. rewrite length_map in Hnil.
  assert (Hin : In r (List.filter (fun r0 : EmailDB.row => String.eqb (snd r0) (snd r))
                        match rows_by_email with
                        | inr rows => rows
                        | inl _ => []
                        end)).
  { apply filter_In. split; [exact Hr|apply String.eqb_refl]. }
  destruct (List.filter _ _); [destruct Hin|discriminate].
Qed.

(** ** The checks around the summarizer *)

Section CheckFacts.
Import Py SummaryContent.





End CheckFacts.



(** X19.  [_extract_and_validate_json] and [summarize] take the JSON text out
    of an answer of the model in the same way.  When the model answers with
    the text [raw], either the helper reports [success] with a JSON text and
    its parsed value, and then [summarize] returns that same text, which the
    parser reads as that value and which does not start with the failure
    prefix; or the helper reports an error, and then [summarize] returns a
    failure text. *)
Theorem extraction_agrees_with_summarize (s : Py.store)
    (generate_content : Py.pyval -> list (Py.pyval * Py.pyval) -> Py.pyval -> Py.res string)
    (json_loads : string -> Py.res Py.pyval)
    (title : Py.pyval) (ocr_text : list (Py.pyval * Py.pyval)) (content : Py.pyval)
    (raw : string) :
  generate_content title ocr_text content = inr raw ->
  let result :=
    SummaryContent.summarize true generate_content json_loads title ocr_text content in
  match SummaryContent._extract_and_validate_json s json_loads (Py.PStr raw) with
  | SummaryContent.Extracted json_string parsed_data =>
      result = json_string /\
      json_loads json_string = inr parsed_data /\
      Py.startswith SummaryContent.failure_prefix result = false
  | SummaryContent.NotExtracted _ _ =>
      Py.startswith SummaryContent.failure_prefix result = true
  end.
Proof.
  intros Hg. cbv zeta.
  unfold SummaryContent._extract_and_validate_json, SummaryContent.summarize.
  cbn [negb]. rewrite Hg. cbn [Py.bind].
  destruct (SummaryContent.brace_span raw) as [j|] eqn:Hb; [|reflexivity].
  destruct (brace_span_shape raw j Hb) as (pre & mid & post & _ & Hj & _).
  destruct (json_loads j) as [e|v] eqn:Hv.
  - cbn [Py.bind]. destruct (Py.exn_cls e); reflexivity.
  - cbn [Py.bind Py.ret]. rewrite Hj, strip_braces. rewrite <- Hj.
    split; [reflexivity|]. split; [exact Hv|]. rewrite Hj. reflexivity.
Qed.

Lemma extraction_agrees_with_summarize_witness :
  SummaryContent.summarize true Samples.generate_content Samples.json_loads
    (Py.PStr "notice") [] (Py.PStr "<div>...</div>")
  = "{...}" /\
  Samples.json_loads "{...}" = inr (Py.PRef 9%positive) /\
  Py.startswith SummaryContent.failure_prefix
    (SummaryContent.summarize true Samples.generate_content Samples.json_loads
       (Py.PStr "notice") [] (Py.PStr "<div>...</div>"))
  = false.
Proof.
  exact (extraction_agrees_with_summarize ∅ Samples.generate_content Samples.json_loads
           (Py.PStr "notice") [] (Py.PStr "<div>...</div>")
           "Here is the summary: {...} Done." eq_refl).
Defined.

(** ** The summary stage of [main.py] *)

Section MainFacts.
Import Py Datetime LanggraphPipeline Main.

Variable perform_ocr_on_url : pyval -> string.
Variable model_ready : bool.
Variable generate_content : pyval -> list (pyval * pyval) -> pyval -> res string.
Variable json_loads : string -> res pyval.
Variable now : datetime.
Variable pipeline_init : res unit.

#[local] Abbreviation run :=
  (run perform_ocr_on_url model_ready generate_content json_loads now).
#[local] Abbreviation process_ai_summary :=
  (process_ai_summary perform_ocr_on_url model_ready generate_content json_loads now
     pipeline_init).

(** Whatever its input and its result, [run] changes nothing in the store
    but [ocr_text] entries. *)
Lemma run_frame (s : store) (json_input : pyval) :
  only_ocr_text s (snd (fst (run s json_input))).
Proof.
  unfold LanggraphPipeline.run.
  match goal with
  | |- context [match ?input with inl _ => _ | inr _ => _ end] => destruct input as [e|state]
  end; [apply only_ocr_text_refl|].
  unfold invoke. destruct (_OCR_branching_condition s state) as [e|[|]];
    [apply only_ocr_text_refl| |].
  - unfold _OCR. destruct (py_iter s (st_image state)) as [e|images];
      [apply only_ocr_text_refl|].
    pose proof (ocr_loop_frame perform_ocr_on_url images s []) as F.
    destruct (ocr_loop perform_ocr_on_url images s []) as [[[e|[]] s'] tr];
      cbn [fst snd] in F; [exact F|].
    destruct (ocr_entries s' images) as [e|entries]; [exact F|].
    destruct (_Summary _ _ _ _ _ _). exact F.
  - destruct (_Summary _ _ _ _ _ _). apply only_ocr_text_refl.
Qed.

(** One assignment [content_data['ai_summary'] = {...}]. *)
Lemma store_summary_step (s1 : store) (r : loc) (d1 dd : pydict) :
  s1 !! r = Some d1 ->
  exists s2 r0,
    store_summary s1 (PRef r) dd = inr s2 /\
    s1 !! r0 = None /\ s2 !! r0 = Some dd /\
    s2 !! r = Some (dict_set "ai_summary" (PRef r0) d1) /\
    (forall q, q <> r -> q <> r0 -> s2 !! q = s1 !! q).
Proof.
  intros Hd. unfold store_summary, new_dict.
  assert (Hfresh : s1 !! fresh (dom s1) = None)
    by (apply not_elem_of_dom, is_fresh).
  assert (Hne : r <> fresh (dom s1)) by (intros E; rewrite <- E, Hd in Hfresh; discriminate).
  cbn [py_setitem]. rewrite lookup_insert_ne by (intros E; apply Hne; symmetry; exact E).
  rewrite Hd. eexists. exists (fresh (dom s1)). split; [reflexivity|].
  split; [exact Hfresh|]. split.
  - rewrite lookup_insert_ne by (intros E; apply Hne; exact E).
    apply lookup_insert_eq.
  - split; [apply lookup_insert_eq|].
    intros q Hq Hq0. rewrite !lookup_insert_ne by (intros E; subst; contradiction).
    reflexivity.
Qed.

Lemma py_get_dict (s : store) (r : loc) (d : pydict) (k : string) (dflt : pyval) :
  s !! r = Some d -> py_get s (PRef r) k dflt = inr (default dflt (dict_lookup k d)).
Proof. intros Hd. unfold py_get. cbn [as_dict]. rewrite Hd. reflexivity. Qed.

(** What [process_ai_summary] does with a dictionary. *)
Lemma process_ai_summary_spec (s : store) (r : loc) (d : pydict) :
  s !! r = Some d ->
  exists s' tr r' d' summary,
    process_ai_summary s (PRef r) = (inr (PRef r), s', tr) /\
    s !! r' = None /\ s' !! r' = Some summary /\
    s' !! r = Some d' /\ dict_lookup "ai_summary" d' = Some (PRef r') /\
    (forall q dq, s !! q = Some dq ->
       exists dq', s' !! q = Some dq' /\
         forall k, k <> "ocr_text" -> k <> "ai_summary" ->
           dict_lookup k dq' = dict_lookup k dq) /\
    let title := default (PStr "No title") (dict_lookup "title" d) in
    match pipeline_init, fst (fst (run s (PRef r))) with
    | inl e, _ => summary = crash_summary title e
    | inr _, RunError => summary = failure_summary title
    | inr _, RunSuccess j =>
        summary = summary_dict j \/ exists e, summary = crash_summary title e
    end.
Proof.
  intros Hd. cbv zeta. unfold Main.process_ai_summary, summary_body.
  assert (Frame : forall (s1 s2 : store) (d1 d2 : pydict),
            only_ocr_text s s1 -> s1 !! r = Some d1 -> s2 !! r = Some d2 ->
            (forall k, k <> "ai_summary" -> dict_lookup k d2 = dict_lookup k d1) ->
            (forall q dq1, q <> r -> s1 !! q = Some dq1 -> s2 !! q = Some dq1) ->
            forall q dq, s !! q = Some dq ->
              exists dq', s2 !! q = Some dq' /\
                forall k, k <> "ocr_text" -> k <> "ai_summary" ->
                  dict_lookup k dq' = dict_lookup k dq).
  { intros s1 s2 d1 d2 F H1 H2 Hk Hq q dq Hdq.
    specialize (F q). rewrite Hdq in F.
    destruct (s1 !! q) as [dq1|] eqn:Hdq1; [|contradiction].
    destruct (decide (q = r)) as [->|Hqr].
    - exists d2. split; [exact H2|]. intros k Ho Ha.
      rewrite (Hk k Ha). rewrite H1 in Hdq1. injection Hdq1 as ->. apply F. exact Ho.
    - exists dq1. split; [|intros k Ho _; apply F; exact Ho].
      apply Hq; assumption. }
  assert (Keep : forall (s1 s2 : store) (r0 : loc),
            s1 !! r0 = None ->
            (forall q, q <> r -> q <> r0 -> s2 !! q = s1 !! q) ->
            forall q dq1, q <> r -> s1 !! q = Some dq1 -> s2 !! q = Some dq1).
  { intros s1 s2 r0 H0 Hq q dq1 Hqr Hdq1. rewrite Hq; [exact Hdq1|exact Hqr|].
    intros ->. rewrite H0 in Hdq1. discriminate. }
  assert (Hset : forall r0 d1 k, k <> "ai_summary" ->
            dict_lookup k (dict_set "ai_summary" (PRef r0) d1) = dict_lookup k d1).
  { intros r0 d1 k Hk. apply dict_lookup_set_ne. exact Hk. }
  destruct pipeline_init as [e|u].
  - (* the constructor raised *)
    rewrite (py_get_dict s r d _ _ Hd). cbn [bind].
    destruct (store_summary_step s r d
                (crash_summary (default (PStr "No title") (dict_lookup "title" d)) e) Hd)
      as (s2 & r0 & -> & H0 & Hr0 & Hr & Hq).
    exists s2, [], r0. do 2 eexists.
    split; [reflexivity|]. split; [exact H0|]. split; [exact Hr0|].
    split; [exact Hr|]. split; [apply dict_lookup_set_eq|].
    split; [|reflexivity].
    apply (Frame s s2 d _ (only_ocr_text_refl s) Hd Hr (Hset r0 d) (Keep _ _ _ H0 Hq)).
  - pose proof (run_frame s (PRef r)) as F.
    destruct (run s (PRef r)) as [[result s1] tr]. cbn [fst snd] in F |- *.
    assert (Hd1 : exists d1, s1 !! r = Some d1 /\
                    dict_lookup "title" d1 = dict_lookup "title" d).
    { specialize (F r). rewrite Hd in F. destruct (s1 !! r) as [d1|]; [|contradiction].
      exists d1. split; [reflexivity|]. apply F. discriminate. }
    destruct Hd1 as (d1 & Hd1 & Htitle).
    assert (Hnone : forall r0, s1 !! r0 = None -> s !! r0 = None).
    { intros r0 H0. specialize (F r0). rewrite H0 in F.
      destruct (s !! r0); [contradiction|reflexivity]. }
    destruct result as [j|].
    + (* the pipeline reported success *)
      destruct (store_summary_step s1 r d1 (summary_dict j) Hd1)
        as (s2 & r0 & -> & H0 & Hr0 & Hr & Hq).
      rewrite (py_get_dict s2 r _ _ _ Hr). cbn [bind].
      destruct (py_slice_upto s2 _ 50) as [e|[]].
      * (* the title cannot be sliced for the log line *)
        rewrite (py_get_dict s2 r _ _ _ Hr). cbn [bind].
        rewrite (Hset r0 d1 "title") by discriminate. rewrite Htitle.
        destruct (store_summary_step s2 r _
                    (crash_summary (default (PStr "No title") (dict_lookup "title" d)) e)
                    Hr)
          as (s3 & r3 & -> & H3 & Hr3 & Hr' & Hq').
        assert (Hr3r : r3 <> r) by (intros ->; rewrite Hr in H3; discriminate).
        assert (Hr30 : r3 <> r0) by (intros ->; rewrite Hr0 in H3; discriminate).
        assert (H13 : s1 !! r3 = None) by (rewrite <- (Hq r3 Hr3r Hr30); exact H3).
        exists s3, tr, r3. do 2 eexists.
        split; [reflexivity|]. split; [apply Hnone; exact H13|].
        split; [exact Hr3|]. split; [exact Hr'|]. split; [apply dict_lookup_set_eq|].
        split; [|right; exists e; reflexivity].
        apply (Frame s1 s3 d1 _ F Hd1 Hr').
        -- intros k Hk. rewrite !Hset by exact Hk. reflexivity.
        -- intros q dq1 Hqr Hdq1. apply (Keep s2 s3 r3 H3 Hq' q dq1 Hqr).
           apply (Keep s1 s2 r0 H0 Hq q dq1 Hqr Hdq1).
      * exists s2, tr, r0. do 2 eexists.
        split; [reflexivity|]. split; [apply Hnone; exact H0|].
        split; [exact Hr0|]. split; [exact Hr|]. split; [apply dict_lookup_set_eq|].
        split; [|left; reflexivity].
        apply (Frame s1 s2 d1 _ F Hd1 Hr (Hset r0 d1) (Keep _ _ _ H0 Hq)).
    + (* the pipeline reported an error *)
      rewrite (py_get_dict s1 r d1 _ _ Hd1). cbn [bind]. rewrite Htitle.
      destruct (store_summary_step s1 r d1
                  (failure_summary (default (PStr "No title") (dict_lookup "title" d)))
                  Hd1)
        as (s2 & r0 & -> & H0 & Hr0 & Hr & Hq).
      exists s2, tr, r0. do 2 eexists.
      split; [reflexivity|]. split; [apply Hnone; exact H0|].
      split; [exact Hr0|]. split; [exact Hr|]. split; [apply dict_lookup_set_eq|].
      split; [|reflexivity].
      apply (Frame s1 s2 d1 _ F Hd1 Hr (Hset r0 d1) (Keep _ _ _ H0 Hq)).
Qed.

End MainFacts.

(** X20.  On a dictionary [process_ai_summary] never raises: it returns the
    dictionary it was given, which now holds under [ai_summary] a dictionary
    built on the spot.  That dictionary is the result of the Summary node
    only when [run] reported success; it is the failure placeholder when
    [run] reported an error, and the error placeholder when the constructor
    of the pipeline raised or when the title could not be sliced for the log
    line, in which case the summary just stored is replaced.  Of what the
    store held before, nothing changes but [ocr_text] and [ai_summary]
    entries. *)
Theorem process_ai_summary_on_dict
    (perform_ocr_on_url : Py.pyval -> string) (model_ready : bool)
    (generate_content : Py.pyval -> list (Py.pyval * Py.pyval) -> Py.pyval -> Py.res string)
    (json_loads : string -> Py.res Py.pyval) (now : Datetime.datetime)
    (pipeline_init : Py.res unit)
    (s : Py.store) (r : Py.loc) (d : Py.pydict) :
  s !! r = Some d ->
  exists s' tr r' summary,
    Main.process_ai_summary perform_ocr_on_url model_ready generate_content json_loads
      now pipeline_init s (Py.PRef r)
    = (inr (Py.PRef r), s', tr) /\
    Py.py_getitem s' (Py.PRef r) "ai_summary" = inr (Py.PRef r') /\
    s !! r' = None /\ s' !! r' = Some summary /\
    (forall q dq, s !! q = Some dq ->
       exists dq', s' !! q = Some dq' /\
         forall k, k <> "ocr_text" -> k <> "ai_summary" ->
           Py.dict_lookup k dq' = Py.dict_lookup k dq) /\
    let title := default (Py.PStr "No title") (Py.dict_lookup "title" d) in
    match pipeline_init,
          fst (fst (LanggraphPipeline.run perform_ocr_on_url model_ready generate_content
                      json_loads now s (Py.PRef r))) with
    | inl e, _ => summary = Main.crash_summary title e
    | inr _, LanggraphPipeline.RunError => summary = Main.failure_summary title
    | inr _, LanggraphPipeline.RunSuccess j =>
        summary = LanggraphPipeline.summary_dict j \/
        exists e, summary = Main.crash_summary title e
    end.
Proof.
  intros Hd.
  destruct (process_ai_summary_spec perform_ocr_on_url model_ready generate_content
              json_loads now pipeline_init s r d Hd)
    as (s' & tr & r' & d' & summary & Hrun & Hfresh & Hsum & Hd' & Hai & Hframe & Hform).
  exists s', tr, r', summary. split; [exact Hrun|].
  split; [cbn [Py.py_getitem]; rewrite Hd', Hai; reflexivity|].
  split; [exact Hfresh|]. split; [exact Hsum|]. split; [exact Hframe|exact Hform].
Qed.

Lemma process_ai_summary_on_dict_witness :
  exists s' tr r' summary,
    Main.process_ai_summary (fun _ => "text") true Samples.generate_content
      Samples.json_loads Samples.nine_o_clock (inr tt) Samples.pipeline_store
      (Py.PRef 1%positive)
    = (inr (Py.PRef 1%positive), s', tr) /\
    Py.py_getitem s' (Py.PRef 1%positive) "ai_summary" = inr (Py.PRef r') /\
    Samples.pipeline_store !! r' = None /\ s' !! r' = Some summary.
Proof.
  destruct (process_ai_summary_on_dict (fun _ => "text") true Samples.generate_content
              Samples.json_loads Samples.nine_o_clock (inr tt) Samples.pipeline_store
              1%positive Samples.input_with_images eq_refl)
    as (s' & tr & r' & summary & H1 & H2 & H3 & H4 & _).
  exists s', tr, r', summary. auto.
Defined.

(** X21.  When the summary stage failed (the constructor of the pipeline
    raised, or [run] reported an error), the placeholder it stores has no
    [data] entry, and that is where [_send_email] looks: the title, the
    schedule, the target, the application method and the notes it reads from
    the processed item are all the empty text, so neither the placeholder
    texts nor the title of the item reach the message.  The category is that
    of the item. *)
Theorem failed_summary_gives_empty_mail
    (perform_ocr_on_url : Py.pyval -> string) (model_ready : bool)
    (generate_content : Py.pyval -> list (Py.pyval * Py.pyval) -> Py.pyval -> Py.res string)
    (json_loads : string -> Py.res Py.pyval) (now : Datetime.datetime)
    (pipeline_init : Py.res unit)
    (s : Py.store) (r : Py.loc) (d : Py.pydict) :
  s !! r = Some d ->
  Py.raises pipeline_init \/
  fst (fst (LanggraphPipeline.run perform_ocr_on_url model_ready generate_content
              json_loads now s (Py.PRef r)))
  = LanggraphPipeline.RunError ->
  let s' :=
    snd (fst (Main.process_ai_summary perform_ocr_on_url model_ready generate_content
                json_loads now pipeline_init s (Py.PRef r))) in
  EmailSender.mail_fields s' json_loads (Py.PRef r)
  = inr (EmailSender.Mail
           (default (Py.PStr "Unknown Category") (Py.dict_lookup "category" d))
           (Py.PStr EmptyString) (Py.PStr EmptyString) (Py.PStr EmptyString)
           (Py.PStr EmptyString) (Py.PStr EmptyString)).
Proof.
  intros Hd Hfail. cbv zeta.
  destruct (process_ai_summary_spec perform_ocr_on_url model_ready generate_content
              json_loads now pipeline_init s r d Hd)
    as (s' & tr & r' & d' & summary & -> & Hfresh & Hsum & Hd' & Hai & Hframe & Hform).
  cbn [fst snd].
  assert (Hdata : Py.dict_lookup "data" summary = None).
  { cbv zeta in Hform. destruct pipeline_init as [e|u].
    - rewrite Hform. reflexivity.
    - destruct Hfail as [[e He]|Hrun]; [discriminate|]. rewrite Hrun in Hform.
      rewrite Hform. reflexivity. }
  assert (Hcat : Py.dict_lookup "category" d' = Py.dict_lookup "category" d).
  { destruct (Hframe r d Hd) as (dq' & Hdq' & Hk). rewrite Hd' in Hdq'.
    injection Hdq' as <-. apply Hk; discriminate. }
  unfold EmailSender.mail_fields.
  rewrite (py_get_dict s' r d' _ _ Hd'), Hcat. cbn [Py.bind].
  unfold EmailSender.get_or_empty. cbn [Py.as_dict]. rewrite Hd', Hai.
  cbn [Py.bind Py.ret Py.as_dict]. rewrite Hsum, Hdata. reflexivity.
Qed.

Lemma failed_summary_gives_empty_mail_witness :
  EmailSender.mail_fields
    (snd (fst (Main.process_ai_summary (fun _ => "text") true Samples.generate_content
                 Samples.json_loads Samples.nine_o_clock (inr tt) Samples.broken_store
                 (Py.PRef 1%positive))))
    Samples.json_loads (Py.PRef 1%positive)
  = inr (EmailSender.Mail (Py.PStr "장학")
           (Py.PStr EmptyString) (Py.PStr EmptyString) (Py.PStr EmptyString)
           (Py.PStr EmptyString) (Py.PStr EmptyString)).
Proof.
  exact (failed_summary_gives_empty_mail (fun _ => "text") true Samples.generate_content
           Samples.json_loads Samples.nine_o_clock (inr tt) Samples.broken_store
           1%positive Samples.input_with_broken_image eq_refl (or_intror eq_refl)).
Defined.

(** ** The order of the crawl, and a fetcher that raises *)

Section CrawlOrderFacts.
Import Py ContentCrawler.

Variable payload : Type.
Variable fetch_content : notification -> nat -> res (content_data payload).
Variable netloc : string -> string.

#[local] Abbreviation fetch_with_retry := (fetch_with_retry payload fetch_content).
#[local] Abbreviation process_domain_group := (process_domain_group payload fetch_content).
#[local] Abbreviation crawl_all_content := (crawl_all_content payload fetch_content netloc).
#[local] Abbreviation outcome := (outcome payload fetch_content netloc).
#[local] Abbreviation collect := (collect payload fetch_content).
#[local] Abbreviation future_result := (future_result payload fetch_content).
#[local] Abbreviation fetchable := (fetchable payload fetch_content).

#[local] Abbreviation domain_of n := (netloc (link n)).
#[local] Abbreviation fast_of l := (List.filter (is_fast netloc) l).
#[local] Abbreviation slow_of l := (List.filter (fun m => negb (is_fast netloc m)) l).
#[local] Abbreviation in_domain d := (fun m : notification => String.eqb (domain_of m) d).
#[local] Abbreviation groups_of l :=
  (map (fun d => (d, List.filter (in_domain d) (slow_of l)))
     (SuggestionEngine.first_seen (map (fun m => domain_of m) (slow_of l)))).

Lemma group_add_map (g : string -> list notification) (d : string) (n : notification)
    (L : list string) :
  List.NoDup L ->
  group_add d n (map (fun d' => (d', g d')) L)
  = (map (fun d' => (d', if String.eqb d d' then g d' ++ [n] else g d')) L
       ++ (if existsb (String.eqb d) L then [] else [(d, [n])]))%list.
Proof.
  induction 1 as [|x L Hx HL IH]; [reflexivity|].
  cbn [map group_add existsb app].
  destruct (String.eqb_spec d x) as [->|Hne]; cbn [orb].
  - rewrite app_nil_r. f_equal. apply map_ext_in. intros y Hy.
    destruct (String.eqb_spec x y) as [->|_]; [contradiction|reflexivity].
  - rewrite IH. reflexivity.
Qed.

Lemma in_domain_absent (d : string) (l : list notification) :
  existsb (String.eqb d) (map (fun m => domain_of m) l) = false ->
  List.filter (in_domain d) l = [].
Proof.
  induction l as [|m l IH]; [reflexivity|]. cbn [map existsb List.filter].
  intros H. apply orb_false_iff in H as [H1 H2].
  rewrite String.eqb_sym, H1. exact (IH H2).
Qed.

Lemma groups_of_snoc (pre : list notification) (n : notification) :
  is_fast netloc n = false ->
  group_add (domain_of n) n (groups_of pre) = groups_of (pre ++ [n]).
Proof.
  intros Hn. rewrite group_add_map by apply NoDup_first_seen.
  rewrite (List.filter_app _ pre [n]). cbn [List.filter]. rewrite Hn. cbn [negb].
  rewrite map_app. cbn [map]. rewrite first_seen_snoc, map_app, existsb_first_seen.
  f_equal.
  - apply map_ext. intros d. f_equal. rewrite List.filter_app. cbn [List.filter].
    destruct (String.eqb (domain_of n) d); [reflexivity|]. rewrite app_nil_r. reflexivity.
  - destruct (existsb _ _) eqn:E; [reflexivity|]. cbn [map].
    rewrite List.filter_app, (in_domain_absent _ _ E). cbn [List.filter app].
    rewrite String.eqb_refl. reflexivity.
Qed.

(** The two collections [categorize_notifications] builds. *)
Lemma categorize_loop_spec (rest : list notification) : forall pre,
  categorize_loop netloc rest (groups_of pre) (fast_of pre)
  = (groups_of (pre ++ rest), fast_of (pre ++ rest)).
Proof.
  induction rest as [|n rest IH]; intros pre; cbn [categorize_loop].
  - rewrite app_nil_r. reflexivity.
  - replace (pre ++ n :: rest)%list with ((pre ++ [n]) ++ rest)%list
      by (rewrite <- app_assoc; reflexivity).
    rewrite <- IH. fold (is_fast netloc n).
    destruct (is_fast netloc n) eqn:Hn.
    + rewrite !(List.filter_app _ pre [n]). cbn [List.filter]. rewrite Hn. cbn [negb].
      rewrite app_nil_r. reflexivity.
    + rewrite (groups_of_snoc pre n Hn).
      rewrite (List.filter_app (is_fast netloc) pre [n]). cbn [List.filter].
      rewrite Hn, app_nil_r. reflexivity.
Qed.

Lemma categorize_notifications_spec (all : list notification) :
  categorize_notifications netloc all = (groups_of all, fast_of all).
Proof. exact (categorize_loop_spec all []). Qed.

Lemma concat_singletons {A} (l : list A) : concat (map (fun x => [x]) l) = l.
Proof. induction l as [|x l IH]; simpl; [reflexivity|]. rewrite IH. reflexivity. Qed.

Lemma crawl_items_spec (all : list notification) :
  concat (map task_items
            (map FastTask (fast_of all)
               ++ map (fun g => GroupTask (fst g) (snd g)) (groups_of all)))
  = (fast_of all
       ++ flat_map (fun d => List.filter (in_domain d) (slow_of all))
            (SuggestionEngine.first_seen (map (fun m => domain_of m) (slow_of all))))%list.
Proof.
  rewrite map_app, concat_app, !map_map. cbn [task_items fst snd].
  rewrite concat_singletons, flat_map_concat_map. reflexivity.
Qed.

Lemma process_domain_group_length (d : string) (ns : list notification) : forall rs,
  process_domain_group d ns = inr rs -> length rs = length ns.
Proof.
  induction ns as [|n ns IH]; intros rs; cbn [ContentCrawler.process_domain_group].
  - intros [= <-]. reflexivity.
  - destruct (fst (fetch_with_retry n false)) as [e|c]; [discriminate|]. cbn [bind].
    destruct (process_domain_group d ns) as [e|rs']; [discriminate|]. cbn [bind ret].
    intros [= <-]. cbn [length]. rewrite (IH rs' eq_refl). reflexivity.
Qed.

Lemma process_domain_group_raises (d : string) (ns : list notification)
    (n : notification) :
  In n ns -> raises (fst (fetch_with_retry n false)) ->
  raises (process_domain_group d ns).
Proof.
  intros Hin [e He]. induction ns as [|m ns IH]; [destruct Hin|].
  cbn [ContentCrawler.process_domain_group].
  destruct Hin as [->|Hin].
  - rewrite He. exists e. reflexivity.
  - destruct (fst (fetch_with_retry m false)) as [e'|c]; [exists e'; reflexivity|].
    cbn [bind]. destruct (IH Hin) as [e' ->]. exists e'. reflexivity.
Qed.

Lemma collect_length (results : list (content_data payload)) (t : task) :
  (length (collect results t) <= length results + length (task_items t))%nat.
Proof.
  unfold ContentCrawler.collect. destruct (future_result t) as [e|rs] eqn:E; [lia|].
  rewrite length_app. apply Nat.add_le_mono_l.
  destruct t as [n|d ns]; cbn [ContentCrawler.future_result task_items] in *.
  - destruct (fst (fetch_with_retry n true)); [discriminate|].
    injection E as <-. simpl. lia.
  - rewrite (process_domain_group_length d ns rs E). lia.
Qed.

Lemma fold_collect_length (tasks : list task) : forall results,
  (length (fold_left collect tasks results)
   <= length results + length (concat (map task_items tasks)))%nat.
Proof.
  induction tasks as [|t tasks IH]; intros results; cbn [fold_left map concat].
  - lia.
  - specialize (IH (collect results t)). pose proof (collect_length results t).
    rewrite length_app. lia.
Qed.

Lemma in_domain_slow (n : notification) (l : list notification) :
  is_fast netloc n = false ->
  List.filter (in_domain (domain_of n)) (slow_of l)
  = List.filter (in_domain (domain_of n)) l.
Proof.
  intros Hn. induction l as [|m l IH]; [reflexivity|]. cbn [List.filter].
  destruct (String.eqb_spec (domain_of m) (domain_of n)) as [E|Hne].
  - assert (Hm : is_fast netloc m = false)
      by (unfold is_fast in *; rewrite E; exact Hn).
    rewrite Hm. cbn [negb List.filter].
    destruct (String.eqb_spec (domain_of m) (domain_of n)); [|contradiction].
    rewrite IH. reflexivity.
  - destruct (negb (is_fast netloc m)); [cbn [List.filter]|]; [|exact IH].
    destruct (String.eqb_spec (domain_of m) (domain_of n)); [contradiction|exact IH].
Qed.

End CrawlOrderFacts.

(** X22.  When the fetcher answers every attempt, the list
    [crawl_all_content] returns is in a fixed order, whatever the threads
    do: first the results for the notifications of the fast domain, in the
    order of the input; then, domain by domain in the order in which the
    other domains first appear in the input, the results for the
    notifications of that domain, in the order of the input. *)
Theorem crawl_results_order (payload : Type)
    (fetch_content : ContentCrawler.notification -> nat ->
                     Py.res (ContentCrawler.content_data payload))
    (netloc : string -> string) (all : list ContentCrawler.notification) :
  (forall n, In n all -> ContentCrawler.fetchable payload fetch_content n) ->
  let domain_of n := netloc (ContentCrawler.link n) in
  let fast := List.filter (ContentCrawler.is_fast netloc) all in
  let slow := List.filter (fun n => negb (ContentCrawler.is_fast netloc n)) all in
  let domains := SuggestionEngine.first_seen (map domain_of slow) in
  map inr (ContentCrawler.crawl_all_content payload fetch_content netloc all)
  = map (ContentCrawler.outcome payload fetch_content netloc)
      (fast ++ flat_map
                 (fun d => List.filter (fun n => String.eqb (domain_of n) d) slow)
                 domains).
Proof.
  intros H. cbv zeta. unfold ContentCrawler.crawl_all_content.
  rewrite categorize_notifications_spec.
  rewrite (collect_all payload fetch_content netloc).
  - cbn [map app]. rewrite crawl_items_spec. reflexivity.
  - apply List.Forall_forall. intros t Ht. apply List.Forall_forall. intros n Hn.
    apply H. apply in_app_or in Ht as [Ht|Ht]; apply in_map_iff in Ht as (x & <- & Hx).
    + destruct Hn as [<-|[]]. apply filter_In in Hx. apply Hx.
    + apply in_map_iff in Hx as (d & <- & _). cbn [ContentCrawler.task_items snd] in Hn.
      apply filter_In in Hn as [Hn _]. apply filter_In in Hn. apply Hn.
Qed.

Lemma crawl_results_order_witness :
  map inr (ContentCrawler.crawl_all_content unit Samples.flaky Samples.netloc
             Samples.batch)
  = map (ContentCrawler.outcome unit Samples.flaky Samples.netloc)
      [Samples.fast_notice; Samples.grouped_notice_1; Samples.grouped_notice_2].
Proof.
  apply (crawl_results_order unit Samples.flaky Samples.netloc Samples.batch).
  intros n _ k _. eexists. reflexivity.
Defined.

(** X23.  A fetcher that raises for a notification of a domain crawled as a
    group costs the whole group: [process_domain_group] lets the exception
    through, the loop over the futures logs it and goes on, and none of the
    notifications of that domain gets a result, the ones fetched before the
    exception included.  The list returned is shorter than the input by at
    least the size of the group. *)
Theorem raising_fetch_loses_the_group (payload : Type)
    (fetch_content : ContentCrawler.notification -> nat ->
                     Py.res (ContentCrawler.content_data payload))
    (netloc : string -> string) (all : list ContentCrawler.notification)
    (n : ContentCrawler.notification) :
  In n all ->
  ContentCrawler.is_fast netloc n = false ->
  Py.raises (ContentCrawler.outcome payload fetch_content netloc n) ->
  let group :=
    List.filter
      (fun m => String.eqb (netloc (ContentCrawler.link m))
                  (netloc (ContentCrawler.link n))) all in
  Py.raises (ContentCrawler.process_domain_group payload fetch_content
               (netloc (ContentCrawler.link n)) group) /\
  (length (ContentCrawler.crawl_all_content payload fetch_content netloc all)
     + length group <= length all)%nat.
Proof.
  intros Hin Hn Hraise. cbv zeta.
  assert (Hn_group : In n (List.filter
                             (fun m => String.eqb (netloc (ContentCrawler.link m))
                                         (netloc (ContentCrawler.link n))) all)).
  { apply filter_In. split; [exact Hin|apply String.eqb_refl]. }
  assert (Hbad : Py.raises (ContentCrawler.process_domain_group payload fetch_content
                              (netloc (ContentCrawler.link n))
                              (List.filter
                                 (fun m => String.eqb (netloc (ContentCrawler.link m))
                                             (netloc (ContentCrawler.link n))) all))).
  { apply (process_domain_group_raises payload fetch_content _ _ n Hn_group).
    unfold ContentCrawler.outcome in Hraise. rewrite Hn in Hraise. exact Hraise. }
  split; [exact Hbad|].
  pose proof (crawl_tasks_items netloc all) as Hitems.
  unfold ContentCrawler.crawl_all_content.
  rewrite categorize_notifications_spec in Hitems |- *.
  rewrite <- (in_domain_slow netloc n all Hn) in Hbad |- *.
  assert (Hg : In (netloc (ContentCrawler.link n),
                   List.filter
                     (fun m => String.eqb (netloc (ContentCrawler.link m))
                                 (netloc (ContentCrawler.link n)))
                     (List.filter (fun m => negb (ContentCrawler.is_fast netloc m)) all))
                 (map (fun d =>
                         (d, List.filter
                               (fun m => String.eqb (netloc (ContentCrawler.link m)) d)
                               (List.filter
                                  (fun m => negb (ContentCrawler.is_fast netloc m)) all)))
                    (SuggestionEngine.first_seen
                       (map (fun m => netloc (ContentCrawler.link m))
                          (List.filter
                             (fun m => negb (ContentCrawler.is_fast netloc m)) all))))).
  { apply in_map_iff. exists (netloc (ContentCrawler.link n)). split; [reflexivity|].
    apply In_first_seen, in_map_iff. exists n. split; [reflexivity|].
    apply filter_In. split; [exact Hin|]. rewrite Hn. reflexivity. }
  apply in_split in Hg as (g1 & g2 & Hg). rewrite Hg in Hitems |- *.
  apply Permutation_length in Hitems. rewrite <- Hitems.
  rewrite !map_app, !concat_app, !length_app. cbn [map concat fst snd].
  rewrite !length_app. cbn [ContentCrawler.task_items].
  rewrite app_assoc, fold_left_app. cbn [fold_left].
  unfold ContentCrawler.collect at 2.
  cbn [ContentCrawler.future_result]. destruct Hbad as [e ->].
  pose proof (fold_collect_length payload fetch_content
                (map (fun g => ContentCrawler.GroupTask (fst g) (snd g)) g2)
                (fold_left (ContentCrawler.collect payload fetch_content)
                   (map ContentCrawler.FastTask
                      (List.filter (ContentCrawler.is_fast netloc) all)
                      ++ map (fun g => ContentCrawler.GroupTask (fst g) (snd g)) g1) []))
    as H2.
  pose proof (fold_collect_length payload fetch_content
                (map ContentCrawler.FastTask
                   (List.filter (ContentCrawler.is_fast netloc) all)
                   ++ map (fun g => ContentCrawler.GroupTask (fst g) (snd g)) g1) [])
    as H1.
  rewrite map_app, concat_app, length_app in H1. cbn [length] in H1.
  lia.
Qed.

Lemma raising_fetch_loses_the_group_witness :
  (length (ContentCrawler.crawl_all_content unit Samples.one_raising Samples.netloc
             Samples.batch)
     + 2 <= 3)%nat.
Proof.
  refine (proj2 (raising_fetch_loses_the_group unit Samples.one_raising Samples.netloc
                   Samples.batch Samples.grouped_notice_1 _ _ _)).
  - simpl. auto.
  - vm_compute. reflexivity.
  - eexists. vm_compute. reflexivity.
Defined.

(** ** Who gets a message *)

(** X24.  [send_email] sends at most one message.  When
    it does send one, the subscriber mapping was read without an error, the
    item has a [notification_id] that is a number (or a truth value, which
    is looked up as 1 or 0), the receivers are exactly the list the mapping
    holds under that id, which is not empty, the data is the item itself,
    and the text returned counts the receivers.  In every other case nothing
    is sent. *)
Theorem send_email_reaches_subscribers (s : Py.store)
    (email_db : Py.res (gmap Z (list string))) (content_data : Py.pyval)
    (emails : list string) (data : Py.pyval) :
  In (EmailSender.SendEmail emails data) (snd (Main.send_email s email_db content_data)) ->
  snd (Main.send_email s email_db content_data) = [EmailSender.SendEmail emails data] /\
  data = content_data /\ emails <> [] /\
  exists receiver id k,
    email_db = inr receiver /\
    Py.py_getitem s content_data "notification_id" = inr id /\
    Py.hash_key s id = inr (Py.KInt k) /\
    receiver !! k = Some emails /\
    fst (Main.send_email s email_db content_data)
    = "Email sent to " ++ Py.str_of_Z (Z.of_nat (length emails))
        ++ " subscribers for notification_id " ++ Py.py_str id.
Proof.
  unfold Main.send_email, EmailSender.send, EmailSender.receiver_lookup.
  destruct email_db as [e|receiver]; [intros []|].
  destruct (Py.py_getitem s content_data "notification_id") as [e|id]; [intros []|].
  cbn [Py.bind]. destruct (Py.hash_key s id) as [e|k] eqn:Hk; [intros []|].
  cbn [Py.bind].
  destruct k as [|k| |]; cbn [Py.bind Py.ret]; try solve [intros []].
  destruct (receiver !! k) as [[|a l]|] eqn:Hr; cbn [fst snd]; try solve [intros []].
  intros [[= <- <-]|[]].
  split; [reflexivity|]. split; [reflexivity|]. split; [discriminate|].
  exists receiver, id, k. auto.
Qed.

Lemma send_email_reaches_subscribers_witness :
  snd (Main.send_email (<[ 2%positive := [("notification_id", Py.PInt 8)] ]> Samples.store_7)
         (inr Samples.subscribers) (Py.PRef 2%positive))
  = [EmailSender.SendEmail ["a@ssu.ac.kr"] (Py.PRef 2%positive)].
Proof.
  refine (proj1 (send_email_reaches_subscribers _ (inr Samples.subscribers)
                   (Py.PRef 2%positive) ["a@ssu.ac.kr"] (Py.PRef 2%positive) _)).
  vm_compute. left. reflexivity.
Defined.
